(** * The Azure IoT Plug-and-Play thermostat sample (sample_azure_iot_pnp.c)

    A shallow embedding of the sample's device model, property synchronisation,
    command dispatch, connection retry loop and demo task, with the properties
    of its specification stated and proved over the embedding.

    Conventions.
    - A C [double] is a binary64 primitive float; [a > b] is [b <? a].
    - A [uint32_t] or [uint16_t] is a [Z] with its wrap-around written out.
    - The file-scope device variables are the record [DeviceValues]; the
      messages handed to the hub client are recorded, in order, in [xSent].
    - [configASSERT] stops the task: code after a failed assertion is not run.
    - The libraries that the sample calls are not part of it. The JSON writer
      is a parameter of the embedding; the JSON reader, the property iterator
      and the backoff policy are small models of their interfaces; the results
      of the network calls are inputs of the task.
    - A loop of the sample is a fixpoint over a bound on its turns, and is
      proved to end within the bound. *)

From Stdlib Require Import ZArith List String Ascii Bool Lia Floats.
From Stdlib Require Uint63.
Import ListNotations.

#[local] Open Scope Z_scope.

(* ================================================================= *)
(** * Part I: the embedding                                           *)
(* ================================================================= *)

(** ** Configuration constants *)

Definition sampleazureiotRETRY_MAX_ATTEMPTS : Z := 5.
Definition sampleazureiotRETRY_MAX_BACKOFF_DELAY_MS : Z := 5000.
Definition sampleazureiotRETRY_BACKOFF_BASE_MS : Z := 500.

Definition sampleazureiotPROPERTY_STATUS_SUCCESS : Z := 200.
Definition sampleazureiotPROPERTY_SUCCESS : string := "success".
Definition sampleazureiotPROPERTY_TARGET_TEMPERATURE_TEXT : string := "targetTemperature".
Definition sampleazureiotPROPERTY_MAX_TEMPERATURE_TEXT : string := "maxTempSinceLastReboot".

Definition sampleazureiotCOMMAND_MAX_MIN_REPORT : string := "getMaxMinReport".
Definition sampleazureiotCOMMAND_MAX_TEMP : string := "maxTemp".
Definition sampleazureiotCOMMAND_MIN_TEMP : string := "minTemp".
Definition sampleazureiotCOMMAND_TEMP_VERSION : string := "avgTemp".
Definition sampleazureiotCOMMAND_START_TIME : string := "startTime".
Definition sampleazureiotCOMMAND_END_TIME : string := "endTime".
Definition sampleazureiotCOMMAND_EMPTY_PAYLOAD : string := "{}".
Definition sampleazureiotCOMMAND_FAKE_END_TIME : string := "2023-01-10T10:00:00Z".

Definition sampleazureiotDEFAULT_START_TEMP_COUNT : Z := 1.
Definition sampleazureiotDEFAULT_START_TEMP_CELSIUS : float := 22%float.
Definition sampleazureiotDOUBLE_DECIMAL_PLACE_DIGITS : Z := 2.

Definition sampleazureiotDELAY_BETWEEN_DEMO_ITERATIONS_MS : Z := 5000.
Definition sampleazureiotDELAY_BETWEEN_PUBLISHES_MS : Z := 2000.

(** ** Machine integers and doubles *)

Definition uint32_wrap (n : Z) : Z := n mod 2 ^ 32.

(** The conversion of a [uint32_t] to [double] (exact: the value is below 2^53). *)
Definition double_of_uint32 (n : Z) : float :=
  PrimFloat.of_uint63 (Uint63.of_Z n).

(** C's [a > b] and [a < b] on doubles; both are false when an operand is NaN. *)
Definition double_gt (a b : float) : bool := (b <? a)%float.
Definition double_lt (a b : float) : bool := (a <? b)%float.
Definition double_le (a b : float) : bool := (a <=? b)%float.

(** ** The device values (file-scope variables of the sample) *)

Record DeviceValues : Type := mkDeviceValues {
  xDeviceCurrentTemperature : float;
  xDeviceMaximumTemperature : float;
  xDeviceMinimumTemperature : float;
  xDeviceTemperatureSummation : float;
  ulDeviceTemperatureCount : Z;
  xDeviceAverageTemperature : float
}.

(** The initialisers of the six variables. *)
Definition xInitialDeviceValues : DeviceValues :=
  {| xDeviceCurrentTemperature := sampleazureiotDEFAULT_START_TEMP_CELSIUS;
     xDeviceMaximumTemperature := sampleazureiotDEFAULT_START_TEMP_CELSIUS;
     xDeviceMinimumTemperature := sampleazureiotDEFAULT_START_TEMP_CELSIUS;
     xDeviceTemperatureSummation := sampleazureiotDEFAULT_START_TEMP_CELSIUS;
     ulDeviceTemperatureCount := sampleazureiotDEFAULT_START_TEMP_COUNT;
     xDeviceAverageTemperature := sampleazureiotDEFAULT_START_TEMP_CELSIUS |}.

(** [prvUpdateLocalProperties]: the new device values and [*pxOutMaxTempChanged].
    [ulPropertyVersion] is not used by the body. *)
Definition prvUpdateLocalProperties (xNewTemperatureValue : float)
    (ulPropertyVersion : Z) (dev : DeviceValues) : DeviceValues * bool :=
  let xCurrent := xNewTemperatureValue in
  let '(xMaximum, xMinimum, xMaxTempChanged) :=
    if double_gt xCurrent (xDeviceMaximumTemperature dev) then
      (xCurrent, xDeviceMinimumTemperature dev, true)
    else if double_lt xCurrent (xDeviceMinimumTemperature dev) then
      (xDeviceMaximumTemperature dev, xCurrent, false)
    else
      (xDeviceMaximumTemperature dev, xDeviceMinimumTemperature dev, false) in
  let ulCount := uint32_wrap (ulDeviceTemperatureCount dev + 1) in
  let xSummation := (xDeviceTemperatureSummation dev + xCurrent)%float in
  ({| xDeviceCurrentTemperature := xCurrent;
      xDeviceMaximumTemperature := xMaximum;
      xDeviceMinimumTemperature := xMinimum;
      xDeviceTemperatureSummation := xSummation;
      ulDeviceTemperatureCount := ulCount;
      xDeviceAverageTemperature := (xSummation / double_of_uint32 ulCount)%float |},
   xMaxTempChanged).

(** A sequence of calls, each with its value and property version. *)
Definition applyTemperatures (calls : list (float * Z)) (dev : DeviceValues) : DeviceValues :=
  fold_left (fun d call => fst (prvUpdateLocalProperties (fst call) (snd call) d)) calls dev.

(** [minimum <= current <= maximum], as a test on the device values. *)
Definition temperature_ordered (dev : DeviceValues) : bool :=
  double_le (xDeviceMinimumTemperature dev) (xDeviceCurrentTemperature dev)
  && double_le (xDeviceCurrentTemperature dev) (xDeviceMaximumTemperature dev).

(** ** Result codes of the collaborators

    The headers of the middleware, of the TLS transport and of the backoff
    library are not part of the sample. Of each enumeration the embedding keeps
    the constants that the sample names and one constructor for every other
    code. *)

Inductive AzureIoTResult_t : Type :=
| eAzureIoTSuccess
| eAzureIoTErrorPending
| eAzureIoTErrorEndOfProperties
| eAzureIoTErrorOther (code : positive).

Definition AzureIoTResult_eqb (a b : AzureIoTResult_t) : bool :=
  match a, b with
  | eAzureIoTSuccess, eAzureIoTSuccess => true
  | eAzureIoTErrorPending, eAzureIoTErrorPending => true
  | eAzureIoTErrorEndOfProperties, eAzureIoTErrorEndOfProperties => true
  | eAzureIoTErrorOther c, eAzureIoTErrorOther d => Pos.eqb c d
  | _, _ => false
  end.

(** Codes the modelled JSON reader reports; the sample never tells them apart. *)
Definition eAzureIoTErrorJSONInvalidState : AzureIoTResult_t := eAzureIoTErrorOther 1.
Definition eAzureIoTErrorJSONReaderDone : AzureIoTResult_t := eAzureIoTErrorOther 2.
Definition eAzureIoTErrorOutOfMemory : AzureIoTResult_t := eAzureIoTErrorOther 3.

Inductive TlsTransportStatus_t : Type :=
| eTLSTransportSuccess
| eTLSTransportOther (code : positive).

Definition TlsTransportStatus_is_success (s : TlsTransportStatus_t) : bool :=
  match s with eTLSTransportSuccess => true | eTLSTransportOther _ => false end.

Inductive BackoffAlgorithmStatus_t : Type :=
| BackoffAlgorithmSuccess
| BackoffAlgorithmRetriesExhausted.

Inductive AzureIoTHubMessageType_t : Type :=
| eAzureIoTHubPropertiesGetMessage
| eAzureIoTHubPropertiesWritablePropertyMessage
| eAzureIoTHubPropertiesReportedResponseMessage
| eAzureIoTHubOtherMessage (code : positive).

Inductive AzureIoTHubClientPropertyType_t : Type :=
| eAzureIoTHubClientReportedFromDevice
| eAzureIoTHubClientPropertyWritable.

(** ** JSON writer

    The writer of the middleware is not part of the sample and is taken as a
    parameter: which appends it accepts (its buffer has a fixed size) and how
    many bytes it reports are given by a [JSONWriterLibrary]. What the sample
    appends is recorded as a list of [writer_token]. *)

Inductive writer_token : Type :=
| wBeginObject
| wEndObject
| wPropertyName (pucName : string)
| wDouble (xValue : float) (usFractionalDigits : Z)
| wPropertyWithDoubleValue (pucName : string) (xValue : float) (usFractionalDigits : Z)
| wPropertyWithStringValue (pucName : string) (pucValue : string)
| wBeginResponseStatus (pucPropertyName : string) (lAckCode : Z) (ulAckVersion : Z)
    (pucAckDescription : string)
| wEndResponseStatus.

Record AzureIoTJSONWriter_t : Type := mkWriter {
  xWritten : list writer_token;
  ulWriterBufferSize : Z
}.

Record JSONWriterLibrary : Type := mkWriterLibrary {
  xAppendResult : AzureIoTJSONWriter_t -> writer_token -> AzureIoTResult_t;
  lBytesUsed : AzureIoTJSONWriter_t -> Z
}.

(** A writer library that accepts every append and reports one byte for each
    token written. *)
Definition xUnboundedWriter : JSONWriterLibrary :=
  {| xAppendResult := fun _ _ => eAzureIoTSuccess;
     lBytesUsed := fun w => Z.of_nat (List.length (xWritten w)) |}.

(** A writer library whose buffer takes at most [n] tokens. *)
Definition xBoundedWriter (n : nat) : JSONWriterLibrary :=
  {| xAppendResult := fun w _ =>
       if (List.length (xWritten w) <? n)%nat then eAzureIoTSuccess
       else eAzureIoTErrorOutOfMemory;
     lBytesUsed := fun w => Z.of_nat (List.length (xWritten w)) |}.

(** ** JSON reader over a command payload *)

(** Modelled from the spec: the tokens of the document codec of section 6. A
    payload is given by the tokens that the reader yields from it, up to the
    end of the payload or its first malformed byte. *)
Inductive json_token : Type :=
| tkBeginObject
| tkEndObject
| tkBeginArray
| tkEndArray
| tkPropertyName (s : string)
| tkString (s : string)
| tkNumber (x : float)
| tkTrue
| tkFalse
| tkNull.

(** Modelled from the spec: the reader of section 6, on its current token. *)
Record AzureIoTJSONReader_t : Type := mkReader {
  xToken : option json_token;
  xUnread : list json_token
}.

(** Modelled from the spec: the reader starts before the first token. Its
    initialisation over the payload of a message succeeds, as the sample
    asserts. *)
Definition AzureIoTJSONReader_Init (pucBuffer : list json_token)
  : AzureIoTResult_t * AzureIoTJSONReader_t :=
  (eAzureIoTSuccess, {| xToken := None; xUnread := pucBuffer |}).

(** Modelled from the spec: "next token" of section 6; it fails when the
    payload has no further token. *)
Definition AzureIoTJSONReader_NextToken (pxReader : AzureIoTJSONReader_t)
  : AzureIoTResult_t * AzureIoTJSONReader_t :=
  match xUnread pxReader with
  | [] => (eAzureIoTErrorJSONReaderDone, pxReader)
  | t :: rest => (eAzureIoTSuccess, {| xToken := Some t; xUnread := rest |})
  end.

(** Modelled from the spec: the typed extraction of a string of section 6. It
    copies the string of the current token, with its terminator, into a buffer
    of [ulBufferSize] bytes, and fails on a token that is not a string or does
    not fit. *)
Definition AzureIoTJSONReader_GetTokenString (pxReader : AzureIoTJSONReader_t)
    (ulBufferSize : Z) : AzureIoTResult_t * string :=
  match xToken pxReader with
  | Some (tkString s) =>
      if Z.of_nat (String.length s) <? ulBufferSize then (eAzureIoTSuccess, s)
      else (eAzureIoTErrorOutOfMemory, EmptyString)
  | _ => (eAzureIoTErrorJSONInvalidState, EmptyString)
  end.

(** ** Messages handed to the collaborators, and the task's world *)

(** What is in a payload buffer when it is sent: a string constant of the
    sample, or what a JSON writer wrote with the byte count it reported. *)
Inductive payload : Type :=
| pConstant (s : string)
| pWritten (tokens : list writer_token) (lBytes : Z).

Inductive event : Type :=
| evSendCommandResponse (ulStatus : Z) (xBody : payload)
| evSendPropertiesReported (xBody : payload)
| evSendTelemetry (xTemperature : float)
| evGetProperties
| evTLSConnect
| evTLSDisconnect
| evMQTTConnect
| evMQTTDisconnect
| evSubscribeCommand
| evSubscribeProperties
| evUnsubscribeProperties
| evUnsubscribeCommand
| evTaskDelay (ulMilliseconds : Z).

Record world : Type := mkWorld {
  xDevice : DeviceValues;
  xSent : list event
}.

Definition xInitialWorld : world :=
  {| xDevice := xInitialDeviceValues; xSent := [] |}.

(** The result of running a piece of the task: it returns, or a [configASSERT]
    fails and the task stops there, or a bounded loop of the embedding ran out
    of its bound (proved below never to happen). *)
Inductive outcome (A : Type) : Type :=
| Returned (a : A) (w : world)
| AssertFailed (w : world)
| OutOfFuel.

Arguments Returned {A} a w.
Arguments AssertFailed {A} w.
Arguments OutOfFuel {A}.

Definition task (A : Type) : Type := world -> outcome A.

Definition ret {A : Type} (a : A) : task A := fun w => Returned a w.

Definition bind {A B : Type} (m : task A) (k : A -> task B) : task B :=
  fun w =>
    match m w with
    | Returned a w' => k a w'
    | AssertFailed w' => AssertFailed w'
    | OutOfFuel => OutOfFuel
    end.

Declare Scope task_scope.
Delimit Scope task_scope with task.
Notation "x <- m ;; k" := (bind m (fun x => k))
  (at level 61, m at next level, right associativity) : task_scope.
Notation "' pat <- m ;; k" := (bind m (fun x => match x with pat => k end))
  (at level 61, pat pattern, m at next level, right associativity) : task_scope.
Notation "m ;; k" := (bind m (fun _ => k))
  (at level 61, right associativity) : task_scope.
#[local] Open Scope task_scope.

Definition configASSERT (x : bool) : task unit :=
  fun w => if x then Returned tt w else AssertFailed w.

Definition emit (e : event) : task unit :=
  fun w => Returned tt {| xDevice := xDevice w; xSent := xSent w ++ [e] |}.

Definition readDevice : task DeviceValues :=
  fun w => Returned (xDevice w) w.

Definition writeDevice (dev : DeviceValues) : task unit :=
  fun w => Returned tt {| xDevice := dev; xSent := xSent w |}.

Definition outOfFuel {A : Type} : task A := fun _ => OutOfFuel.

Definition is_success (xResult : AzureIoTResult_t) : bool :=
  AzureIoTResult_eqb xResult eAzureIoTSuccess.

(** ** Writer operations *)

Definition AzureIoTJSONWriter_Init (ulBufferSize : Z)
  : AzureIoTResult_t * AzureIoTJSONWriter_t :=
  (eAzureIoTSuccess, {| xWritten := []; ulWriterBufferSize := ulBufferSize |}).

(** An append the library accepts is recorded; a refused one leaves the
    writer as it was. *)
Definition writer_append (lib : JSONWriterLibrary) (pxWriter : AzureIoTJSONWriter_t)
    (t : writer_token) : AzureIoTResult_t * AzureIoTJSONWriter_t :=
  match xAppendResult lib pxWriter t with
  | eAzureIoTSuccess =>
      (eAzureIoTSuccess,
       {| xWritten := xWritten pxWriter ++ [t];
          ulWriterBufferSize := ulWriterBufferSize pxWriter |})
  | xError => (xError, pxWriter)
  end.

Definition AzureIoTJSONWriter_AppendBeginObject lib pxWriter :=
  writer_append lib pxWriter wBeginObject.
Definition AzureIoTJSONWriter_AppendEndObject lib pxWriter :=
  writer_append lib pxWriter wEndObject.
Definition AzureIoTJSONWriter_AppendPropertyName lib pxWriter (pucName : string) :=
  writer_append lib pxWriter (wPropertyName pucName).
Definition AzureIoTJSONWriter_AppendDouble lib pxWriter (xValue : float) (usDigits : Z) :=
  writer_append lib pxWriter (wDouble xValue usDigits).
Definition AzureIoTJSONWriter_AppendPropertyWithDoubleValue lib pxWriter
    (pucName : string) (xValue : float) (usDigits : Z) :=
  writer_append lib pxWriter (wPropertyWithDoubleValue pucName xValue usDigits).
Definition AzureIoTJSONWriter_AppendPropertyWithStringValue lib pxWriter
    (pucName pucValue : string) :=
  writer_append lib pxWriter (wPropertyWithStringValue pucName pucValue).
Definition AzureIoTHubClientProperties_BuilderBeginResponseStatus lib pxWriter
    (pucPropertyName : string) (lAckCode ulAckVersion : Z) (pucAckDescription : string) :=
  writer_append lib pxWriter
    (wBeginResponseStatus pucPropertyName lAckCode ulAckVersion pucAckDescription).
Definition AzureIoTHubClientProperties_BuilderEndResponseStatus lib pxWriter :=
  writer_append lib pxWriter wEndResponseStatus.
Definition AzureIoTJSONWriter_GetBytesUsed (lib : JSONWriterLibrary)
    (pxWriter : AzureIoTJSONWriter_t) : Z :=
  lBytesUsed lib pxWriter.

(** Sizes of the static buffers. *)
Definition sizeof_ucCommandPayloadBuffer : Z := 256.
Definition sizeof_ucCommandStartTimeValueBuffer : Z := 32.
Definition sizeof_ucPropertyPayloadBuffer : Z := 256.

(** ** Commands *)

Record AzureIoTHubClientCommandRequest_t : Type := mkCommandRequest {
  pucCommandName : string;            (* the bytes of the name *)
  pvCommandPayload : list json_token  (* the payload, as the reader tokenises it *)
}.

Definition usCommandNameLength (pxMessage : AzureIoTHubClientCommandRequest_t) : Z :=
  Z.of_nat (String.length (pucCommandName pxMessage)).

(** The else-if chain of [prvInvokeMaxMinCommand]: the first call that fails
    ends it with that call's result. *)
Definition and_then {W : Type} (r : AzureIoTResult_t * W)
    (k : W -> AzureIoTResult_t * W) : AzureIoTResult_t * W :=
  if is_success (fst r) then k (snd r) else r.

Definition prvInvokeMaxMinCommand (lib : JSONWriterLibrary)
    (pxReader : AzureIoTJSONReader_t) (pxWriter : AzureIoTJSONWriter_t)
    (dev : DeviceValues) : AzureIoTResult_t * AzureIoTJSONWriter_t :=
  let '(xResult, xReader) := AzureIoTJSONReader_NextToken pxReader in
  if negb (is_success xResult) then (xResult, pxWriter)
  else
    let '(xResult, ucCommandStartTimeValueBuffer) :=
      AzureIoTJSONReader_GetTokenString xReader sizeof_ucCommandStartTimeValueBuffer in
    if negb (is_success xResult) then (xResult, pxWriter)
    else
      and_then (AzureIoTJSONWriter_AppendBeginObject lib pxWriter) (fun w =>
      and_then (AzureIoTJSONWriter_AppendPropertyWithDoubleValue lib w
                  sampleazureiotCOMMAND_MAX_TEMP (xDeviceMaximumTemperature dev)
                  sampleazureiotDOUBLE_DECIMAL_PLACE_DIGITS) (fun w =>
      and_then (AzureIoTJSONWriter_AppendPropertyWithDoubleValue lib w
                  sampleazureiotCOMMAND_MIN_TEMP (xDeviceMinimumTemperature dev)
                  sampleazureiotDOUBLE_DECIMAL_PLACE_DIGITS) (fun w =>
      and_then (AzureIoTJSONWriter_AppendPropertyWithDoubleValue lib w
                  sampleazureiotCOMMAND_TEMP_VERSION (xDeviceAverageTemperature dev)
                  sampleazureiotDOUBLE_DECIMAL_PLACE_DIGITS) (fun w =>
      and_then (AzureIoTJSONWriter_AppendPropertyWithStringValue lib w
                  sampleazureiotCOMMAND_START_TIME ucCommandStartTimeValueBuffer) (fun w =>
      and_then (AzureIoTJSONWriter_AppendPropertyWithStringValue lib w
                  sampleazureiotCOMMAND_END_TIME sampleazureiotCOMMAND_FAKE_END_TIME) (fun w =>
      AzureIoTJSONWriter_AppendEndObject lib w)))))).

(** C's [strncmp] on byte strings; the end of a string is its terminator. *)
Definition char_at_start (s : string) : ascii :=
  match s with EmptyString => Ascii.zero | String c _ => c end.

Definition string_rest (s : string) : string :=
  match s with EmptyString => EmptyString | String _ rest => rest end.

Fixpoint strncmp (s1 s2 : string) (n : nat) : Z :=
  match n with
  | O => 0
  | S n' =>
      let c1 := char_at_start s1 in
      let c2 := char_at_start s2 in
      if Ascii.eqb c1 c2 then
        if Ascii.eqb c1 Ascii.zero then 0
        else strncmp (string_rest s1) (string_rest s2) n'
      else Z.of_N (N_of_ascii c1) - Z.of_N (N_of_ascii c2)
  end.

(** [prvHandleCommand]. The result of [AzureIoTHubClient_SendCommandResponse]
    is only logged, so a response is recorded when the call is made. *)
Definition prvHandleCommand (lib : JSONWriterLibrary)
    (pxMessage : AzureIoTHubClientCommandRequest_t) : task unit :=
  let lCommandNameLength := Z.of_nat (String.length sampleazureiotCOMMAND_MAX_MIN_REPORT) in
  if (lCommandNameLength =? usCommandNameLength pxMessage)
     && (strncmp sampleazureiotCOMMAND_MAX_MIN_REPORT (pucCommandName pxMessage)
           (Z.to_nat lCommandNameLength) =? 0)
  then
    let '(xResult, xReader) := AzureIoTJSONReader_Init (pvCommandPayload pxMessage) in
    configASSERT (is_success xResult) ;;
    let '(xResult, xWriter) := AzureIoTJSONWriter_Init sizeof_ucCommandPayloadBuffer in
    configASSERT (is_success xResult) ;;
    dev <- readDevice ;;
    let '(xResult, xWriter) := prvInvokeMaxMinCommand lib xReader xWriter dev in
    if is_success xResult then
      let ulCommandPayloadLength := AzureIoTJSONWriter_GetBytesUsed lib xWriter in
      if 0 <? ulCommandPayloadLength then
        emit (evSendCommandResponse 200 (pWritten (xWritten xWriter) ulCommandPayloadLength))
      else ret tt
    else
      emit (evSendCommandResponse 501 (pConstant sampleazureiotCOMMAND_EMPTY_PAYLOAD))
  else
    emit (evSendCommandResponse 404 (pConstant sampleazureiotCOMMAND_EMPTY_PAYLOAD)).

(** What the specification calls the handler's input argument and produced
    body: the start time is the string token that opens the payload, if it
    fits the start-time buffer; the report lists the recorded maximum, minimum
    and average, the echoed start time and the fixed end time. *)
Definition start_time_argument (pvPayload : list json_token) : option string :=
  match pvPayload with
  | tkString s :: _ =>
      if Z.of_nat (String.length s) <? sizeof_ucCommandStartTimeValueBuffer
      then Some s else None
  | _ => None
  end.

Definition max_min_report (dev : DeviceValues) (pucStartTime : string) : list writer_token :=
  [ wBeginObject;
    wPropertyWithDoubleValue "maxTemp" (xDeviceMaximumTemperature dev) 2;
    wPropertyWithDoubleValue "minTemp" (xDeviceMinimumTemperature dev) 2;
    wPropertyWithDoubleValue "avgTemp" (xDeviceAverageTemperature dev) 2;
    wPropertyWithStringValue "startTime" pucStartTime;
    wPropertyWithStringValue "endTime" "2023-01-10T10:00:00Z";
    wEndObject ].

(** The library accepts the tokens, appended in order to the writer. *)
Fixpoint writer_accepts (lib : JSONWriterLibrary) (pxWriter : AzureIoTJSONWriter_t)
    (tokens : list writer_token) : bool :=
  match tokens with
  | [] => true
  | t :: rest =>
      is_success (xAppendResult lib pxWriter t)
      && writer_accepts lib
           {| xWritten := xWritten pxWriter ++ [t];
              ulWriterBufferSize := ulWriterBufferSize pxWriter |} rest
  end.

Definition xEmptyWriter (ulBufferSize : Z) : AzureIoTJSONWriter_t :=
  {| xWritten := []; ulWriterBufferSize := ulBufferSize |}.

(** The writer after the tokens were appended to an empty one. *)
Definition xWriterHolding (ulBufferSize : Z) (tokens : list writer_token)
  : AzureIoTJSONWriter_t :=
  {| xWritten := tokens; ulWriterBufferSize := ulBufferSize |}.

(** The world after one more message was handed over. *)
Definition world_after_sending (w : world) (sent : list event) : world :=
  {| xDevice := xDevice w; xSent := xSent w ++ sent |}.

(** Appending tokens one after the other, as an else-if chain does: the first
    refused append ends the chain. *)
Fixpoint append_chain (lib : JSONWriterLibrary) (pxWriter : AzureIoTJSONWriter_t)
    (tokens : list writer_token) : AzureIoTResult_t * AzureIoTJSONWriter_t :=
  match tokens with
  | [] => (eAzureIoTSuccess, pxWriter)
  | t :: rest =>
      match rest with
      | [] => writer_append lib pxWriter t
      | _ :: _ => and_then (writer_append lib pxWriter t)
                    (fun w => append_chain lib w rest)
      end
  end.

(** ** Property documents *)

(** Modelled from the spec: the value of an entry of a DesiredPropertyDocument
    (section 3): a number, or anything else, which the extraction of a double
    rejects with some error code. *)
Inductive json_value : Type :=
| jvNumber (x : float)
| jvOther (xGetDoubleError : positive).

(** Modelled from the spec: an entry of the document (section 3), with the
    name of its component (empty when it has none). *)
Record property_entry : Type := mkProperty {
  pucComponentName : string;
  pucPropertyName : string;
  xPropertyValue : json_value
}.

(** Modelled from the spec: how the iteration over a document ends (section
    4.3, step 3): at the end-of-properties condition or at a mid-parse failure. *)
Inductive properties_end : Type :=
| xEndOfProperties
| xParseFailure (code : positive).

(** Modelled from the spec: the result of extracting the version from the
    document header (section 4.3, step 1). *)
Inductive properties_version : Type :=
| xVersionIs (ulVersion : Z)
| xVersionFailure (code : positive).

(** Modelled from the spec: the DesiredPropertyDocument of section 3 (message
    kind, version, ordered entries) as the property iterator of the hub client
    presents it. *)
Record AzureIoTHubClientPropertiesResponse_t : Type := mkPropertiesResponse {
  xMessageType : AzureIoTHubMessageType_t;
  xVersion : properties_version;
  xProperties : list property_entry;
  xPropertiesEnd : properties_end
}.

(** The JSON reader and the property iterator of the hub client on a property
    document. *)
Module PropertiesReader.

(** Modelled from the spec: where the reader is in the document (section 6,
    token-level navigation): between two entries, on the name of the first
    unread entry, or on its value. *)
Inductive position : Type :=
| AtNextProperty
| AtPropertyName
| AtPropertyValue.

(** Modelled from the spec: the reader over the entries of a document. *)
Record AzureIoTJSONReader_t : Type := mkReader {
  xPosition : position;
  xUnread : list property_entry;
  xEnd : properties_end
}.

(** Modelled from the spec: the reader starts before the first entry. Its
    initialisation over the payload of a message succeeds, as the sample
    asserts. *)
Definition AzureIoTJSONReader_Init (pxMessage : AzureIoTHubClientPropertiesResponse_t)
  : AzureIoTResult_t * AzureIoTJSONReader_t :=
  (eAzureIoTSuccess,
   {| xPosition := AtNextProperty;
      xUnread := xProperties pxMessage;
      xEnd := xPropertiesEnd pxMessage |}).

(** Modelled from the spec: the extraction of the version (section 4.3, step 1). *)
Definition AzureIoTHubClientProperties_GetPropertiesVersion
    (pxMessage : AzureIoTHubClientPropertiesResponse_t) : AzureIoTResult_t * Z :=
  match xVersion pxMessage with
  | xVersionIs ulVersion => (eAzureIoTSuccess, ulVersion)
  | xVersionFailure code => (eAzureIoTErrorOther code, 0)
  end.

(** Modelled from the spec: the iteration over the entries (section 4.3, steps
    2 and 3). It yields the component name of the next entry and leaves the
    reader on the entry's name, or reports how the document ends. The result,
    the reader, the component name and its length. *)
Definition AzureIoTHubClientProperties_GetNextComponentProperty
    (pxReader : AzureIoTJSONReader_t) (xMessageType : AzureIoTHubMessageType_t)
    (xPropertyType : AzureIoTHubClientPropertyType_t)
  : AzureIoTResult_t * AzureIoTJSONReader_t * string * Z :=
  match xPosition pxReader, xUnread pxReader with
  | AtNextProperty, e :: _ =>
      (eAzureIoTSuccess,
       {| xPosition := AtPropertyName; xUnread := xUnread pxReader; xEnd := xEnd pxReader |},
       pucComponentName e, Z.of_nat (String.length (pucComponentName e)))
  | AtNextProperty, [] =>
      (match xEnd pxReader with
       | xEndOfProperties => eAzureIoTErrorEndOfProperties
       | xParseFailure code => eAzureIoTErrorOther code
       end, pxReader, EmptyString, 0)
  | _, _ => (eAzureIoTErrorJSONInvalidState, pxReader, EmptyString, 0)
  end.

(** Modelled from the spec: the text-equality test of section 6, on the name
    of an entry. *)
Definition AzureIoTJSONReader_TokenIsTextEqual (pxReader : AzureIoTJSONReader_t)
    (pucExpectedText : string) : bool :=
  match xPosition pxReader, xUnread pxReader with
  | AtPropertyName, e :: _ => String.eqb (pucPropertyName e) pucExpectedText
  | _, _ => false
  end.

(** Modelled from the spec: "next token" of section 6: from the name of an
    entry to its value, and from the value past the entry. *)
Definition AzureIoTJSONReader_NextToken (pxReader : AzureIoTJSONReader_t)
  : AzureIoTResult_t * AzureIoTJSONReader_t :=
  match xPosition pxReader, xUnread pxReader with
  | AtPropertyName, _ :: _ =>
      (eAzureIoTSuccess,
       {| xPosition := AtPropertyValue; xUnread := xUnread pxReader; xEnd := xEnd pxReader |})
  | AtPropertyValue, _ :: rest =>
      (eAzureIoTSuccess,
       {| xPosition := AtNextProperty; xUnread := rest; xEnd := xEnd pxReader |})
  | _, _ => (eAzureIoTErrorJSONInvalidState, pxReader)
  end.

(** Modelled from the spec: "skip subtree" of section 6: on a value, moves to
    the end of the value. *)
Definition AzureIoTJSONReader_SkipChildren (pxReader : AzureIoTJSONReader_t)
  : AzureIoTResult_t * AzureIoTJSONReader_t :=
  match xPosition pxReader, xUnread pxReader with
  | AtPropertyValue, _ :: _ => (eAzureIoTSuccess, pxReader)
  | _, _ => (eAzureIoTErrorJSONInvalidState, pxReader)
  end.

(** Modelled from the spec: the typed extraction of a double of section 6; a
    value of another type is rejected (section 4.3, step 2). *)
Definition AzureIoTJSONReader_GetTokenDouble (pxReader : AzureIoTJSONReader_t)
  : AzureIoTResult_t * option float :=
  match xPosition pxReader, xUnread pxReader with
  | AtPropertyValue, e :: _ =>
      match xPropertyValue e with
      | jvNumber x => (eAzureIoTSuccess, Some x)
      | jvOther code => (eAzureIoTErrorOther code, None)
      end
  | _, _ => (eAzureIoTErrorJSONInvalidState, None)
  end.

End PropertiesReader.

(** ** Property synchronisation *)

Definition prvSkipPropertyAndValue (pxReader : PropertiesReader.AzureIoTJSONReader_t)
  : task PropertiesReader.AzureIoTJSONReader_t :=
  let '(xResult, pxReader) := PropertiesReader.AzureIoTJSONReader_NextToken pxReader in
  configASSERT (is_success xResult) ;;
  let '(xResult, pxReader) := PropertiesReader.AzureIoTJSONReader_SkipChildren pxReader in
  configASSERT (is_success xResult) ;;
  let '(xResult, pxReader) := PropertiesReader.AzureIoTJSONReader_NextToken pxReader in
  configASSERT (is_success xResult) ;;
  ret pxReader.

(** The [while] loop of [prvProcessProperties]: the result it ends with and
    the value of [*pxOutTemperature]. Each turn of the loop consumes one entry;
    [fuel] bounds the number of turns. *)
Fixpoint prvProcessProperties_loop (fuel : nat)
    (xMessageType : AzureIoTHubMessageType_t)
    (xPropertyType : AzureIoTHubClientPropertyType_t)
    (xReader : PropertiesReader.AzureIoTJSONReader_t) (xOutTemperature : float)
  : task (AzureIoTResult_t * float) :=
  match fuel with
  | O => outOfFuel
  | S fuel' =>
      let '(xResult, xReader, pucComponentName, ulComponentNameLength) :=
        PropertiesReader.AzureIoTHubClientProperties_GetNextComponentProperty
          xReader xMessageType xPropertyType in
      if is_success xResult then
        if 0 <? ulComponentNameLength then
          xReader <- prvSkipPropertyAndValue xReader ;;
          prvProcessProperties_loop fuel' xMessageType xPropertyType xReader xOutTemperature
        else if PropertiesReader.AzureIoTJSONReader_TokenIsTextEqual xReader
                  sampleazureiotPROPERTY_TARGET_TEMPERATURE_TEXT then
          let '(xResult, xReader) := PropertiesReader.AzureIoTJSONReader_NextToken xReader in
          configASSERT (is_success xResult) ;;
          let '(xResult, xValue) := PropertiesReader.AzureIoTJSONReader_GetTokenDouble xReader in
          let xOutTemperature :=
            match xValue with Some x => x | None => xOutTemperature end in
          if negb (is_success xResult) then ret (xResult, xOutTemperature)
          else
            let '(xResult, xReader) := PropertiesReader.AzureIoTJSONReader_NextToken xReader in
            configASSERT (is_success xResult) ;;
            prvProcessProperties_loop fuel' xMessageType xPropertyType xReader xOutTemperature
        else
          xReader <- prvSkipPropertyAndValue xReader ;;
          prvProcessProperties_loop fuel' xMessageType xPropertyType xReader xOutTemperature
      else ret (xResult, xOutTemperature)
  end.

(** [prvProcessProperties]: its result, [*pxOutTemperature] and
    [*ulOutVersion] (the latter is meaningful only when the version was
    extracted). *)
Definition prvProcessProperties (pxMessage : AzureIoTHubClientPropertiesResponse_t)
    (xPropertyType : AzureIoTHubClientPropertyType_t)
  : task (AzureIoTResult_t * float * Z) :=
  let xOutTemperature := 0%float in
  let '(xResult, xReader) := PropertiesReader.AzureIoTJSONReader_Init pxMessage in
  configASSERT (is_success xResult) ;;
  let '(xResult, ulOutVersion) :=
    PropertiesReader.AzureIoTHubClientProperties_GetPropertiesVersion pxMessage in
  if negb (is_success xResult) then ret (xResult, xOutTemperature, ulOutVersion)
  else
    let '(xResult, xReader) := PropertiesReader.AzureIoTJSONReader_Init pxMessage in
    configASSERT (is_success xResult) ;;
    '(xResult, xOutTemperature) <-
      prvProcessProperties_loop (S (List.length (xProperties pxMessage)))
        (xMessageType pxMessage) xPropertyType xReader xOutTemperature ;;
    if negb (AzureIoTResult_eqb xResult eAzureIoTErrorEndOfProperties)
    then ret (xResult, xOutTemperature, ulOutVersion)
    else ret (eAzureIoTSuccess, xOutTemperature, ulOutVersion).

(** [prvSendNewMaxTemp]. The result of [AzureIoTHubClient_SendPropertiesReported]
    is only logged. *)
Definition prvSendNewMaxTemp (lib : JSONWriterLibrary) (xUpdatedTemperature : float)
  : task unit :=
  let '(xResult, xWriter) := AzureIoTJSONWriter_Init sizeof_ucPropertyPayloadBuffer in
  configASSERT (is_success xResult) ;;
  let '(xResult, xWriter) := AzureIoTJSONWriter_AppendBeginObject lib xWriter in
  configASSERT (is_success xResult) ;;
  let '(xResult, xWriter) :=
    AzureIoTJSONWriter_AppendPropertyName lib xWriter
      sampleazureiotPROPERTY_MAX_TEMPERATURE_TEXT in
  configASSERT (is_success xResult) ;;
  let '(xResult, xWriter) :=
    AzureIoTJSONWriter_AppendDouble lib xWriter xUpdatedTemperature
      sampleazureiotDOUBLE_DECIMAL_PLACE_DIGITS in
  configASSERT (is_success xResult) ;;
  let '(xResult, xWriter) := AzureIoTJSONWriter_AppendEndObject lib xWriter in
  configASSERT (is_success xResult) ;;
  let lBytesWritten := AzureIoTJSONWriter_GetBytesUsed lib xWriter in
  if lBytesWritten <? 0 then ret tt
  else emit (evSendPropertiesReported (pWritten (xWritten xWriter) lBytesWritten)).

(** [prvAckIncomingTemperature]. *)
Definition prvAckIncomingTemperature (lib : JSONWriterLibrary)
    (xUpdatedTemperature : float) (ulVersion : Z) : task unit :=
  let '(xResult, xWriter) := AzureIoTJSONWriter_Init sizeof_ucPropertyPayloadBuffer in
  configASSERT (is_success xResult) ;;
  let '(xResult, xWriter) := AzureIoTJSONWriter_AppendBeginObject lib xWriter in
  configASSERT (is_success xResult) ;;
  let '(xResult, xWriter) :=
    AzureIoTHubClientProperties_BuilderBeginResponseStatus lib xWriter
      sampleazureiotPROPERTY_TARGET_TEMPERATURE_TEXT
      sampleazureiotPROPERTY_STATUS_SUCCESS ulVersion
      sampleazureiotPROPERTY_SUCCESS in
  configASSERT (is_success xResult) ;;
  let '(xResult, xWriter) :=
    AzureIoTJSONWriter_AppendDouble lib xWriter xUpdatedTemperature
      sampleazureiotDOUBLE_DECIMAL_PLACE_DIGITS in
  configASSERT (is_success xResult) ;;
  let '(xResult, xWriter) :=
    AzureIoTHubClientProperties_BuilderEndResponseStatus lib xWriter in
  configASSERT (is_success xResult) ;;
  let '(xResult, xWriter) := AzureIoTJSONWriter_AppendEndObject lib xWriter in
  configASSERT (is_success xResult) ;;
  let lBytesWritten := AzureIoTJSONWriter_GetBytesUsed lib xWriter in
  configASSERT (0 <? lBytesWritten) ;;
  emit (evSendPropertiesReported (pWritten (xWritten xWriter) lBytesWritten)).

(** [prvHandlePropertyUpdate]. *)
Definition prvHandlePropertyUpdate (lib : JSONWriterLibrary)
    (pxMessage : AzureIoTHubClientPropertiesResponse_t) : task unit :=
  '(xResult, xIncomingTemperature, ulVersion) <-
    prvProcessProperties pxMessage eAzureIoTHubClientPropertyWritable ;;
  if is_success xResult then
    dev <- readDevice ;;
    let '(dev, xWasMaxTemperatureChanged) :=
      prvUpdateLocalProperties xIncomingTemperature ulVersion dev in
    writeDevice dev ;;
    prvAckIncomingTemperature lib xIncomingTemperature ulVersion ;;
    if xWasMaxTemperatureChanged then prvSendNewMaxTemp lib xIncomingTemperature
    else ret tt
  else ret tt.

(** [prvHandleProperties]. *)
Definition prvHandleProperties (lib : JSONWriterLibrary)
    (pxMessage : AzureIoTHubClientPropertiesResponse_t) : task unit :=
  match xMessageType pxMessage with
  | eAzureIoTHubPropertiesGetMessage => prvHandlePropertyUpdate lib pxMessage
  | eAzureIoTHubPropertiesWritablePropertyMessage => prvHandlePropertyUpdate lib pxMessage
  | eAzureIoTHubPropertiesReportedResponseMessage => ret tt
  | eAzureIoTHubOtherMessage _ => configASSERT false
  end.

(** The payloads the two senders write. *)
Definition acknowledgment_tokens (xTemperature : float) (ulVersion : Z) : list writer_token :=
  [ wBeginObject;
    wBeginResponseStatus "targetTemperature" 200 ulVersion "success";
    wDouble xTemperature 2;
    wEndResponseStatus;
    wEndObject ].

Definition max_temperature_tokens (xTemperature : float) : list writer_token :=
  [ wBeginObject; wPropertyName "maxTempSinceLastReboot"; wDouble xTemperature 2; wEndObject ].

(** An entry the loop takes as the writable target temperature. *)
Definition is_target_temperature (e : property_entry) : bool :=
  (Z.of_nat (String.length (pucComponentName e)) <=? 0)
  && String.eqb (pucPropertyName e) sampleazureiotPROPERTY_TARGET_TEMPERATURE_TEXT.

(** The property walk in the words of the specification (section 4.3): an
    entry of a sub-component or with another name is passed over; the known
    writable property with a number replaces the value; with anything else it
    ends the walk with the extraction error; the end of the entries yields how
    the document ends. *)
Definition properties_end_result (xEnd : properties_end) : AzureIoTResult_t :=
  match xEnd with
  | xEndOfProperties => eAzureIoTErrorEndOfProperties
  | xParseFailure code => eAzureIoTErrorOther code
  end.

Fixpoint walk_properties (entries : list property_entry) (xEnd : properties_end)
    (xValue : float) : AzureIoTResult_t * float :=
  match entries with
  | [] => (properties_end_result xEnd, xValue)
  | e :: rest =>
      if is_target_temperature e then
        match xPropertyValue e with
        | jvNumber x => walk_properties rest xEnd x
        | jvOther code => (eAzureIoTErrorOther code, xValue)
        end
      else walk_properties rest xEnd xValue
  end.

(** The result of the sync for a document that ends in [xEnd]: reaching the
    end of the properties is the success. *)
Definition sync_result (xLoopResult : AzureIoTResult_t) : AzureIoTResult_t :=
  match xLoopResult with
  | eAzureIoTErrorEndOfProperties => eAzureIoTSuccess
  | xOther => xOther
  end.

(** The library writes the tokens into an empty property payload buffer and
    reports a positive byte count. *)
Definition writes (lib : JSONWriterLibrary) (tokens : list writer_token) : Prop :=
  writer_accepts lib (xEmptyWriter sizeof_ucPropertyPayloadBuffer) tokens = true
  /\ 0 < lBytesUsed lib (xWriterHolding sizeof_ucPropertyPayloadBuffer tokens).

(** The reported-properties message that carries the tokens. *)
Definition reported (lib : JSONWriterLibrary) (tokens : list writer_token) : event :=
  evSendPropertiesReported
    (pWritten tokens (lBytesUsed lib (xWriterHolding sizeof_ucPropertyPayloadBuffer tokens))).

(** ** Backoff retry policy *)

(** Modelled from the spec: the BackoffState of section 3; the backoff library
    is not part of the sample. *)
Record BackoffAlgorithmContext_t : Type := mkBackoff {
  baseDelay : Z;
  maxDelay : Z;
  maxAttempts : Z;
  attemptCount : Z
}.

(** Modelled from the spec: [initialize] of section 4.1, which resets the
    attempt count to zero. *)
Definition BackoffAlgorithm_InitializeParams (usBackOffBase usMaxBackOff ulMaxAttempts : Z)
  : BackoffAlgorithmContext_t :=
  {| baseDelay := usBackOffBase; maxDelay := usMaxBackOff;
     maxAttempts := ulMaxAttempts; attemptCount := 0 |}.

(** Modelled from the spec: [nextDelay] of section 4.1. It draws a delay in
    [0, min(max, base * 2^attemptCount)] from the random value and counts the
    attempt; once the count would exceed the maximum number of attempts it
    reports exhaustion, without a delay and without counting further. The
    status, the context and, when a retry is granted, the next backoff. *)
Definition BackoffAlgorithm_GetNextBackoff (pRetryContext : BackoffAlgorithmContext_t)
    (randomValue : Z) : BackoffAlgorithmStatus_t * BackoffAlgorithmContext_t * option Z :=
  if maxAttempts pRetryContext <? attemptCount pRetryContext + 1 then
    (BackoffAlgorithmRetriesExhausted, pRetryContext, None)
  else
    let delay := Z.min (maxDelay pRetryContext)
                   (baseDelay pRetryContext * 2 ^ attemptCount pRetryContext) in
    (BackoffAlgorithmSuccess,
     {| baseDelay := baseDelay pRetryContext; maxDelay := maxDelay pRetryContext;
        maxAttempts := maxAttempts pRetryContext;
        attemptCount := attemptCount pRetryContext + 1 |},
     Some (randomValue mod (delay + 1))).

Definition BackoffAlgorithmStatus_is_success (s : BackoffAlgorithmStatus_t) : bool :=
  match s with BackoffAlgorithmSuccess => true | BackoffAlgorithmRetriesExhausted => false end.

(** ** Connection with retries *)

(** What the transport and the random number generator answer during one call
    of [prvConnectToServerWithBackoffRetries]: the result of its n-th
    [TLS_Socket_Connect] and the n-th value of [configRAND32], from 0. *)
Record connect_answers : Type := mkConnectAnswers {
  xTLSConnectResult : nat -> TlsTransportStatus_t;
  ulRandom32 : nat -> Z
}.

(** The do-while loop; [n] counts the turns made so far. *)
Fixpoint prvConnect_loop (fuel : nat) (answers : connect_answers) (n : nat)
    (xReconnectParams : BackoffAlgorithmContext_t)
    (xBackoffAlgStatus : BackoffAlgorithmStatus_t) (usNextRetryBackOff : Z)
  : task TlsTransportStatus_t :=
  match fuel with
  | O => outOfFuel
  | S fuel' =>
      emit evTLSConnect ;;
      let xNetworkStatus := xTLSConnectResult answers n in
      '(xBackoffAlgStatus, xReconnectParams, usNextRetryBackOff) <-
        (if negb (TlsTransportStatus_is_success xNetworkStatus) then
           let '(xStatus, xParams, xNext) :=
             BackoffAlgorithm_GetNextBackoff xReconnectParams (ulRandom32 answers n) in
           let usNext := match xNext with Some d => d | None => usNextRetryBackOff end in
           match xStatus with
           | BackoffAlgorithmRetriesExhausted => ret (xStatus, xParams, usNext)
           | BackoffAlgorithmSuccess =>
               emit (evTaskDelay usNext) ;; ret (xStatus, xParams, usNext)
           end
         else ret (xBackoffAlgStatus, xReconnectParams, usNextRetryBackOff)) ;;
      if negb (TlsTransportStatus_is_success xNetworkStatus)
         && BackoffAlgorithmStatus_is_success xBackoffAlgStatus
      then prvConnect_loop fuel' answers (S n) xReconnectParams xBackoffAlgStatus
             usNextRetryBackOff
      else ret xNetworkStatus
  end.

(** [prvConnectToServerWithBackoffRetries]: 0 when connected, 1 otherwise. The
    loop makes at most one turn more than there are retry attempts. *)
Definition prvConnectToServerWithBackoffRetries (answers : connect_answers) : task Z :=
  let xReconnectParams :=
    BackoffAlgorithm_InitializeParams sampleazureiotRETRY_BACKOFF_BASE_MS
      sampleazureiotRETRY_MAX_BACKOFF_DELAY_MS sampleazureiotRETRY_MAX_ATTEMPTS in
  xNetworkStatus <-
    prvConnect_loop (S (Z.to_nat sampleazureiotRETRY_MAX_ATTEMPTS)) answers 0
      xReconnectParams BackoffAlgorithmSuccess 0 ;;
  ret (if TlsTransportStatus_is_success xNetworkStatus then 0 else 1).

(** The messages of a run of failed attempts: a connect and a delay for each
    granted retry, and the connect after which the retries were exhausted. *)
Definition retry_trace (delays : list Z) : list event :=
  flat_map (fun d => [evTLSConnect; evTaskDelay d]) delays ++ [evTLSConnect].

(** ** The demo task *)

Inductive inbound_message : Type :=
| xInboundCommand (pxMessage : AzureIoTHubClientCommandRequest_t)
| xInboundProperties (pxMessage : AzureIoTHubClientPropertiesResponse_t).

(** What the collaborators answer during one step of the task. The result of
    [AzureIoTHubClient_SendPropertiesReported] is listed with the others; the
    sample only logs it. [xInbound] are the messages that
    [AzureIoTHubClient_ProcessLoop] delivers to the subscribed callbacks. *)
Record collaborator_answers : Type := mkAnswers {
  xAzureIoTInitResult : AzureIoTResult_t;
  xConnectAnswers : connect_answers;
  xOptionsInitResult : AzureIoTResult_t;
  xHubClientInitResult : AzureIoTResult_t;
  xSetSymmetricKeyResult : AzureIoTResult_t;
  xMQTTConnectResult : AzureIoTResult_t;
  xSubscribeCommandResult : AzureIoTResult_t;
  xSubscribePropertiesResult : AzureIoTResult_t;
  xGetPropertiesResult : AzureIoTResult_t;
  xSendTelemetryResult : AzureIoTResult_t;
  xSendPropertiesReportedResult : AzureIoTResult_t;
  xProcessLoopResult : AzureIoTResult_t;
  xInbound : list inbound_message;
  xUnsubscribePropertiesResult : AzureIoTResult_t;
  xUnsubscribeCommandResult : AzureIoTResult_t;
  xMQTTDisconnectResult : AzureIoTResult_t
}.

(** [AzureIoTHubClient_ProcessLoop] calls the callbacks registered by
    [AzureIoTHubClient_SubscribeCommand] and [AzureIoTHubClient_SubscribeProperties]. *)
Fixpoint deliver (lib : JSONWriterLibrary) (messages : list inbound_message) : task unit :=
  match messages with
  | [] => ret tt
  | xInboundCommand pxMessage :: rest =>
      prvHandleCommand lib pxMessage ;; deliver lib rest
  | xInboundProperties pxMessage :: rest =>
      prvHandleProperties lib pxMessage ;; deliver lib rest
  end.

(** Where the task is in [prvAzureDemoTask]. *)
Inductive phase : Type :=
| Starting        (* before the outer loop *)
| Connecting      (* top of the outer loop: the TLS connection *)
| Connected       (* client set-up, MQTT connect, subscriptions *)
| Synchronizing   (* the request for the property document *)
| Streaming       (* top of the inner loop *)
| Disconnecting   (* the statements after the inner loop *)
| Halted          (* stopped by a failed configASSERT *)
| OutOfTurns.     (* a bounded loop of the embedding ran out of its bound *)

(** The statements before the outer loop, for the sample without device
    provisioning ([democonfigENABLE_DPS_SAMPLE] not defined). *)
Definition prvAzureDemoTask_start (answers : collaborator_answers) : task unit :=
  configASSERT (is_success (xAzureIoTInitResult answers)) ;;
  let ulStatus := 0 (* prvSetupNetworkCredentials *) in
  configASSERT (ulStatus =? 0).

Definition prvAzureDemoTask_connect (answers : collaborator_answers) : task unit :=
  ulStatus <- prvConnectToServerWithBackoffRetries (xConnectAnswers answers) ;;
  configASSERT (ulStatus =? 0).

(** With certificate authentication the call that sets the symmetric key is
    compiled out, which is the answer [eAzureIoTSuccess]. *)
Definition prvAzureDemoTask_session (answers : collaborator_answers) : task unit :=
  configASSERT (is_success (xOptionsInitResult answers)) ;;
  configASSERT (is_success (xHubClientInitResult answers)) ;;
  configASSERT (is_success (xSetSymmetricKeyResult answers)) ;;
  emit evMQTTConnect ;;
  configASSERT (is_success (xMQTTConnectResult answers)) ;;
  emit evSubscribeCommand ;;
  configASSERT (is_success (xSubscribeCommandResult answers)) ;;
  emit evSubscribeProperties ;;
  configASSERT (is_success (xSubscribePropertiesResult answers)).

Definition prvAzureDemoTask_synchronize (answers : collaborator_answers) : task unit :=
  emit evGetProperties ;;
  configASSERT (is_success (xGetPropertiesResult answers)).

(** The body of the inner [for( ; ; )], which has no [break]. *)
Definition prvAzureDemoTask_stream (lib : JSONWriterLibrary)
    (answers : collaborator_answers) : task unit :=
  dev <- readDevice ;;
  emit (evSendTelemetry (xDeviceCurrentTemperature dev)) ;;
  configASSERT (is_success (xSendTelemetryResult answers)) ;;
  prvSendNewMaxTemp lib (xDeviceMaximumTemperature dev) ;;
  deliver lib (xInbound answers) ;;
  configASSERT (is_success (xProcessLoopResult answers)) ;;
  emit (evTaskDelay sampleazureiotDELAY_BETWEEN_PUBLISHES_MS).

(** The statements after the inner loop. *)
Definition prvAzureDemoTask_disconnect (answers : collaborator_answers) : task unit :=
  emit evUnsubscribeProperties ;;
  configASSERT (is_success (xUnsubscribePropertiesResult answers)) ;;
  emit evUnsubscribeCommand ;;
  configASSERT (is_success (xUnsubscribeCommandResult answers)) ;;
  emit evMQTTDisconnect ;;
  configASSERT (is_success (xMQTTDisconnectResult answers)) ;;
  emit evTLSDisconnect ;;
  emit (evTaskDelay sampleazureiotDELAY_BETWEEN_DEMO_ITERATIONS_MS).

Record session : Type := mkSession {
  xPhase : phase;
  xWorld : world
}.

Definition xInitialSession : session :=
  {| xPhase := Starting; xWorld := xInitialWorld |}.

(** Runs the statements of a phase and moves to [next] when they return. *)
Definition run_phase (next : phase) (t : task unit) (w : world) : session :=
  match t w with
  | Returned _ w' => {| xPhase := next; xWorld := w' |}
  | AssertFailed w' => {| xPhase := Halted; xWorld := w' |}
  | OutOfFuel => {| xPhase := OutOfTurns; xWorld := w |}
  end.

(** One step of [prvAzureDemoTask]: the statements of the current phase, with
    the control flow of the two nested loops. The inner loop has no exit, so
    [Streaming] is followed by [Streaming]; the statements after it lead back
    to the top of the outer loop. *)
Definition step (lib : JSONWriterLibrary) (answers : collaborator_answers)
    (s : session) : session :=
  match xPhase s with
  | Starting => run_phase Connecting (prvAzureDemoTask_start answers) (xWorld s)
  | Connecting => run_phase Connected (prvAzureDemoTask_connect answers) (xWorld s)
  | Connected => run_phase Synchronizing (prvAzureDemoTask_session answers) (xWorld s)
  | Synchronizing => run_phase Streaming (prvAzureDemoTask_synchronize answers) (xWorld s)
  | Streaming => run_phase Streaming (prvAzureDemoTask_stream lib answers) (xWorld s)
  | Disconnecting => run_phase Connecting (prvAzureDemoTask_disconnect answers) (xWorld s)
  | Halted => s
  | OutOfTurns => s
  end.

(** The task from a session on, one step for each record of answers. *)
Definition run (lib : JSONWriterLibrary) (answers : list collaborator_answers)
    (s : session) : session :=
  fold_left (fun s a => step lib a s) answers s.

(** The messages of the tear-down after the inner loop. *)
Definition is_teardown (e : event) : bool :=
  match e with
  | evUnsubscribeProperties | evUnsubscribeCommand | evMQTTDisconnect | evTLSDisconnect => true
  | _ => false
  end.

(** A writable-property update that carries one desired target temperature. *)
Definition desired_temperature (xValue : float) (ulVersion : Z)
  : AzureIoTHubClientPropertiesResponse_t :=
  {| xMessageType := eAzureIoTHubPropertiesWritablePropertyMessage;
     xVersion := xVersionIs ulVersion;
     xProperties := [ mkProperty "" "targetTemperature" (jvNumber xValue) ];
     xPropertiesEnd := xEndOfProperties |}.

(** Consulting the backoff policy once for each random value, in order: the
    status and the delay of each consultation. *)
Fixpoint consult (pRetryContext : BackoffAlgorithmContext_t) (randoms : list Z)
  : list (BackoffAlgorithmStatus_t * option Z) :=
  match randoms with
  | [] => []
  | r :: rest =>
      let '(xStatus, xContext, xDelay) := BackoffAlgorithm_GetNextBackoff pRetryContext r in
      (xStatus, xDelay) :: consult xContext rest
  end.

(** The task returns or stops on an assertion, and every message it hands
    over satisfies [P]. *)
Definition emits {A : Type} (P : event -> Prop) (t : task A) : Prop :=
  forall w,
    match t w with
    | Returned _ w' => exists sent, xSent w' = xSent w ++ sent /\ Forall P sent
    | AssertFailed w' => exists sent, xSent w' = xSent w ++ sent /\ Forall P sent
    | OutOfFuel => False
    end.

Definition not_teardown (e : event) : Prop := is_teardown e = false.

(** The same answers with another result for the reported-properties publish. *)
Definition with_reported_result (answers : collaborator_answers)
    (xResult : AzureIoTResult_t) : collaborator_answers :=
  {| xAzureIoTInitResult := xAzureIoTInitResult answers;
     xConnectAnswers := xConnectAnswers answers;
     xOptionsInitResult := xOptionsInitResult answers;
     xHubClientInitResult := xHubClientInitResult answers;
     xSetSymmetricKeyResult := xSetSymmetricKeyResult answers;
     xMQTTConnectResult := xMQTTConnectResult answers;
     xSubscribeCommandResult := xSubscribeCommandResult answers;
     xSubscribePropertiesResult := xSubscribePropertiesResult answers;
     xGetPropertiesResult := xGetPropertiesResult answers;
     xSendTelemetryResult := xSendTelemetryResult answers;
     xSendPropertiesReportedResult := xResult;
     xProcessLoopResult := xProcessLoopResult answers;
     xInbound := xInbound answers;
     xUnsubscribePropertiesResult := xUnsubscribePropertiesResult answers;
     xUnsubscribeCommandResult := xUnsubscribeCommandResult answers;
     xMQTTDisconnectResult := xMQTTDisconnectResult answers |}.

(** Sample answers: every call succeeds and nothing arrives; the same with a
    failing telemetry publish; with a failing reported-properties publish; and
    with a transport that refuses every connection. *)
Definition xAllSucceed : collaborator_answers :=
  {| xAzureIoTInitResult := eAzureIoTSuccess;
     xConnectAnswers := {| xTLSConnectResult := fun _ => eTLSTransportSuccess;
                           ulRandom32 := fun _ => 0 |};
     xOptionsInitResult := eAzureIoTSuccess;
     xHubClientInitResult := eAzureIoTSuccess;
     xSetSymmetricKeyResult := eAzureIoTSuccess;
     xMQTTConnectResult := eAzureIoTSuccess;
     xSubscribeCommandResult := eAzureIoTSuccess;
     xSubscribePropertiesResult := eAzureIoTSuccess;
     xGetPropertiesResult := eAzureIoTSuccess;
     xSendTelemetryResult := eAzureIoTSuccess;
     xSendPropertiesReportedResult := eAzureIoTSuccess;
     xProcessLoopResult := eAzureIoTSuccess;
     xInbound := [];
     xUnsubscribePropertiesResult := eAzureIoTSuccess;
     xUnsubscribeCommandResult := eAzureIoTSuccess;
     xMQTTDisconnectResult := eAzureIoTSuccess |}.

Definition xTelemetryFails : collaborator_answers :=
  {| xAzureIoTInitResult := eAzureIoTSuccess;
     xConnectAnswers := xConnectAnswers xAllSucceed;
     xOptionsInitResult := eAzureIoTSuccess;
     xHubClientInitResult := eAzureIoTSuccess;
     xSetSymmetricKeyResult := eAzureIoTSuccess;
     xMQTTConnectResult := eAzureIoTSuccess;
     xSubscribeCommandResult := eAzureIoTSuccess;
     xSubscribePropertiesResult := eAzureIoTSuccess;
     xGetPropertiesResult := eAzureIoTSuccess;
     xSendTelemetryResult := eAzureIoTErrorOther 7;
     xSendPropertiesReportedResult := eAzureIoTSuccess;
     xProcessLoopResult := eAzureIoTSuccess;
     xInbound := [];
     xUnsubscribePropertiesResult := eAzureIoTSuccess;
     xUnsubscribeCommandResult := eAzureIoTSuccess;
     xMQTTDisconnectResult := eAzureIoTSuccess |}.

Definition xReportFails : collaborator_answers :=
  with_reported_result xAllSucceed (eAzureIoTErrorOther 7).

Definition xConnectionRefused : collaborator_answers :=
  {| xAzureIoTInitResult := eAzureIoTSuccess;
     xConnectAnswers := {| xTLSConnectResult := fun _ => eTLSTransportOther 1;
                           ulRandom32 := fun n => 1000 * Z.of_nat n + 123 |};
     xOptionsInitResult := eAzureIoTSuccess;
     xHubClientInitResult := eAzureIoTSuccess;
     xSetSymmetricKeyResult := eAzureIoTSuccess;
     xMQTTConnectResult := eAzureIoTSuccess;
     xSubscribeCommandResult := eAzureIoTSuccess;
     xSubscribePropertiesResult := eAzureIoTSuccess;
     xGetPropertiesResult := eAzureIoTSuccess;
     xSendTelemetryResult := eAzureIoTSuccess;
     xSendPropertiesReportedResult := eAzureIoTSuccess;
     xProcessLoopResult := eAzureIoTSuccess;
     xInbound := [];
     xUnsubscribePropertiesResult := eAzureIoTSuccess;
     xUnsubscribeCommandResult := eAzureIoTSuccess;
     xMQTTDisconnectResult := eAzureIoTSuccess |}.

(** The delays of the five retries that the sample's configuration grants
    (base 500 ms, cap 5000 ms), drawn from the random values. *)
Definition granted_delays (answers : connect_answers) : list Z :=
  [ ulRandom32 answers 0 mod 501;
    ulRandom32 answers 1 mod 1001;
    ulRandom32 answers 2 mod 2001;
    ulRandom32 answers 3 mod 4001;
    ulRandom32 answers 4 mod 5001 ].

(** The status [prvConnectToServerWithBackoffRetries] returns for the result
    of its last connect. *)
Definition connect_status (xNetworkStatus : TlsTransportStatus_t) : Z :=
  if TlsTransportStatus_is_success xNetworkStatus then 0 else 1.

(** The phases the task can be in while it runs or after it stopped on an
    assertion: all but the statements after the inner loop and the phase that
    stands for an exceeded bound of the embedding. *)
Definition before_teardown (p : phase) : bool :=
  match p with
  | Disconnecting | OutOfTurns => false
  | _ => true
  end.

(** ** Definitions for the further properties *)

(** The document is applied: the version was extracted, no writable target
    temperature holds anything but a number, and the iteration reached the end
    of the properties. *)
Definition holds_number (e : property_entry) : bool :=
  match xPropertyValue e with jvNumber _ => true | jvOther _ => false end.

Definition document_applies (pxMessage : AzureIoTHubClientPropertiesResponse_t) : bool :=
  match xVersion pxMessage, xPropertiesEnd pxMessage with
  | xVersionIs _, xEndOfProperties =>
      forallb (fun e => negb (is_target_temperature e) || holds_number e)
        (xProperties pxMessage)
  | _, _ => false
  end.

(** What [prvHandleCommand] hands over for a request, given the device values. *)
Definition command_reply (lib : JSONWriterLibrary)
    (pxMessage : AzureIoTHubClientCommandRequest_t) (dev : DeviceValues) : list event :=
  if String.eqb (pucCommandName pxMessage) sampleazureiotCOMMAND_MAX_MIN_REPORT then
    let r := prvInvokeMaxMinCommand lib
               (snd (AzureIoTJSONReader_Init (pvCommandPayload pxMessage)))
               (xEmptyWriter sizeof_ucCommandPayloadBuffer) dev in
    if is_success (fst r) then
      if 0 <? lBytesUsed lib (snd r)
      then [evSendCommandResponse 200 (pWritten (xWritten (snd r)) (lBytesUsed lib (snd r)))]
      else []
    else [evSendCommandResponse 501 (pConstant sampleazureiotCOMMAND_EMPTY_PAYLOAD)]
  else [evSendCommandResponse 404 (pConstant sampleazureiotCOMMAND_EMPTY_PAYLOAD)].

Definition is_command_response (e : event) : bool :=
  match e with evSendCommandResponse _ _ => true | _ => false end.

(** A writer library that never refuses an append and reports a positive
    byte count for what it wrote. *)
Definition writer_never_refuses (lib : JSONWriterLibrary) : Prop :=
  (forall pxWriter t, xAppendResult lib pxWriter t = eAzureIoTSuccess)
  /\ (forall pxWriter, xWritten pxWriter <> [] -> 0 < lBytesUsed lib pxWriter).

(** Appends whose results are asserted one after the other, as in the two
    senders of reported properties, followed by the rest of the function. *)
Fixpoint asserted_appends (lib : JSONWriterLibrary) (pxWriter : AzureIoTJSONWriter_t)
    (tokens : list writer_token) (k : AzureIoTJSONWriter_t -> task unit) : task unit :=
  match tokens with
  | [] => k pxWriter
  | t :: rest =>
      let '(xResult, xWriter) := writer_append lib pxWriter t in
      configASSERT (is_success xResult) ;;
      asserted_appends lib xWriter rest k
  end.

(** The number of connects in a row, from the [n]-th on and among [limit] of
    them, that fail before one succeeds. *)
Fixpoint failed_connects (answers : connect_answers) (n limit : nat) : nat :=
  match limit with
  | O => O
  | S limit' =>
      if TlsTransportStatus_is_success (xTLSConnectResult answers n) then O
      else S (failed_connects answers (S n) limit')
  end.

(** The messages that carry device data to the hub. *)
Definition is_device_message (e : event) : bool :=
  match e with
  | evSendTelemetry _ | evSendPropertiesReported _ | evSendCommandResponse _ _ => true
  | _ => false
  end.

(** An inbound message that [prvHandleProperties] applies to the device
    values: a response to the property request or a writable-property update
    whose document is applied. *)
Definition updates_device (m : inbound_message) : bool :=
  match m with
  | xInboundCommand _ => false
  | xInboundProperties pxMessage =>
      match xMessageType pxMessage with
      | eAzureIoTHubPropertiesGetMessage
      | eAzureIoTHubPropertiesWritablePropertyMessage => document_applies pxMessage
      | _ => false
      end
  end.

(** The task leaves the device values as they are, however it ends. *)
Definition keeps_device {A : Type} (t : task A) : Prop :=
  forall w,
    match t w with
    | Returned _ w' => xDevice w' = xDevice w
    | AssertFailed w' => xDevice w' = xDevice w
    | OutOfFuel => True
    end.

(** No message of the list carries device data. *)
Definition silent (sent : list event) : bool :=
  forallb (fun e => negb (is_device_message e)) sent.

(** The calls of the set-up, over the first four steps of the task, succeed:
    the initialisation of the middleware; one of the six TLS connects; the
    initialisation of the client and of its options, the symmetric key, the
    MQTT connect and the two subscriptions; the request for the properties. *)
Definition setup_succeeds (a1 a2 a3 a4 : collaborator_answers) : Prop :=
  xAzureIoTInitResult a1 = eAzureIoTSuccess
  /\ (exists n, (n <= 5)%nat
                /\ xTLSConnectResult (xConnectAnswers a2) n = eTLSTransportSuccess)
  /\ (xOptionsInitResult a3 = eAzureIoTSuccess
      /\ xHubClientInitResult a3 = eAzureIoTSuccess
      /\ xSetSymmetricKeyResult a3 = eAzureIoTSuccess
      /\ xMQTTConnectResult a3 = eAzureIoTSuccess
      /\ xSubscribeCommandResult a3 = eAzureIoTSuccess
      /\ xSubscribePropertiesResult a3 = eAzureIoTSuccess)
  /\ xGetPropertiesResult a4 = eAzureIoTSuccess.

(** The same answers with other messages for [AzureIoTHubClient_ProcessLoop]
    to deliver. *)
Definition with_inbound (answers : collaborator_answers)
    (messages : list inbound_message) : collaborator_answers :=
  {| xAzureIoTInitResult := xAzureIoTInitResult answers;
     xConnectAnswers := xConnectAnswers answers;
     xOptionsInitResult := xOptionsInitResult answers;
     xHubClientInitResult := xHubClientInitResult answers;
     xSetSymmetricKeyResult := xSetSymmetricKeyResult answers;
     xMQTTConnectResult := xMQTTConnectResult answers;
     xSubscribeCommandResult := xSubscribeCommandResult answers;
     xSubscribePropertiesResult := xSubscribePropertiesResult answers;
     xGetPropertiesResult := xGetPropertiesResult answers;
     xSendTelemetryResult := xSendTelemetryResult answers;
     xSendPropertiesReportedResult := xSendPropertiesReportedResult answers;
     xProcessLoopResult := xProcessLoopResult answers;
     xInbound := messages;
     xUnsubscribePropertiesResult := xUnsubscribePropertiesResult answers;
     xUnsubscribeCommandResult := xUnsubscribeCommandResult answers;
     xMQTTDisconnectResult := xMQTTDisconnectResult answers |}.

(** ** Device provisioning

    [prvIoTHubInfoGet], which the sample compiles and calls before the outer
    loop when [democonfigENABLE_DPS_SAMPLE] is defined. *)

(** What the collaborators answer during one call of [prvIoTHubInfoGet]: the
    transport, the provisioning client (the [n]-th call of
    [AzureIoTProvisioningClient_Register], from 0), and the host name and the
    device id that [AzureIoTProvisioningClient_GetDeviceAndHub] writes into
    the two buffers of the sample. *)
Record provisioning_answers : Type := mkProvisioningAnswers {
  xProvisioningConnectAnswers : connect_answers;
  xProvisioningInitResult : AzureIoTResult_t;
  xProvisioningSetSymmetricKeyResult : AzureIoTResult_t;
  xSetRegistrationPayloadResult : AzureIoTResult_t;
  xRegisterResult : nat -> AzureIoTResult_t;
  xGetDeviceAndHubResult : AzureIoTResult_t;
  ucSampleIotHubHostname : string;
  ucSampleIotHubDeviceId : string
}.

(** The do-while loop around [AzureIoTProvisioningClient_Register]; [n] counts
    the calls made so far. The source puts no bound on the number of turns:
    [fuel] is the number of turns the embedding follows. *)
Fixpoint prvRegister_loop (fuel : nat) (answers : provisioning_answers) (n : nat)
  : task AzureIoTResult_t :=
  match fuel with
  | O => outOfFuel
  | S fuel' =>
      let xResult := xRegisterResult answers n in
      if AzureIoTResult_eqb xResult eAzureIoTErrorPending
      then prvRegister_loop fuel' answers (S n)
      else ret xResult
  end.

(** [prvIoTHubInfoGet]: the status it returns, [*ppucIothubHostname] and
    [*ppucIothubDeviceId]. With certificate authentication the call that sets
    the symmetric key is compiled out, which is the answer [eAzureIoTSuccess]. *)
Definition prvIoTHubInfoGet (fuel : nat) (answers : provisioning_answers)
  : task (Z * string * string) :=
  ulStatus <- prvConnectToServerWithBackoffRetries (xProvisioningConnectAnswers answers) ;;
  configASSERT (ulStatus =? 0) ;;
  configASSERT (is_success (xProvisioningInitResult answers)) ;;
  configASSERT (is_success (xProvisioningSetSymmetricKeyResult answers)) ;;
  configASSERT (is_success (xSetRegistrationPayloadResult answers)) ;;
  xResult <- prvRegister_loop fuel answers 0 ;;
  configASSERT (is_success xResult) ;;
  configASSERT (is_success (xGetDeviceAndHubResult answers)) ;;
  emit evTLSDisconnect ;;
  ret (0, ucSampleIotHubHostname answers, ucSampleIotHubDeviceId answers).

(** The calls of [prvIoTHubInfoGet] before the registration succeed. *)
Definition provisioning_prepared (answers : provisioning_answers) : Prop :=
  (exists n, (n <= 5)%nat
             /\ xTLSConnectResult (xProvisioningConnectAnswers answers) n
                = eTLSTransportSuccess)
  /\ xProvisioningInitResult answers = eAzureIoTSuccess
  /\ xProvisioningSetSymmetricKeyResult answers = eAzureIoTSuccess
  /\ xSetRegistrationPayloadResult answers = eAzureIoTSuccess.

(** Sample answers: the service answers "pending" twice, then success. *)
Definition xRegisteredAtThirdPoll : provisioning_answers :=
  {| xProvisioningConnectAnswers := xConnectAnswers xAllSucceed;
     xProvisioningInitResult := eAzureIoTSuccess;
     xProvisioningSetSymmetricKeyResult := eAzureIoTSuccess;
     xSetRegistrationPayloadResult := eAzureIoTSuccess;
     xRegisterResult := fun n => if (n <? 2)%nat then eAzureIoTErrorPending
                                 else eAzureIoTSuccess;
     xGetDeviceAndHubResult := eAzureIoTSuccess;
     ucSampleIotHubHostname := "hub.example.net";
     ucSampleIotHubDeviceId := "thermostat-1" |}.

(* ================================================================= *)
(** * Part II: properties                                             *)
(* ================================================================= *)

(** ** Order of binary64 values *)

Section DoubleOrder.

Lemma SFleb_refl (x : spec_float) : x <> S754_nan -> SFleb x x = true.
Proof.
  unfold SFleb, SFcompare.
  destruct x as [s | s | | s m e]; try congruence; intros _; destruct s;
    rewrite ?Z.compare_refl, ?Pos.compare_cont_refl; reflexivity.
Qed.

Lemma SFltb_SFleb (x y : spec_float) : SFltb x y = true -> SFleb x y = true.
Proof.
  unfold SFltb, SFleb. destruct (SFcompare x y) as [[ | | ] | ]; congruence.
Qed.

Ltac compare_cases :=
  repeat match goal with
         | |- context [Z.compare ?a ?b] => destruct (Z.compare_spec a b)
         | |- context [Pos.compare ?a ?b] => destruct (Pos.compare_spec a b)
         | |- context [Pos.compare_cont Eq ?a ?b] =>
             change (Pos.compare_cont Eq a b) with (Pos.compare a b)
         end;
  simpl; try reflexivity; try discriminate; try lia.

Lemma SFleb_of_not_SFltb (x y : spec_float) :
  x <> S754_nan -> y <> S754_nan -> SFltb y x = false -> SFleb x y = true.
Proof.
  unfold SFltb, SFleb, SFcompare.
  destruct x as [sx | sx | | sx mx ex], y as [sy | sy | | sy my ey];
    try congruence; intros _ _;
    repeat match goal with s : bool |- _ => destruct s end;
    try reflexivity; try discriminate; compare_cases.
Qed.

Lemma SFleb_trans (x y z : spec_float) :
  SFleb x y = true -> SFleb y z = true -> SFleb x z = true.
Proof.
  unfold SFleb, SFcompare.
  destruct x as [sx | sx | | sx mx ex], y as [sy | sy | | sy my ey],
           z as [sz | sz | | sz mz ez];
    repeat match goal with s : bool |- _ => destruct s end;
    try reflexivity; try discriminate; compare_cases.
Qed.

Lemma SFleb_not_nan (x y : spec_float) :
  SFleb x y = true -> x <> S754_nan /\ y <> S754_nan.
Proof.
  unfold SFleb, SFcompare.
  destruct x as [sx | sx | | sx mx ex], y as [sy | sy | | sy my ey];
    try discriminate; intros _; split; congruence.
Qed.

Lemma is_nan_Prim2SF (x : float) : is_nan x = false -> Prim2SF x <> S754_nan.
Proof.
  unfold is_nan. rewrite FloatAxioms.eqb_spec. intros H E. rewrite E in H. discriminate.
Qed.

Lemma double_le_refl (x : float) : is_nan x = false -> double_le x x = true.
Proof.
  intros H. unfold double_le. rewrite FloatAxioms.leb_spec.
  apply SFleb_refl, is_nan_Prim2SF, H.
Qed.

Lemma double_le_trans (x y z : float) :
  double_le x y = true -> double_le y z = true -> double_le x z = true.
Proof.
  unfold double_le. rewrite !FloatAxioms.leb_spec. apply SFleb_trans.
Qed.

Lemma double_gt_le (x y : float) : double_gt x y = true -> double_le y x = true.
Proof.
  unfold double_gt, double_le. rewrite FloatAxioms.ltb_spec, FloatAxioms.leb_spec.
  apply SFltb_SFleb.
Qed.

Lemma double_lt_le (x y : float) : double_lt x y = true -> double_le x y = true.
Proof.
  unfold double_lt, double_le. rewrite FloatAxioms.ltb_spec, FloatAxioms.leb_spec.
  apply SFltb_SFleb.
Qed.

Lemma double_not_gt_le (x y : float) :
  is_nan x = false -> is_nan y = false -> double_gt x y = false -> double_le x y = true.
Proof.
  unfold double_gt, double_le. rewrite FloatAxioms.ltb_spec, FloatAxioms.leb_spec.
  intros Hx Hy. apply SFleb_of_not_SFltb; apply is_nan_Prim2SF; assumption.
Qed.

Lemma double_not_lt_le (x y : float) :
  is_nan x = false -> is_nan y = false -> double_lt x y = false -> double_le y x = true.
Proof.
  unfold double_lt, double_le. rewrite FloatAxioms.ltb_spec, FloatAxioms.leb_spec.
  intros Hx Hy. apply SFleb_of_not_SFltb; apply is_nan_Prim2SF; assumption.
Qed.

End DoubleOrder.

(** ** The device values under [prvUpdateLocalProperties] *)

Section PropertyModel.

Lemma SFeqb_refl (x : spec_float) : x <> S754_nan -> SFeqb x x = true.
Proof.
  unfold SFeqb, SFcompare.
  destruct x as [s | s | | s m e]; try congruence; intros _; destruct s;
    rewrite ?Z.compare_refl, ?Pos.compare_cont_refl; reflexivity.
Qed.

Lemma double_le_is_nan (x y : float) :
  double_le x y = true -> is_nan x = false /\ is_nan y = false.
Proof.
  unfold double_le, is_nan. rewrite FloatAxioms.leb_spec, !FloatAxioms.eqb_spec.
  intros H. destruct (SFleb_not_nan _ _ H) as [Hx Hy].
  rewrite !SFeqb_refl by assumption. split; reflexivity.
Qed.

(** The three outcomes of the comparison chain. *)
Lemma prvUpdateLocalProperties_cases (v : float) (ver : Z) (dev : DeviceValues) :
  let dev' := fst (prvUpdateLocalProperties v ver dev) in
  xDeviceCurrentTemperature dev' = v
  /\ ((double_gt v (xDeviceMaximumTemperature dev) = true
       /\ xDeviceMaximumTemperature dev' = v
       /\ xDeviceMinimumTemperature dev' = xDeviceMinimumTemperature dev)
      \/ (double_gt v (xDeviceMaximumTemperature dev) = false
          /\ double_lt v (xDeviceMinimumTemperature dev) = true
          /\ xDeviceMaximumTemperature dev' = xDeviceMaximumTemperature dev
          /\ xDeviceMinimumTemperature dev' = v)
      \/ (double_gt v (xDeviceMaximumTemperature dev) = false
          /\ double_lt v (xDeviceMinimumTemperature dev) = false
          /\ xDeviceMaximumTemperature dev' = xDeviceMaximumTemperature dev
          /\ xDeviceMinimumTemperature dev' = xDeviceMinimumTemperature dev)).
Proof.
  unfold prvUpdateLocalProperties.
  destruct (double_gt v (xDeviceMaximumTemperature dev)) eqn:Hgt;
    [ | destruct (double_lt v (xDeviceMinimumTemperature dev)) eqn:Hlt ];
    simpl; auto 10.
Qed.

(** [minimum <= maximum] is kept by every call, whatever the value. *)
Lemma prvUpdateLocalProperties_min_le_max (v : float) (ver : Z) (dev : DeviceValues) :
  double_le (xDeviceMinimumTemperature dev) (xDeviceMaximumTemperature dev) = true ->
  let dev' := fst (prvUpdateLocalProperties v ver dev) in
  double_le (xDeviceMinimumTemperature dev') (xDeviceMaximumTemperature dev') = true.
Proof.
  intros Hinv dev'.
  destruct (prvUpdateLocalProperties_cases v ver dev)
    as [_ [(Hgt & Hmax & Hmin) | [(_ & Hlt & Hmax & Hmin) | (_ & _ & Hmax & Hmin)]]];
    fold dev' in Hmax, Hmin; rewrite Hmax, Hmin.
  - eapply double_le_trans; [exact Hinv | apply double_gt_le, Hgt].
  - eapply double_le_trans; [apply double_lt_le, Hlt | exact Hinv].
  - exact Hinv.
Qed.

Lemma applyTemperatures_min_le_max (calls : list (float * Z)) (dev : DeviceValues) :
  double_le (xDeviceMinimumTemperature dev) (xDeviceMaximumTemperature dev) = true ->
  let dev' := applyTemperatures calls dev in
  double_le (xDeviceMinimumTemperature dev') (xDeviceMaximumTemperature dev') = true.
Proof.
  revert dev. induction calls as [ | [v ver] calls IH]; intros dev Hinv; simpl.
  - exact Hinv.
  - apply IH, prvUpdateLocalProperties_min_le_max, Hinv.
Qed.

(** After a call with a value that is a number, the new current value lies
    between the recorded extremes. *)
Lemma prvUpdateLocalProperties_ordered (v : float) (ver : Z) (dev : DeviceValues) :
  is_nan v = false ->
  double_le (xDeviceMinimumTemperature dev) (xDeviceMaximumTemperature dev) = true ->
  temperature_ordered (fst (prvUpdateLocalProperties v ver dev)) = true.
Proof.
  intros Hv Hinv. unfold temperature_ordered.
  destruct (double_le_is_nan _ _ Hinv) as [Hmin_num Hmax_num].
  destruct (prvUpdateLocalProperties_cases v ver dev)
    as [Hcur [(Hgt & Hmax & Hmin) | [(Hgt & Hlt & Hmax & Hmin) | (Hgt & Hlt & Hmax & Hmin)]]];
    rewrite Hcur, Hmax, Hmin; apply andb_true_intro; split.
  - eapply double_le_trans; [exact Hinv | apply double_gt_le, Hgt].
  - apply double_le_refl, Hv.
  - apply double_le_refl, Hv.
  - eapply double_le_trans; [apply double_lt_le, Hlt | exact Hinv].
  - apply double_not_lt_le; assumption.
  - apply double_not_gt_le; assumption.
Qed.

Lemma applyTemperatures_app (calls1 calls2 : list (float * Z)) (dev : DeviceValues) :
  applyTemperatures (calls1 ++ calls2) dev
  = applyTemperatures calls2 (applyTemperatures calls1 dev).
Proof. apply fold_left_app. Qed.

(** The accumulators: the running sum, the wrapped counter and their quotient. *)
Lemma prvUpdateLocalProperties_accumulators (v : float) (ver : Z) (dev : DeviceValues) :
  let dev' := fst (prvUpdateLocalProperties v ver dev) in
  xDeviceTemperatureSummation dev' = (xDeviceTemperatureSummation dev + v)%float
  /\ ulDeviceTemperatureCount dev' = uint32_wrap (ulDeviceTemperatureCount dev + 1)
  /\ xDeviceAverageTemperature dev'
     = (xDeviceTemperatureSummation dev'
        / double_of_uint32 (ulDeviceTemperatureCount dev'))%float.
Proof.
  unfold prvUpdateLocalProperties.
  destruct (double_gt v (xDeviceMaximumTemperature dev));
    [ | destruct (double_lt v (xDeviceMinimumTemperature dev)) ];
    simpl; auto.
Qed.

Lemma applyTemperatures_sum (calls : list (float * Z)) (dev : DeviceValues) :
  xDeviceTemperatureSummation (applyTemperatures calls dev)
  = fold_left PrimFloat.add (map fst calls) (xDeviceTemperatureSummation dev).
Proof.
  revert dev. induction calls as [ | [v ver] calls IH]; intros dev; simpl.
  - reflexivity.
  - rewrite IH.
    destruct (prvUpdateLocalProperties_accumulators v ver dev) as (Hsum & _).
    rewrite Hsum. reflexivity.
Qed.

Lemma applyTemperatures_count (calls : list (float * Z)) (dev : DeviceValues) :
  ulDeviceTemperatureCount dev = uint32_wrap (ulDeviceTemperatureCount dev) ->
  ulDeviceTemperatureCount (applyTemperatures calls dev)
  = uint32_wrap (ulDeviceTemperatureCount dev + Z.of_nat (List.length calls)).
Proof.
  revert dev. induction calls as [ | [v ver] calls IH]; intros dev Hwrapped.
  - simpl. rewrite Z.add_0_r. exact Hwrapped.
  - change (applyTemperatures ((v, ver) :: calls) dev)
      with (applyTemperatures calls (fst (prvUpdateLocalProperties v ver dev))).
    destruct (prvUpdateLocalProperties_accumulators v ver dev) as (_ & Hcount & _).
    rewrite IH; rewrite Hcount.
    + unfold uint32_wrap. rewrite Z.add_mod_idemp_l by lia.
      f_equal. cbn [List.length]. lia.
    + unfold uint32_wrap. rewrite Z.mod_mod by lia. reflexivity.
Qed.

Lemma applyTemperatures_average (calls : list (float * Z)) (call : float * Z)
    (dev : DeviceValues) :
  let dev' := applyTemperatures (calls ++ [call]) dev in
  xDeviceAverageTemperature dev'
  = (xDeviceTemperatureSummation dev'
     / double_of_uint32 (ulDeviceTemperatureCount dev'))%float.
Proof.
  intros dev'. subst dev'. rewrite applyTemperatures_app.
  destruct call as [v ver]. apply prvUpdateLocalProperties_accumulators.
Qed.

End PropertyModel.

(** C1 (as amended). Start from the initial device values (every temperature
    field 22.0, count 1) and make any sequence of calls of
    [prvUpdateLocalProperties]. After the last call, if its value is not NaN,
    minimum <= current <= maximum. And after the last call, whatever its
    value and the values before it, NaN included, the average is the running
    sum divided by the count, where the running sum is the seed plus every
    applied value (added in call order, in double precision) and the count is
    one plus the number of calls (a 32-bit counter). *)
Theorem update_keeps_order_and_average
    (calls : list (float * Z)) (v : float) (ver : Z) :
  let dev := applyTemperatures (calls ++ [(v, ver)]) xInitialDeviceValues in
  (is_nan v = false -> temperature_ordered dev = true)
  /\ xDeviceAverageTemperature dev
     = (xDeviceTemperatureSummation dev
        / double_of_uint32 (ulDeviceTemperatureCount dev))%float
  /\ xDeviceTemperatureSummation dev
     = fold_left PrimFloat.add (map fst (calls ++ [(v, ver)]))
         sampleazureiotDEFAULT_START_TEMP_CELSIUS
  /\ ulDeviceTemperatureCount dev
     = uint32_wrap (1 + Z.of_nat (List.length (calls ++ [(v, ver)]))).
Proof.
  intros dev. split; [ | split; [ | split]].
  - intros Hv. subst dev. rewrite applyTemperatures_app. simpl.
    apply prvUpdateLocalProperties_ordered; [exact Hv | ].
    apply applyTemperatures_min_le_max. reflexivity.
  - apply applyTemperatures_average.
  - apply applyTemperatures_sum.
  - subst dev. rewrite applyTemperatures_count; reflexivity.
Qed.

Lemma update_keeps_order_and_average_witness :
  (let dev := applyTemperatures ([(25%float, 1)] ++ [(20%float, 2)]) xInitialDeviceValues in
   temperature_ordered dev = true
   /\ xDeviceAverageTemperature dev
      = (xDeviceTemperatureSummation dev
         / double_of_uint32 (ulDeviceTemperatureCount dev))%float
   /\ xDeviceTemperatureSummation dev
      = fold_left PrimFloat.add (map fst ([(25%float, 1)] ++ [(20%float, 2)]))
          sampleazureiotDEFAULT_START_TEMP_CELSIUS
   /\ ulDeviceTemperatureCount dev
      = uint32_wrap (1 + Z.of_nat (List.length ([(25%float, 1)] ++ [(20%float, 2)]))))
  /\ (let dev := applyTemperatures ([(25%float, 1)] ++ [(nan, 2)]) xInitialDeviceValues in
      xDeviceAverageTemperature dev
      = (xDeviceTemperatureSummation dev
         / double_of_uint32 (ulDeviceTemperatureCount dev))%float
      /\ xDeviceTemperatureSummation dev
         = fold_left PrimFloat.add (map fst ([(25%float, 1)] ++ [(nan, 2)]))
             sampleazureiotDEFAULT_START_TEMP_CELSIUS
      /\ ulDeviceTemperatureCount dev = 3).
Proof.
  split.
  - destruct (update_keeps_order_and_average [(25%float, 1)] 20%float 2)
      as (Horder & Hrest).
    split; [apply Horder; reflexivity | exact Hrest].
  - destruct (update_keeps_order_and_average [(25%float, 1)] nan 2)
      as (_ & Haverage & Hsum & Hcount).
    split; [exact Haverage | ]. split; [exact Hsum | exact Hcount].
Defined.

(** C1 as stated fails. A call with a NaN stores it as the current value while
    both comparisons are false, so neither extreme moves and the current value
    is not between them. And on numbers the average is the quotient of the
    running double-precision sum, which need not be the sum of the values:
    after 1e17 and then -1e17 the three samples add up to 22, a mean of 22/3,
    while the running sum is 16 and the average is 16/3. *)
Lemma update_fails_on_nan_and_rounding :
  temperature_ordered (applyTemperatures [(nan, 1)] xInitialDeviceValues) = false
  /\ (let dev := applyTemperatures [(100000000000000000%float, 1);
                                     ((-100000000000000000)%float, 2)]
                    xInitialDeviceValues in
      xDeviceTemperatureSummation dev = 16%float
      /\ xDeviceAverageTemperature dev = (16 / 3)%float
      /\ (xDeviceAverageTemperature dev <? 22 / 3)%float = true
      /\ 22 + 100000000000000000 - 100000000000000000 = 22).
Proof. vm_compute. repeat split; reflexivity. Qed.

(** C8. Whatever the device values, a value strictly greater than the
    recorded maximum reports [maxChanged = true] and leaves the minimum as it
    was (the value also becomes the maximum). *)
Theorem update_above_maximum (dev : DeviceValues) (v : float) (ver : Z) :
  double_gt v (xDeviceMaximumTemperature dev) = true ->
  snd (prvUpdateLocalProperties v ver dev) = true
  /\ xDeviceMinimumTemperature (fst (prvUpdateLocalProperties v ver dev))
     = xDeviceMinimumTemperature dev
  /\ xDeviceMaximumTemperature (fst (prvUpdateLocalProperties v ver dev)) = v.
Proof.
  intros Hgt. unfold prvUpdateLocalProperties. rewrite Hgt. simpl. auto.
Qed.

Lemma update_above_maximum_witness :
  snd (prvUpdateLocalProperties 25%float 1 xInitialDeviceValues) = true
  /\ xDeviceMinimumTemperature (fst (prvUpdateLocalProperties 25%float 1 xInitialDeviceValues))
     = xDeviceMinimumTemperature xInitialDeviceValues
  /\ xDeviceMaximumTemperature (fst (prvUpdateLocalProperties 25%float 1 xInitialDeviceValues))
     = 25%float.
Proof.
  apply (update_above_maximum xInitialDeviceValues 25%float 1). reflexivity.
Defined.

(** ** Command dispatch *)

Section CommandDispatch.

Variable lib : JSONWriterLibrary.

Lemma is_success_true (xResult : AzureIoTResult_t) :
  is_success xResult = true <-> xResult = eAzureIoTSuccess.
Proof. destruct xResult; simpl; split; congruence. Qed.

Lemma writer_append_accepted (pxWriter : AzureIoTJSONWriter_t) (t : writer_token) :
  is_success (xAppendResult lib pxWriter t) = true ->
  writer_append lib pxWriter t
  = (eAzureIoTSuccess,
     {| xWritten := xWritten pxWriter ++ [t];
        ulWriterBufferSize := ulWriterBufferSize pxWriter |}).
Proof.
  intros H. apply is_success_true in H. unfold writer_append. rewrite H. reflexivity.
Qed.

Lemma writer_append_refused (pxWriter : AzureIoTJSONWriter_t) (t : writer_token) :
  is_success (xAppendResult lib pxWriter t) = false ->
  writer_append lib pxWriter t = (xAppendResult lib pxWriter t, pxWriter)
  /\ is_success (fst (writer_append lib pxWriter t)) = false.
Proof.
  intros H. unfold writer_append.
  destruct (xAppendResult lib pxWriter t); try discriminate; auto.
Qed.

(** The comparison of lengths and [strncmp] accept exactly the command name. *)
Lemma strncmp_same_length (s1 s2 : string) :
  String.length s1 = String.length s2 ->
  (forall c, In c (list_ascii_of_string s1) -> c <> Ascii.zero) ->
  strncmp s1 s2 (String.length s1) = 0 <-> s1 = s2.
Proof.
  revert s2. induction s1 as [ | c1 s1 IH]; intros [ | c2 s2] Hlen Hnul;
    try discriminate; simpl.
  - tauto.
  - destruct (Ascii.eqb_spec c1 c2) as [-> | Hne].
    + destruct (Ascii.eqb_spec c2 Ascii.zero) as [Hz | _].
      * exfalso. apply (Hnul c2); simpl; auto.
      * rewrite IH.
        -- split; [intros ->; reflexivity | intros H; injection H; auto].
        -- simpl in Hlen. congruence.
        -- intros c Hc. apply Hnul. simpl. auto.
    + split.
      * intros H. exfalso. apply Hne.
        rewrite <- (ascii_N_embedding c1), <- (ascii_N_embedding c2).
        f_equal. lia.
      * intros H. injection H. intros _ E. contradiction.
Qed.

Lemma command_name_test (pxMessage : AzureIoTHubClientCommandRequest_t) :
  let lCommandNameLength :=
    Z.of_nat (String.length sampleazureiotCOMMAND_MAX_MIN_REPORT) in
  (lCommandNameLength =? usCommandNameLength pxMessage)
  && (strncmp sampleazureiotCOMMAND_MAX_MIN_REPORT (pucCommandName pxMessage)
        (Z.to_nat lCommandNameLength) =? 0)
  = String.eqb (pucCommandName pxMessage) sampleazureiotCOMMAND_MAX_MIN_REPORT.
Proof.
  intros n. subst n. unfold usCommandNameLength. rewrite Nat2Z.id.
  destruct (String.eqb_spec (pucCommandName pxMessage)
              sampleazureiotCOMMAND_MAX_MIN_REPORT) as [-> | Hne].
  - reflexivity.
  - apply andb_false_iff.
    destruct (Z.eqb_spec
                (Z.of_nat (String.length sampleazureiotCOMMAND_MAX_MIN_REPORT))
                (Z.of_nat (String.length (pucCommandName pxMessage)))) as [Hlen | Hlen];
      [right | left; reflexivity].
    apply Nat2Z.inj in Hlen. apply Z.eqb_neq. intros Hcmp. apply Hne. symmetry.
    apply strncmp_same_length; [exact Hlen | | exact Hcmp].
    intros c Hc E. subst c. vm_compute in Hc. intuition discriminate.
Qed.

Lemma append_chain_result (tokens : list writer_token) (pxWriter : AzureIoTJSONWriter_t) :
  if writer_accepts lib pxWriter tokens
  then append_chain lib pxWriter tokens
       = (eAzureIoTSuccess,
          {| xWritten := xWritten pxWriter ++ tokens;
             ulWriterBufferSize := ulWriterBufferSize pxWriter |})
  else is_success (fst (append_chain lib pxWriter tokens)) = false.
Proof.
  revert pxWriter. induction tokens as [ | t rest IH]; intros pxWriter.
  - simpl. rewrite app_nil_r. destruct pxWriter; reflexivity.
  - cbn [writer_accepts append_chain].
    destruct (is_success (xAppendResult lib pxWriter t)) eqn:Hacc.
    + rewrite (writer_append_accepted pxWriter t Hacc). cbn [andb].
      destruct rest as [ | t' rest'].
      * reflexivity.
      * unfold and_then. cbn [fst snd is_success AzureIoTResult_eqb].
        specialize (IH {| xWritten := xWritten pxWriter ++ [t];
                          ulWriterBufferSize := ulWriterBufferSize pxWriter |}).
        cbn [xWritten ulWriterBufferSize] in IH.
        rewrite <- app_assoc in IH. exact IH.
    + destruct (writer_append_refused pxWriter t Hacc) as [_ Hr]. cbn [andb].
      destruct rest as [ | t' rest']; [exact Hr | ].
      unfold and_then. rewrite Hr. exact Hr.
Qed.

(** The handler succeeds exactly when the payload opens with a start time
    that fits and the library accepts the seven tokens of the report. *)
Lemma prvInvokeMaxMinCommand_result (pvPayload : list json_token) (dev : DeviceValues) :
  let r := prvInvokeMaxMinCommand lib (snd (AzureIoTJSONReader_Init pvPayload))
             (xEmptyWriter sizeof_ucCommandPayloadBuffer) dev in
  match start_time_argument pvPayload with
  | None => is_success (fst r) = false
  | Some pucStartTime =>
      if writer_accepts lib (xEmptyWriter sizeof_ucCommandPayloadBuffer)
           (max_min_report dev pucStartTime)
      then r = (eAzureIoTSuccess,
                xWriterHolding sizeof_ucCommandPayloadBuffer
                  (max_min_report dev pucStartTime))
      else is_success (fst r) = false
  end.
Proof.
  unfold prvInvokeMaxMinCommand, start_time_argument. simpl.
  destruct pvPayload as [ | [ | | | | | s | | | | ] rest]; try reflexivity.
  cbn [AzureIoTJSONReader_NextToken AzureIoTJSONReader_Init snd xUnread is_success
       AzureIoTResult_eqb negb AzureIoTJSONReader_GetTokenString xToken].
  destruct (Z.of_nat (String.length s) <? sizeof_ucCommandStartTimeValueBuffer);
    [ | reflexivity ].
  cbn [is_success AzureIoTResult_eqb negb].
  exact (append_chain_result (max_min_report dev s)
           (xEmptyWriter sizeof_ucCommandPayloadBuffer)).
Qed.

End CommandDispatch.

(** C3. Command dispatch is total: provided the writer library reports a
    positive byte count for a writer that holds tokens, every request makes
    [prvHandleCommand] return with exactly one more recorded message, a command
    response, and which one is settled by the request, the device values and
    the writer library. A name other than "getMaxMinReport" (in length or
    content) gets 404 with the empty payload "{}". The name with a payload
    that does not open with a string fitting the start-time buffer (payload
    parsing fails) gets 501 with "{}", and so does the name with a start time
    when the library refuses one of the seven appends of the report (response
    construction fails); in both the handler's result is not a success. The
    name with a start time and a library that accepts the report gets 200, and
    the body is what the handler wrote: the recorded maximum, minimum and
    average, the echoed start time and the fixed end time. *)
Theorem command_dispatch_total
    (lib : JSONWriterLibrary) (pxMessage : AzureIoTHubClientCommandRequest_t) (w : world) :
  (forall pxWriter, xWritten pxWriter <> [] -> 0 < lBytesUsed lib pxWriter) ->
  let r := prvInvokeMaxMinCommand lib
             (snd (AzureIoTJSONReader_Init (pvCommandPayload pxMessage)))
             (xEmptyWriter sizeof_ucCommandPayloadBuffer) (xDevice w) in
  exists (ulStatus : Z) (xBody : payload),
    prvHandleCommand lib pxMessage w
    = Returned tt (world_after_sending w [evSendCommandResponse ulStatus xBody])
    /\ ((pucCommandName pxMessage <> "getMaxMinReport"%string
         /\ ulStatus = 404 /\ xBody = pConstant "{}")
        \/ (pucCommandName pxMessage = "getMaxMinReport"%string
            /\ start_time_argument (pvCommandPayload pxMessage) = None
            /\ fst r <> eAzureIoTSuccess
            /\ ulStatus = 501 /\ xBody = pConstant "{}")
        \/ (pucCommandName pxMessage = "getMaxMinReport"%string
            /\ (exists pucStartTime,
                  start_time_argument (pvCommandPayload pxMessage) = Some pucStartTime
                  /\ writer_accepts lib (xEmptyWriter sizeof_ucCommandPayloadBuffer)
                       (max_min_report (xDevice w) pucStartTime) = false)
            /\ fst r <> eAzureIoTSuccess
            /\ ulStatus = 501 /\ xBody = pConstant "{}")
        \/ (pucCommandName pxMessage = "getMaxMinReport"%string
            /\ exists pucStartTime,
                 start_time_argument (pvCommandPayload pxMessage) = Some pucStartTime
                 /\ writer_accepts lib (xEmptyWriter sizeof_ucCommandPayloadBuffer)
                      (max_min_report (xDevice w) pucStartTime) = true
                 /\ r = (eAzureIoTSuccess,
                         xWriterHolding sizeof_ucCommandPayloadBuffer
                           (max_min_report (xDevice w) pucStartTime))
                 /\ ulStatus = 200
                 /\ xBody = pWritten (max_min_report (xDevice w) pucStartTime)
                              (lBytesUsed lib
                                 (xWriterHolding sizeof_ucCommandPayloadBuffer
                                    (max_min_report (xDevice w) pucStartTime))))).
Proof.
  intros Hbytes r. unfold prvHandleCommand.
  rewrite command_name_test.
  destruct (String.eqb_spec (pucCommandName pxMessage)
              sampleazureiotCOMMAND_MAX_MIN_REPORT) as [Hname | Hname].
  - cbn [AzureIoTJSONReader_Init AzureIoTJSONWriter_Init is_success AzureIoTResult_eqb].
    unfold bind, configASSERT, readDevice.
    fold (xEmptyWriter sizeof_ucCommandPayloadBuffer).
    change {| xToken := None; xUnread := pvCommandPayload pxMessage |}
      with (snd (AzureIoTJSONReader_Init (pvCommandPayload pxMessage))).
    fold r.
    pose proof (prvInvokeMaxMinCommand_result lib (pvCommandPayload pxMessage) (xDevice w))
      as Hr.
    cbv zeta in Hr. fold r in Hr.
    assert (Hfailed : is_success (fst r) = false -> fst r <> eAzureIoTSuccess).
    { intros Hno E. rewrite E in Hno. discriminate. }
    destruct (start_time_argument (pvCommandPayload pxMessage)) as [pucStartTime | ].
    + destruct (writer_accepts lib (xEmptyWriter sizeof_ucCommandPayloadBuffer)
                  (max_min_report (xDevice w) pucStartTime)) eqn:Haccepts.
      * rewrite Hr. cbn [is_success AzureIoTResult_eqb].
        unfold AzureIoTJSONWriter_GetBytesUsed.
        assert (Hpos : 0 < lBytesUsed lib
                             (xWriterHolding sizeof_ucCommandPayloadBuffer
                                (max_min_report (xDevice w) pucStartTime)))
          by (apply Hbytes; discriminate).
        apply Z.ltb_lt in Hpos. rewrite Hpos.
        eexists 200, _. split; [reflexivity | ].
        right; right; right. split; [exact Hname | ].
        exists pucStartTime. split; [reflexivity | ]. split; [exact Haccepts | ].
        split; [reflexivity | ]. split; reflexivity.
      * destruct r as [xResult xWriter]. cbn [fst] in Hr, Hfailed. rewrite Hr.
        exists 501, (pConstant "{}"). split; [reflexivity | ].
        right; right; left. split; [exact Hname | ].
        split; [exists pucStartTime; split; [reflexivity | exact Haccepts] | ]. auto.
    + destruct r as [xResult xWriter]. cbn [fst] in Hr, Hfailed. rewrite Hr.
      exists 501, (pConstant "{}"). split; [reflexivity | ].
      right; left. auto.
  - exists 404, (pConstant "{}"). split; [reflexivity | ]. left. auto.
Qed.

Lemma command_dispatch_total_witness :
  prvHandleCommand xUnboundedWriter
    {| pucCommandName := "getMaxMinReport";
       pvCommandPayload := [tkString "2023-01-10T09:00:00Z"] |} xInitialWorld
  = Returned tt
      (world_after_sending xInitialWorld
         [evSendCommandResponse 200
            (pWritten
               [ wBeginObject;
                 wPropertyWithDoubleValue "maxTemp" 22%float 2;
                 wPropertyWithDoubleValue "minTemp" 22%float 2;
                 wPropertyWithDoubleValue "avgTemp" 22%float 2;
                 wPropertyWithStringValue "startTime" "2023-01-10T09:00:00Z";
                 wPropertyWithStringValue "endTime" "2023-01-10T10:00:00Z";
                 wEndObject ] 7)])
  /\ prvHandleCommand xUnboundedWriter
       {| pucCommandName := "getMaxMinReport"; pvCommandPayload := [] |} xInitialWorld
     = Returned tt
         (world_after_sending xInitialWorld [evSendCommandResponse 501 (pConstant "{}")])
  /\ prvHandleCommand xUnboundedWriter
       {| pucCommandName := "getMaxMinReports";
          pvCommandPayload := [tkString "2023-01-10T09:00:00Z"] |} xInitialWorld
     = Returned tt
         (world_after_sending xInitialWorld [evSendCommandResponse 404 (pConstant "{}")]).
Proof.
  assert (Hbytes : forall pxWriter,
             xWritten pxWriter <> [] -> 0 < lBytesUsed xUnboundedWriter pxWriter).
  { intros [tokens size] Hne. simpl in *. destruct tokens; [congruence | simpl; lia]. }
  split; [ | split].
  - destruct (command_dispatch_total xUnboundedWriter
                {| pucCommandName := "getMaxMinReport";
                   pvCommandPayload := [tkString "2023-01-10T09:00:00Z"] |}
                xInitialWorld Hbytes)
      as (ulStatus & xBody & Hsent
          & [(Hname & _) | [(_ & Htime & _) | [(_ & (t & _ & Hrefused) & _)
                                              | (_ & t & Htime & _ & _ & -> & ->)]]]).
    + exfalso. apply Hname. reflexivity.
    + discriminate Htime.
    + discriminate Hrefused.
    + injection Htime as <-. exact Hsent.
  - destruct (command_dispatch_total xUnboundedWriter
                {| pucCommandName := "getMaxMinReport"; pvCommandPayload := [] |}
                xInitialWorld Hbytes)
      as (ulStatus & xBody & Hsent
          & [(Hname & _) | [(_ & _ & _ & -> & ->) | [(_ & (t & Htime & _) & _)
                                                    | (_ & t & Htime & _)]]]).
    + exfalso. apply Hname. reflexivity.
    + exact Hsent.
    + discriminate Htime.
    + discriminate Htime.
  - destruct (command_dispatch_total xUnboundedWriter
                {| pucCommandName := "getMaxMinReports";
                   pvCommandPayload := [tkString "2023-01-10T09:00:00Z"] |}
                xInitialWorld Hbytes)
      as (ulStatus & xBody & Hsent
          & [(_ & -> & ->) | [(Hname & _) | [(Hname & _) | (Hname & _)]]]);
      [exact Hsent | discriminate Hname | discriminate Hname | discriminate Hname].
Defined.

(** ** Property synchronisation *)

Section PropertySync.

Variable lib : JSONWriterLibrary.

Lemma properties_end_result_not_success (xEnd : properties_end) :
  is_success (properties_end_result xEnd) = false.
Proof. destruct xEnd; reflexivity. Qed.

Lemma prvSkipPropertyAndValue_on_name
    (e : property_entry) (rest : list property_entry) (xEnd : properties_end) (w : world) :
  prvSkipPropertyAndValue
    {| PropertiesReader.xPosition := PropertiesReader.AtPropertyName;
       PropertiesReader.xUnread := e :: rest;
       PropertiesReader.xEnd := xEnd |} w
  = Returned
      {| PropertiesReader.xPosition := PropertiesReader.AtNextProperty;
         PropertiesReader.xUnread := rest;
         PropertiesReader.xEnd := xEnd |} w.
Proof. reflexivity. Qed.

(** The loop follows the walk of the specification, and never stops on an
    assertion or for lack of turns. *)
Lemma prvProcessProperties_loop_walk
    (xMessageType : AzureIoTHubMessageType_t)
    (xPropertyType : AzureIoTHubClientPropertyType_t)
    (xEnd : properties_end) (entries : list property_entry) :
  forall (fuel : nat) (xOutTemperature : float) (w : world),
    (List.length entries < fuel)%nat ->
    prvProcessProperties_loop fuel xMessageType xPropertyType
      {| PropertiesReader.xPosition := PropertiesReader.AtNextProperty;
         PropertiesReader.xUnread := entries;
         PropertiesReader.xEnd := xEnd |} xOutTemperature w
    = Returned (walk_properties entries xEnd xOutTemperature) w.
Proof.
  induction entries as [ | e rest IH]; intros fuel xOut w Hfuel;
    (destruct fuel as [ | fuel]; [simpl in Hfuel; lia | ]).
  - cbn [prvProcessProperties_loop
           PropertiesReader.AzureIoTHubClientProperties_GetNextComponentProperty
           PropertiesReader.xPosition PropertiesReader.xUnread PropertiesReader.xEnd
           walk_properties].
    fold (properties_end_result xEnd).
    rewrite properties_end_result_not_success. reflexivity.
  - assert (Hrest : (List.length rest < fuel)%nat) by (simpl in Hfuel; lia).
    cbn [prvProcessProperties_loop
           PropertiesReader.AzureIoTHubClientProperties_GetNextComponentProperty
           PropertiesReader.xPosition PropertiesReader.xUnread PropertiesReader.xEnd
           is_success AzureIoTResult_eqb walk_properties].
    unfold is_target_temperature.
    rewrite Z.leb_antisym.
    destruct (0 <? Z.of_nat (String.length (pucComponentName e))) eqn:Hcomponent;
      cbn [negb andb].
    + unfold bind at 1. rewrite prvSkipPropertyAndValue_on_name. apply IH, Hrest.
    + cbn [PropertiesReader.AzureIoTJSONReader_TokenIsTextEqual
             PropertiesReader.xPosition PropertiesReader.xUnread].
      destruct (String.eqb (pucPropertyName e)
                  sampleazureiotPROPERTY_TARGET_TEMPERATURE_TEXT) eqn:Hname.
      * cbn [PropertiesReader.AzureIoTJSONReader_NextToken
               PropertiesReader.AzureIoTJSONReader_GetTokenDouble
               PropertiesReader.xPosition PropertiesReader.xUnread PropertiesReader.xEnd
               is_success AzureIoTResult_eqb].
        unfold bind at 1. cbn [configASSERT].
        destruct (xPropertyValue e) as [x | code];
          cbn [is_success AzureIoTResult_eqb negb].
        -- unfold bind at 1. cbn [configASSERT]. apply IH, Hrest.
        -- reflexivity.
      * unfold bind at 1. rewrite prvSkipPropertyAndValue_on_name. apply IH, Hrest.
Qed.

Lemma prvProcessProperties_with_version
    (pxMessage : AzureIoTHubClientPropertiesResponse_t)
    (xPropertyType : AzureIoTHubClientPropertyType_t) (ulVersion : Z) (w : world) :
  xVersion pxMessage = xVersionIs ulVersion ->
  let walk := walk_properties (xProperties pxMessage) (xPropertiesEnd pxMessage) 0%float in
  prvProcessProperties pxMessage xPropertyType w
  = Returned (sync_result (fst walk), snd walk, ulVersion) w.
Proof.
  intros Hversion walk. unfold prvProcessProperties.
  unfold PropertiesReader.AzureIoTHubClientProperties_GetPropertiesVersion.
  rewrite Hversion.
  cbn [PropertiesReader.AzureIoTJSONReader_Init is_success AzureIoTResult_eqb]. cbn [is_success AzureIoTResult_eqb negb].
  unfold bind at 1. cbn [configASSERT].
  unfold bind at 1. cbn [configASSERT].
  unfold bind at 1.
  rewrite prvProcessProperties_loop_walk by lia.
  fold walk. destruct walk as [xResult xValue]. cbn [fst snd].
  destruct xResult; reflexivity.
Qed.

Lemma prvProcessProperties_without_version
    (pxMessage : AzureIoTHubClientPropertiesResponse_t)
    (xPropertyType : AzureIoTHubClientPropertyType_t) (code : positive) (w : world) :
  xVersion pxMessage = xVersionFailure code ->
  prvProcessProperties pxMessage xPropertyType w
  = Returned (eAzureIoTErrorOther code, 0%float, 0) w.
Proof.
  intros Hversion. unfold prvProcessProperties.
  unfold PropertiesReader.AzureIoTHubClientProperties_GetPropertiesVersion.
  rewrite Hversion.
  cbn [PropertiesReader.AzureIoTJSONReader_Init is_success AzureIoTResult_eqb]. reflexivity.
Qed.

(** Entries that are not the writable target temperature do not count. *)
Lemma walk_properties_filter (xEnd : properties_end) (entries : list property_entry) :
  forall xValue,
    walk_properties entries xEnd xValue
    = walk_properties (filter is_target_temperature entries) xEnd xValue.
Proof.
  induction entries as [ | e rest IH]; intros xValue; simpl.
  - reflexivity.
  - destruct (is_target_temperature e) eqn:He; simpl; rewrite ?He.
    + destruct (xPropertyValue e); [apply IH | reflexivity].
    + apply IH.
Qed.

Lemma last_cons_default {A : Type} (l : list A) (a d : A) :
  last (a :: l) d = last l a.
Proof.
  revert a d. induction l as [ | b l IH]; intros a d; [reflexivity | ].
  change (last (a :: b :: l) d) with (last (b :: l) d).
  rewrite (IH b d), (IH b a). reflexivity.
Qed.

Lemma walk_properties_numbers (xEnd : properties_end) (entries : list property_entry) :
  forall (values : list float) (xValue : float),
    forallb is_target_temperature entries = true ->
    map xPropertyValue entries = map jvNumber values ->
    walk_properties entries xEnd xValue = (properties_end_result xEnd, last values xValue).
Proof.
  induction entries as [ | e rest IH]; intros [ | x values] xValue Hall Hvalues;
    try discriminate; simpl in *.
  - reflexivity.
  - apply andb_prop in Hall. destruct Hall as [He Hrest]. rewrite He.
    injection Hvalues as Hx Hvalues. rewrite Hx.
    rewrite (IH values x Hrest Hvalues). f_equal.
    destruct values as [ | y values]; [reflexivity | ].
    rewrite (last_cons_default values y x), (last_cons_default values y xValue).
    reflexivity.
Qed.

Lemma filter_forallb {A : Type} (f : A -> bool) (l : list A) :
  forallb f (filter f l) = true.
Proof.
  induction l as [ | a l IH]; simpl; [reflexivity | ].
  destruct (f a) eqn:Ha; simpl; rewrite ?Ha; exact IH.
Qed.

(** A target temperature that is not a number ends the walk with an error. *)
Lemma walk_properties_mismatch (xEnd : properties_end) (entries : list property_entry) :
  forall (xValue : float),
    (exists e code, In e entries /\ is_target_temperature e = true
                    /\ xPropertyValue e = jvOther code) ->
    exists code', fst (walk_properties entries xEnd xValue) = eAzureIoTErrorOther code'.
Proof.
  induction entries as [ | e rest IH]; intros xValue (e' & code & Hin & Htarget & Hvalue).
  - destruct Hin.
  - simpl. destruct Hin as [-> | Hin].
    + rewrite Htarget, Hvalue. exists code. reflexivity.
    + destruct (is_target_temperature e).
      * destruct (xPropertyValue e) as [x | code0].
        -- apply IH. eauto.
        -- exists code0. reflexivity.
      * apply IH. eauto.
Qed.

(** The two senders, when the library writes their payload. *)
Lemma writer_accepts_cons (pxWriter : AzureIoTJSONWriter_t) (t : writer_token)
    (rest : list writer_token) :
  writer_accepts lib pxWriter (t :: rest) = true ->
  writer_append lib pxWriter t
  = (eAzureIoTSuccess,
     {| xWritten := xWritten pxWriter ++ [t];
        ulWriterBufferSize := ulWriterBufferSize pxWriter |})
  /\ writer_accepts lib
       {| xWritten := xWritten pxWriter ++ [t];
          ulWriterBufferSize := ulWriterBufferSize pxWriter |} rest = true.
Proof.
  cbn [writer_accepts]. intros H. apply andb_prop in H. destruct H as [Ht Hrest].
  split; [apply writer_append_accepted, Ht | exact Hrest].
Qed.

Ltac append_step H :=
  let Ht := fresh "Ht" in
  let Hrest := fresh "Hrest" in
  destruct (writer_accepts_cons _ _ _ H) as [Ht Hrest];
  cbn [xWritten ulWriterBufferSize app] in Ht, Hrest;
  rewrite Ht; clear Ht H;
  cbn [is_success AzureIoTResult_eqb];
  unfold bind at 1; cbn [configASSERT].

Lemma prvAckIncomingTemperature_sends (xTemperature : float) (ulVersion : Z) (w : world) :
  writes lib (acknowledgment_tokens xTemperature ulVersion) ->
  prvAckIncomingTemperature lib xTemperature ulVersion w
  = Returned tt
      (world_after_sending w [reported lib (acknowledgment_tokens xTemperature ulVersion)]).
Proof.
  intros [Haccepts Hbytes]. unfold prvAckIncomingTemperature, acknowledgment_tokens in *.
  cbn [AzureIoTJSONWriter_Init is_success AzureIoTResult_eqb].
  unfold bind at 1. cbn [configASSERT].
  unfold AzureIoTJSONWriter_AppendBeginObject,
    AzureIoTHubClientProperties_BuilderBeginResponseStatus,
    AzureIoTJSONWriter_AppendDouble,
    AzureIoTHubClientProperties_BuilderEndResponseStatus,
    AzureIoTJSONWriter_AppendEndObject,
    sampleazureiotPROPERTY_TARGET_TEMPERATURE_TEXT,
    sampleazureiotPROPERTY_STATUS_SUCCESS, sampleazureiotPROPERTY_SUCCESS,
    sampleazureiotDOUBLE_DECIMAL_PLACE_DIGITS.
  unfold xEmptyWriter in Haccepts.
  append_step Haccepts. append_step Hrest. append_step Hrest0.
  append_step Hrest. append_step Hrest0.
  unfold AzureIoTJSONWriter_GetBytesUsed.
  unfold xWriterHolding in Hbytes. apply Z.ltb_lt in Hbytes.
  unfold bind at 1. rewrite Hbytes. reflexivity.
Qed.

Lemma prvSendNewMaxTemp_sends (xTemperature : float) (w : world) :
  writes lib (max_temperature_tokens xTemperature) ->
  prvSendNewMaxTemp lib xTemperature w
  = Returned tt (world_after_sending w [reported lib (max_temperature_tokens xTemperature)]).
Proof.
  intros [Haccepts Hbytes]. unfold prvSendNewMaxTemp, max_temperature_tokens in *.
  cbn [AzureIoTJSONWriter_Init is_success AzureIoTResult_eqb].
  unfold bind at 1. cbn [configASSERT].
  unfold AzureIoTJSONWriter_AppendBeginObject, AzureIoTJSONWriter_AppendPropertyName,
    AzureIoTJSONWriter_AppendDouble, AzureIoTJSONWriter_AppendEndObject,
    sampleazureiotPROPERTY_MAX_TEMPERATURE_TEXT,
    sampleazureiotDOUBLE_DECIMAL_PLACE_DIGITS.
  unfold xEmptyWriter in Haccepts.
  append_step Haccepts. append_step Hrest. append_step Hrest0. append_step Hrest.
  unfold AzureIoTJSONWriter_GetBytesUsed.
  unfold xWriterHolding in Hbytes.
  apply Z.lt_le_incl, Z.ltb_ge in Hbytes. rewrite Hbytes. reflexivity.
Qed.

(** A sync that fails changes nothing and sends nothing. *)
Lemma prvHandlePropertyUpdate_failure
    (pxMessage : AzureIoTHubClientPropertiesResponse_t) (w : world)
    (xResult : AzureIoTResult_t) (xValue : float) (ulVersion : Z) :
  prvProcessProperties pxMessage eAzureIoTHubClientPropertyWritable w
  = Returned (xResult, xValue, ulVersion) w ->
  is_success xResult = false ->
  prvHandlePropertyUpdate lib pxMessage w = Returned tt w.
Proof.
  intros Hparse Hfail. unfold prvHandlePropertyUpdate, bind.
  rewrite Hparse, Hfail. reflexivity.
Qed.

(** A sync that succeeds applies the value, acknowledges it, and reports the
    maximum exactly when the update changed it. *)
Lemma prvHandlePropertyUpdate_success
    (pxMessage : AzureIoTHubClientPropertiesResponse_t) (w : world)
    (xValue : float) (ulVersion : Z) :
  prvProcessProperties pxMessage eAzureIoTHubClientPropertyWritable w
  = Returned (eAzureIoTSuccess, xValue, ulVersion) w ->
  writes lib (acknowledgment_tokens xValue ulVersion) ->
  (snd (prvUpdateLocalProperties xValue ulVersion (xDevice w)) = true ->
   writes lib (max_temperature_tokens xValue)) ->
  let update := prvUpdateLocalProperties xValue ulVersion (xDevice w) in
  prvHandlePropertyUpdate lib pxMessage w
  = Returned tt
      {| xDevice := fst update;
         xSent := xSent w
                  ++ reported lib (acknowledgment_tokens xValue ulVersion)
                     :: (if snd update
                         then [reported lib (max_temperature_tokens xValue)]
                         else []) |}.
Proof.
  intros Hparse Hack Hmax update. unfold prvHandlePropertyUpdate.
  unfold bind at 1. rewrite Hparse. cbn [is_success AzureIoTResult_eqb].
  unfold bind at 1. cbn [readDevice]. fold update. fold update in Hmax.
  destruct update as [dev xChanged]. cbn [fst snd] in *.
  unfold bind at 1. cbn [writeDevice].
  unfold bind at 1. rewrite (prvAckIncomingTemperature_sends _ _ _ Hack).
  destruct xChanged.
  - rewrite (prvSendNewMaxTemp_sends _ _ (Hmax eq_refl)).
    unfold world_after_sending. cbn [xDevice xSent].
    rewrite <- app_assoc. reflexivity.
  - reflexivity.
Qed.

End PropertySync.

(** The parse of a document whose target-temperature entries hold numbers. *)
Lemma parse_of_numeric_targets
    (pxMessage : AzureIoTHubClientPropertiesResponse_t)
    (xPropertyType : AzureIoTHubClientPropertyType_t)
    (ulVersion : Z) (values : list float) (w : world) :
  xVersion pxMessage = xVersionIs ulVersion ->
  map xPropertyValue (filter is_target_temperature (xProperties pxMessage))
  = map jvNumber values ->
  prvProcessProperties pxMessage xPropertyType w
  = Returned (sync_result (properties_end_result (xPropertiesEnd pxMessage)),
              last values 0%float, ulVersion) w.
Proof.
  intros Hversion Hvalues.
  rewrite (prvProcessProperties_with_version _ _ _ _ Hversion). cbv zeta.
  rewrite walk_properties_filter.
  rewrite (walk_properties_numbers _ _ values 0%float (filter_forallb _ _) Hvalues).
  reflexivity.
Qed.



(** C9. When the version cannot be extracted, or a writable target-temperature
    entry holds something that is not a number, [prvProcessProperties] returns
    an error, and [prvHandlePropertyUpdate] returns with the world as it was:
    the device values are unchanged and nothing was sent. *)
Theorem sync_error_changes_nothing
    (lib : JSONWriterLibrary) (pxMessage : AzureIoTHubClientPropertiesResponse_t)
    (w : world) :
  (exists code, xVersion pxMessage = xVersionFailure code)
  \/ (exists e code, In e (xProperties pxMessage)
                     /\ is_target_temperature e = true
                     /\ xPropertyValue e = jvOther code) ->
  (exists xResult xValue ulVersion,
     prvProcessProperties pxMessage eAzureIoTHubClientPropertyWritable w
     = Returned (xResult, xValue, ulVersion) w
     /\ xResult <> eAzureIoTSuccess)
  /\ prvHandlePropertyUpdate lib pxMessage w = Returned tt w.
Proof.
  intros Hcause.
  assert (Hparse : exists xResult xValue ulVersion,
             prvProcessProperties pxMessage eAzureIoTHubClientPropertyWritable w
             = Returned (xResult, xValue, ulVersion) w
             /\ is_success xResult = false).
  { destruct (xVersion pxMessage) as [ulVersion | code] eqn:Hversion.
    - destruct Hcause as [[code Hcode] | Hentry]; [discriminate | ].
      destruct (walk_properties_mismatch (xPropertiesEnd pxMessage)
                  (xProperties pxMessage) 0%float Hentry) as [code' Hwalk].
      eexists _, _, _. split.
      + apply (prvProcessProperties_with_version _ _ _ _ Hversion).
      + cbv zeta. rewrite Hwalk. reflexivity.
    - eexists _, _, _. split.
      + apply (prvProcessProperties_without_version _ _ _ _ Hversion).
      + reflexivity. }
  destruct Hparse as (xResult & xValue & ulVersion & Hparse & Hfail). split.
  - exists xResult, xValue, ulVersion. split; [exact Hparse | ].
    intros E. rewrite E in Hfail. discriminate.
  - exact (prvHandlePropertyUpdate_failure lib _ _ _ _ _ Hparse Hfail).
Qed.

Lemma sync_error_changes_nothing_witness :
  let pxMessage :=
    {| xMessageType := eAzureIoTHubPropertiesWritablePropertyMessage;
       xVersion := xVersionIs 4;
       xProperties := [ mkProperty "" "targetTemperature" (jvNumber 20%float);
                        mkProperty "" "targetTemperature" (jvOther 5) ];
       xPropertiesEnd := xEndOfProperties |} in
  (exists xResult xValue ulVersion,
     prvProcessProperties pxMessage eAzureIoTHubClientPropertyWritable xInitialWorld
     = Returned (xResult, xValue, ulVersion) xInitialWorld
     /\ xResult <> eAzureIoTSuccess)
  /\ prvHandlePropertyUpdate xUnboundedWriter pxMessage xInitialWorld
     = Returned tt xInitialWorld.
Proof.
  apply (sync_error_changes_nothing xUnboundedWriter
           {| xMessageType := eAzureIoTHubPropertiesWritablePropertyMessage;
              xVersion := xVersionIs 4;
              xProperties := [ mkProperty "" "targetTemperature" (jvNumber 20%float);
                               mkProperty "" "targetTemperature" (jvOther 5) ];
              xPropertiesEnd := xEndOfProperties |} xInitialWorld).
  right. exists (mkProperty "" "targetTemperature" (jvOther 5)), 5%positive.
  simpl. auto.
Defined.

(** C10. A document whose version was extracted, which ends at the end of the
    properties and has no writable target-temperature entry (only entries of
    named components or with other names, or none at all) parses to success
    with the value 0.0. On the initial device values the update then sets the
    current temperature to 0.0, lowers the minimum to 0.0, counts 0.0 in the
    average (11.0 over two samples) and sends an acknowledgment of 0.0, and no
    maximum report. *)
Theorem document_without_target_applies_zero
    (lib : JSONWriterLibrary) (pxMessage : AzureIoTHubClientPropertiesResponse_t)
    (ulVersion : Z) (w : world) :
  xVersion pxMessage = xVersionIs ulVersion ->
  xPropertiesEnd pxMessage = xEndOfProperties ->
  filter is_target_temperature (xProperties pxMessage) = [] ->
  xDevice w = xInitialDeviceValues ->
  writes lib (acknowledgment_tokens 0%float ulVersion) ->
  prvProcessProperties pxMessage eAzureIoTHubClientPropertyWritable w
  = Returned (eAzureIoTSuccess, 0%float, ulVersion) w
  /\ prvHandlePropertyUpdate lib pxMessage w
     = Returned tt
         {| xDevice :=
              {| xDeviceCurrentTemperature := 0%float;
                 xDeviceMaximumTemperature := 22%float;
                 xDeviceMinimumTemperature := 0%float;
                 xDeviceTemperatureSummation := (22 + 0)%float;
                 ulDeviceTemperatureCount := 2;
                 xDeviceAverageTemperature := 11%float |};
            xSent := xSent w ++ [reported lib (acknowledgment_tokens 0%float ulVersion)] |}.
Proof.
  intros Hversion Hend Hnone Hdev Hack.
  assert (Hparse : prvProcessProperties pxMessage eAzureIoTHubClientPropertyWritable w
                   = Returned (eAzureIoTSuccess, 0%float, ulVersion) w).
  { rewrite (parse_of_numeric_targets pxMessage
               eAzureIoTHubClientPropertyWritable ulVersion [] w Hversion).
    - rewrite Hend. reflexivity.
    - rewrite Hnone. reflexivity. }
  split; [exact Hparse | ].
  rewrite (prvHandlePropertyUpdate_success lib pxMessage w 0%float ulVersion Hparse Hack).
  - rewrite Hdev. reflexivity.
  - rewrite Hdev. discriminate.
Qed.

Lemma document_without_target_applies_zero_witness :
  let pxMessage :=
    {| xMessageType := eAzureIoTHubPropertiesGetMessage;
       xVersion := xVersionIs 1;
       xProperties := [ mkProperty "thermostat2" "targetTemperature" (jvNumber 30%float);
                        mkProperty "" "fanSpeed" (jvNumber 3%float) ];
       xPropertiesEnd := xEndOfProperties |} in
  prvProcessProperties pxMessage eAzureIoTHubClientPropertyWritable xInitialWorld
  = Returned (eAzureIoTSuccess, 0%float, 1) xInitialWorld
  /\ prvHandlePropertyUpdate xUnboundedWriter pxMessage xInitialWorld
     = Returned tt
         {| xDevice :=
              {| xDeviceCurrentTemperature := 0%float;
                 xDeviceMaximumTemperature := 22%float;
                 xDeviceMinimumTemperature := 0%float;
                 xDeviceTemperatureSummation := (22 + 0)%float;
                 ulDeviceTemperatureCount := 2;
                 xDeviceAverageTemperature := 11%float |};
            xSent := xSent xInitialWorld
                     ++ [reported xUnboundedWriter (acknowledgment_tokens 0%float 1)] |}.
Proof.
  apply (document_without_target_applies_zero xUnboundedWriter
           {| xMessageType := eAzureIoTHubPropertiesGetMessage;
              xVersion := xVersionIs 1;
              xProperties := [ mkProperty "thermostat2" "targetTemperature" (jvNumber 30%float);
                               mkProperty "" "fanSpeed" (jvNumber 3%float) ];
              xPropertiesEnd := xEndOfProperties |} 1 xInitialWorld);
    try reflexivity.
  split; [reflexivity | simpl; lia].
Defined.

(** C7. End to end from the initial device values (22.0), with a library that
    writes the payloads. The desired value 25.0 makes the maximum 25.0 with
    [maxChanged = true] and sends an acknowledgment that carries the version of
    the document, then a maximum report. The desired value 20.0 next makes the
    minimum 20.0 and sends its acknowledgment and no maximum report; the
    average is then that of the three samples, (22 + 25 + 20) / 3, which is
    22.33 to two decimal places. In general a successful sync sends the
    acknowledgment, followed by a maximum report exactly when the update
    changed the maximum. *)
Theorem end_to_end_scenario (lib : JSONWriterLibrary) (ulVersion1 ulVersion2 : Z) :
  writes lib (acknowledgment_tokens 25%float ulVersion1) ->
  writes lib (max_temperature_tokens 25%float) ->
  writes lib (acknowledgment_tokens 20%float ulVersion2) ->
  (exists w1 w2 : world,
     prvHandlePropertyUpdate lib (desired_temperature 25%float ulVersion1) xInitialWorld
     = Returned tt w1
     /\ snd (prvUpdateLocalProperties 25%float ulVersion1 xInitialDeviceValues) = true
     /\ xDeviceMaximumTemperature (xDevice w1) = 25%float
     /\ xSent w1 = [ reported lib (acknowledgment_tokens 25%float ulVersion1);
                     reported lib (max_temperature_tokens 25%float) ]
     /\ prvHandlePropertyUpdate lib (desired_temperature 20%float ulVersion2) w1
        = Returned tt w2
     /\ xDeviceMinimumTemperature (xDevice w2) = 20%float
     /\ xSent w2 = xSent w1 ++ [ reported lib (acknowledgment_tokens 20%float ulVersion2) ]
     /\ ulDeviceTemperatureCount (xDevice w2) = 3
     /\ xDeviceAverageTemperature (xDevice w2) = ((22 + 25 + 20) / 3)%float
     /\ (22330 / 1000 <=? xDeviceAverageTemperature (xDevice w2))%float = true
     /\ (xDeviceAverageTemperature (xDevice w2) <? 22335 / 1000)%float = true)
  /\ (forall (pxMessage : AzureIoTHubClientPropertiesResponse_t) (w : world)
        (xValue : float) (ulVersion : Z),
        prvProcessProperties pxMessage eAzureIoTHubClientPropertyWritable w
        = Returned (eAzureIoTSuccess, xValue, ulVersion) w ->
        writes lib (acknowledgment_tokens xValue ulVersion) ->
        (snd (prvUpdateLocalProperties xValue ulVersion (xDevice w)) = true ->
         writes lib (max_temperature_tokens xValue)) ->
        exists w' : world,
          prvHandlePropertyUpdate lib pxMessage w = Returned tt w'
          /\ xSent w'
             = xSent w
               ++ reported lib (acknowledgment_tokens xValue ulVersion)
                  :: (if snd (prvUpdateLocalProperties xValue ulVersion (xDevice w))
                      then [ reported lib (max_temperature_tokens xValue) ]
                      else [])).
Proof.
  intros Hack1 Hmax1 Hack2. split.
  - assert (Hparse : forall x v w,
               prvProcessProperties (desired_temperature x v)
                 eAzureIoTHubClientPropertyWritable w
               = Returned (eAzureIoTSuccess, x, v) w).
    { intros x v w.
      apply (parse_of_numeric_targets (desired_temperature x v)
               eAzureIoTHubClientPropertyWritable v [x] w); reflexivity. }
    eexists _, _. split.
    { apply (prvHandlePropertyUpdate_success lib _ _ _ _ (Hparse _ _ _) Hack1).
      intros _. exact Hmax1. }
    split; [reflexivity | ]. split; [reflexivity | ]. split; [reflexivity | ].
    split.
    { apply (prvHandlePropertyUpdate_success lib _ _ _ _ (Hparse _ _ _) Hack2).
      discriminate. }
    repeat split; reflexivity.
  - intros pxMessage w xValue ulVersion Hparse Hack Hmax. eexists. split.
    + exact (prvHandlePropertyUpdate_success lib _ _ _ _ Hparse Hack Hmax).
    + reflexivity.
Qed.

Lemma end_to_end_scenario_witness :
  (writes xUnboundedWriter (acknowledgment_tokens 25%float 5)
   /\ writes xUnboundedWriter (max_temperature_tokens 25%float)
   /\ writes xUnboundedWriter (acknowledgment_tokens 20%float 6))
  /\ exists w1 w2 : world,
       prvHandlePropertyUpdate xUnboundedWriter (desired_temperature 25%float 5) xInitialWorld
       = Returned tt w1
       /\ snd (prvUpdateLocalProperties 25%float 5 xInitialDeviceValues) = true
       /\ xDeviceMaximumTemperature (xDevice w1) = 25%float
       /\ xSent w1 = [ reported xUnboundedWriter (acknowledgment_tokens 25%float 5);
                       reported xUnboundedWriter (max_temperature_tokens 25%float) ]
       /\ prvHandlePropertyUpdate xUnboundedWriter (desired_temperature 20%float 6) w1
          = Returned tt w2
       /\ xDeviceMinimumTemperature (xDevice w2) = 20%float
       /\ xSent w2
          = xSent w1 ++ [ reported xUnboundedWriter (acknowledgment_tokens 20%float 6) ]
       /\ ulDeviceTemperatureCount (xDevice w2) = 3
       /\ xDeviceAverageTemperature (xDevice w2) = ((22 + 25 + 20) / 3)%float
       /\ (22330 / 1000 <=? xDeviceAverageTemperature (xDevice w2))%float = true
       /\ (xDeviceAverageTemperature (xDevice w2) <? 22335 / 1000)%float = true.
Proof.
  assert (H1 : writes xUnboundedWriter (acknowledgment_tokens 25%float 5))
    by (split; [reflexivity | simpl; lia]).
  assert (H2 : writes xUnboundedWriter (max_temperature_tokens 25%float))
    by (split; [reflexivity | simpl; lia]).
  assert (H3 : writes xUnboundedWriter (acknowledgment_tokens 20%float 6))
    by (split; [reflexivity | simpl; lia]).
  split; [auto | ].
  exact (proj1 (end_to_end_scenario xUnboundedWriter 5 6 H1 H2 H3)).
Defined.

(** ** Connection with retries *)

Section ConnectionRetries.

Variable answers : connect_answers.

Lemma world_after_sending_app (w : world) (sent1 sent2 : list event) :
  world_after_sending (world_after_sending w sent1) sent2
  = world_after_sending w (sent1 ++ sent2).
Proof. unfold world_after_sending. simpl. rewrite app_assoc. reflexivity. Qed.

Lemma TlsTransportStatus_failure (s : TlsTransportStatus_t) :
  s <> eTLSTransportSuccess -> TlsTransportStatus_is_success s = false.
Proof. destruct s; [congruence | reflexivity]. Qed.

(** A granted delay lies between zero and the cap. *)
Lemma BackoffAlgorithm_GetNextBackoff_bound
    (pRetryContext : BackoffAlgorithmContext_t) (randomValue : Z)
    (xContext : BackoffAlgorithmContext_t) (delay : Z) :
  0 <= baseDelay pRetryContext -> 0 <= maxDelay pRetryContext ->
  0 <= attemptCount pRetryContext ->
  BackoffAlgorithm_GetNextBackoff pRetryContext randomValue
  = (BackoffAlgorithmSuccess, xContext, Some delay) ->
  0 <= delay <= maxDelay pRetryContext.
Proof.
  intros Hbase Hmax Hcount. unfold BackoffAlgorithm_GetNextBackoff.
  destruct (maxAttempts pRetryContext <? attemptCount pRetryContext + 1);
    [discriminate | ].
  intros H. injection H as _ <-.
  assert (Hpow : 0 <= baseDelay pRetryContext * 2 ^ attemptCount pRetryContext).
  { apply Z.mul_nonneg_nonneg; [exact Hbase | apply Z.pow_nonneg; lia]. }
  pose proof (Z.mod_pos_bound randomValue
                (Z.min (maxDelay pRetryContext)
                   (baseDelay pRetryContext * 2 ^ attemptCount pRetryContext) + 1)).
  lia.
Qed.

(** One turn of the loop after a failed connect: a granted retry waits and
    goes round again; an exhausted policy ends the loop at once. *)
Lemma prvConnect_loop_retry (fuel n : nat) (xParams : BackoffAlgorithmContext_t)
    (xStatus : BackoffAlgorithmStatus_t) (usNext : Z) (w : world) :
  xTLSConnectResult answers n <> eTLSTransportSuccess ->
  attemptCount xParams + 1 <= maxAttempts xParams ->
  let delay := ulRandom32 answers n
               mod (Z.min (maxDelay xParams) (baseDelay xParams * 2 ^ attemptCount xParams) + 1) in
  prvConnect_loop (S fuel) answers n xParams xStatus usNext w
  = prvConnect_loop fuel answers (S n)
      {| baseDelay := baseDelay xParams; maxDelay := maxDelay xParams;
         maxAttempts := maxAttempts xParams; attemptCount := attemptCount xParams + 1 |}
      BackoffAlgorithmSuccess delay
      (world_after_sending w [evTLSConnect; evTaskDelay delay]).
Proof.
  intros Hfail Hcount delay. cbn [prvConnect_loop].
  rewrite (TlsTransportStatus_failure _ Hfail). cbn [negb andb].
  unfold BackoffAlgorithm_GetNextBackoff.
  apply Z.ltb_ge in Hcount. rewrite Hcount.
  unfold bind, emit, ret, world_after_sending. cbn [xDevice xSent BackoffAlgorithmStatus_is_success].
  rewrite <- app_assoc. reflexivity.
Qed.

Lemma prvConnect_loop_exhausted (fuel n : nat) (xParams : BackoffAlgorithmContext_t)
    (xStatus : BackoffAlgorithmStatus_t) (usNext : Z) (w : world) :
  xTLSConnectResult answers n <> eTLSTransportSuccess ->
  maxAttempts xParams < attemptCount xParams + 1 ->
  prvConnect_loop (S fuel) answers n xParams xStatus usNext w
  = Returned (xTLSConnectResult answers n) (world_after_sending w [evTLSConnect]).
Proof.
  intros Hfail Hcount. cbn [prvConnect_loop].
  rewrite (TlsTransportStatus_failure _ Hfail). cbn [negb andb].
  unfold BackoffAlgorithm_GetNextBackoff.
  apply Z.ltb_lt in Hcount. rewrite Hcount. reflexivity.
Qed.

Lemma prvConnect_loop_connected (fuel n : nat) (xParams : BackoffAlgorithmContext_t)
    (xStatus : BackoffAlgorithmStatus_t) (usNext : Z) (w : world) :
  xTLSConnectResult answers n = eTLSTransportSuccess ->
  prvConnect_loop (S fuel) answers n xParams xStatus usNext w
  = Returned eTLSTransportSuccess (world_after_sending w [evTLSConnect]).
Proof.
  intros Hok. cbn [prvConnect_loop]. rewrite Hok. reflexivity.
Qed.

(** Five failed connects: five granted retries, then the sixth connect, whose
    result ends the loop either way. *)
Lemma prvConnectToServerWithBackoffRetries_five_failures (w : world) :
  (forall n, (n < 5)%nat -> xTLSConnectResult answers n <> eTLSTransportSuccess) ->
  prvConnectToServerWithBackoffRetries answers w
  = Returned (connect_status (xTLSConnectResult answers 5))
      (world_after_sending w (retry_trace (granted_delays answers))).
Proof.
  intros Hfail. unfold prvConnectToServerWithBackoffRetries, bind.
  change (S (Z.to_nat sampleazureiotRETRY_MAX_ATTEMPTS)) with 6%nat.
  unfold BackoffAlgorithm_InitializeParams, sampleazureiotRETRY_BACKOFF_BASE_MS,
    sampleazureiotRETRY_MAX_BACKOFF_DELAY_MS, sampleazureiotRETRY_MAX_ATTEMPTS.
  do 5 (rewrite prvConnect_loop_retry;
        [ cbn [baseDelay maxDelay maxAttempts attemptCount]
        | apply Hfail; lia | cbn [baseDelay maxDelay maxAttempts attemptCount]; lia ];
        rewrite ?world_after_sending_app).
  destruct (xTLSConnectResult answers 5) as [ | code] eqn:Hsixth.
  - rewrite prvConnect_loop_connected by exact Hsixth.
    rewrite world_after_sending_app. reflexivity.
  - rewrite prvConnect_loop_exhausted;
      [ | rewrite Hsixth; discriminate
        | cbn [baseDelay maxDelay maxAttempts attemptCount]; lia ].
    rewrite Hsixth, world_after_sending_app. reflexivity.
Qed.

Lemma granted_delays_bounded :
  Forall (fun d => 0 <= d <= sampleazureiotRETRY_MAX_BACKOFF_DELAY_MS)
    (granted_delays answers).
Proof.
  unfold granted_delays, sampleazureiotRETRY_MAX_BACKOFF_DELAY_MS.
  repeat constructor;
    match goal with
    | |- _ <= ?r mod ?m => apply (Z.mod_pos_bound r m); lia
    | |- ?r mod ?m <= _ => pose proof (Z.mod_pos_bound r m); lia
    end.
Qed.

End ConnectionRetries.

(** C4. Every call of [prvConnectToServerWithBackoffRetries] initialises its
    backoff context anew. With the sample's configuration (five attempts, cap
    5000 ms), five failed connects in a row draw exactly five delays, each at
    most the cap, and the sixth consultation of the policy reports exhaustion
    without a delay. The call makes its sixth connect after the fifth delay
    and returns at once with the status of that connect (1 when it fails too):
    no sixth delay and no seventh connect. A further call goes through the
    same retries again, whatever the earlier call did. *)
Theorem five_failures_then_exhaustion (answers answers' : connect_answers) (w : world) :
  (forall n, (n < 5)%nat -> xTLSConnectResult answers n <> eTLSTransportSuccess) ->
  (forall n, (n < 5)%nat -> xTLSConnectResult answers' n <> eTLSTransportSuccess) ->
  consult
    (BackoffAlgorithm_InitializeParams sampleazureiotRETRY_BACKOFF_BASE_MS
       sampleazureiotRETRY_MAX_BACKOFF_DELAY_MS sampleazureiotRETRY_MAX_ATTEMPTS)
    (map (ulRandom32 answers) [0; 1; 2; 3; 4; 5]%nat)
  = map (fun d => (BackoffAlgorithmSuccess, Some d)) (granted_delays answers)
    ++ [(BackoffAlgorithmRetriesExhausted, None)]
  /\ List.length (granted_delays answers) = 5%nat
  /\ Forall (fun d => 0 <= d <= sampleazureiotRETRY_MAX_BACKOFF_DELAY_MS)
       (granted_delays answers)
  /\ prvConnectToServerWithBackoffRetries answers w
     = Returned (connect_status (xTLSConnectResult answers 5))
         (world_after_sending w (retry_trace (granted_delays answers)))
  /\ (xTLSConnectResult answers 5 <> eTLSTransportSuccess ->
      prvConnectToServerWithBackoffRetries answers w
      = Returned 1 (world_after_sending w (retry_trace (granted_delays answers))))
  /\ (prvConnectToServerWithBackoffRetries answers ;;
      prvConnectToServerWithBackoffRetries answers') w
     = Returned (connect_status (xTLSConnectResult answers' 5))
         (world_after_sending w
            (retry_trace (granted_delays answers) ++ retry_trace (granted_delays answers'))).
Proof.
  intros Hfail Hfail'.
  pose proof (prvConnectToServerWithBackoffRetries_five_failures answers w Hfail) as Hrun.
  split; [reflexivity | ]. split; [reflexivity | ].
  split; [apply granted_delays_bounded | ]. split; [exact Hrun | ]. split.
  - intros Hsixth. rewrite Hrun. unfold connect_status.
    rewrite (TlsTransportStatus_failure _ Hsixth). reflexivity.
  - unfold bind at 1. rewrite Hrun.
    rewrite (prvConnectToServerWithBackoffRetries_five_failures answers' _ Hfail').
    rewrite world_after_sending_app. reflexivity.
Qed.

Lemma five_failures_then_exhaustion_witness :
  let answers := xConnectAnswers xConnectionRefused in
  prvConnectToServerWithBackoffRetries answers xInitialWorld
  = Returned 1
      (world_after_sending xInitialWorld
         [ evTLSConnect; evTaskDelay 123; evTLSConnect; evTaskDelay 122;
           evTLSConnect; evTaskDelay 122; evTLSConnect; evTaskDelay 3123;
           evTLSConnect; evTaskDelay 4123; evTLSConnect ]).
Proof.
  refine (proj1 (proj2 (proj2 (proj2 (proj2
            (five_failures_then_exhaustion (xConnectAnswers xConnectionRefused)
               (xConnectAnswers xConnectionRefused) xInitialWorld _ _))))) _);
    simpl; intros; discriminate.
Defined.

(** ** The demo task *)

Section DemoTask.

Variable lib : JSONWriterLibrary.

Lemma emits_ret {A : Type} (P : event -> Prop) (a : A) : emits P (ret a).
Proof. intros w. exists []. rewrite app_nil_r. split; [reflexivity | constructor]. Qed.

Lemma emits_assert (P : event -> Prop) (x : bool) : emits P (configASSERT x).
Proof.
  intros w. unfold configASSERT.
  destruct x; exists []; rewrite app_nil_r; (split; [reflexivity | constructor]).
Qed.

Lemma emits_readDevice (P : event -> Prop) : emits P readDevice.
Proof. intros w. exists []. simpl. rewrite app_nil_r. split; [reflexivity | constructor]. Qed.

Lemma emits_writeDevice (P : event -> Prop) (dev : DeviceValues) : emits P (writeDevice dev).
Proof. intros w. exists []. simpl. rewrite app_nil_r. split; [reflexivity | constructor]. Qed.

Lemma emits_emit (P : event -> Prop) (e : event) : P e -> emits P (emit e).
Proof. intros He w. exists [e]. split; [reflexivity | constructor; [exact He | constructor]]. Qed.

Lemma emits_bind {A B : Type} (P : event -> Prop) (m : task A) (k : A -> task B) :
  emits P m -> (forall a, emits P (k a)) -> emits P (bind m k).
Proof.
  intros Hm Hk w. unfold bind. specialize (Hm w).
  destruct (m w) as [a w1 | w1 | ]; [ | exact Hm | exact Hm ].
  destruct Hm as (sent1 & Hsent1 & HP1). specialize (Hk a w1).
  destruct (k a w1) as [b w2 | w2 | ]; [ | | exact Hk ];
    destruct Hk as (sent2 & Hsent2 & HP2); exists (sent1 ++ sent2);
    (split; [rewrite Hsent2, Hsent1, app_assoc; reflexivity | apply Forall_app; auto]).
Qed.

Ltac emits_auto :=
  repeat first
    [ apply emits_ret
    | apply emits_assert
    | apply emits_readDevice
    | apply emits_writeDevice
    | apply emits_emit; reflexivity
    | apply emits_bind; [ | intros ? ]
    | match goal with
      | |- emits _ (match ?x with _ => _ end) => destruct x
      end ].

Lemma prvProcessProperties_returns (pxMessage : AzureIoTHubClientPropertiesResponse_t)
    (xPropertyType : AzureIoTHubClientPropertyType_t) (w : world) :
  exists r, prvProcessProperties pxMessage xPropertyType w = Returned r w.
Proof.
  destruct (xVersion pxMessage) as [ulVersion | code] eqn:Hversion.
  - eexists. apply (prvProcessProperties_with_version _ _ _ _ Hversion).
  - eexists. apply (prvProcessProperties_without_version _ _ _ _ Hversion).
Qed.

Lemma emits_prvProcessProperties (P : event -> Prop)
    (pxMessage : AzureIoTHubClientPropertiesResponse_t)
    (xPropertyType : AzureIoTHubClientPropertyType_t) :
  emits P (prvProcessProperties pxMessage xPropertyType).
Proof.
  intros w. destruct (prvProcessProperties_returns pxMessage xPropertyType w) as [r ->].
  exists []. rewrite app_nil_r. split; [reflexivity | constructor].
Qed.

Lemma emits_prvSendNewMaxTemp (x : float) : emits not_teardown (prvSendNewMaxTemp lib x).
Proof. unfold prvSendNewMaxTemp. emits_auto. Qed.

Lemma emits_prvAckIncomingTemperature (x : float) (ulVersion : Z) :
  emits not_teardown (prvAckIncomingTemperature lib x ulVersion).
Proof. unfold prvAckIncomingTemperature. emits_auto. Qed.

Lemma emits_prvHandleProperties (pxMessage : AzureIoTHubClientPropertiesResponse_t) :
  emits not_teardown (prvHandleProperties lib pxMessage).
Proof.
  assert (Hupdate : emits not_teardown (prvHandlePropertyUpdate lib pxMessage)).
  { unfold prvHandlePropertyUpdate.
    apply emits_bind; [apply emits_prvProcessProperties | ].
    intros [[xResult xValue] ulVersion].
    destruct (is_success xResult); [ | apply emits_ret].
    apply emits_bind; [apply emits_readDevice | intros dev].
    destruct (prvUpdateLocalProperties xValue ulVersion dev) as [dev' xChanged].
    apply emits_bind; [apply emits_writeDevice | intros _].
    apply emits_bind; [apply emits_prvAckIncomingTemperature | intros _].
    destruct xChanged; [apply emits_prvSendNewMaxTemp | apply emits_ret]. }
  unfold prvHandleProperties.
  destruct (xMessageType pxMessage); try exact Hupdate; emits_auto.
Qed.

Lemma emits_prvHandleCommand (pxMessage : AzureIoTHubClientCommandRequest_t) :
  emits not_teardown (prvHandleCommand lib pxMessage).
Proof. unfold prvHandleCommand. emits_auto. Qed.

Lemma emits_deliver (messages : list inbound_message) :
  emits not_teardown (deliver lib messages).
Proof.
  induction messages as [ | [pxMessage | pxMessage] rest IH]; cbn [deliver].
  - apply emits_ret.
  - apply emits_bind; [apply emits_prvHandleCommand | intros _; exact IH].
  - apply emits_bind; [apply emits_prvHandleProperties | intros _; exact IH].
Qed.

Lemma emits_prvAzureDemoTask_stream (answers : collaborator_answers) :
  emits not_teardown (prvAzureDemoTask_stream lib answers).
Proof.
  unfold prvAzureDemoTask_stream.
  apply emits_bind; [apply emits_readDevice | intros dev].
  apply emits_bind; [apply emits_emit; reflexivity | intros _].
  apply emits_bind; [apply emits_assert | intros _].
  apply emits_bind; [apply emits_prvSendNewMaxTemp | intros _].
  apply emits_bind; [apply emits_deliver | intros _].
  emits_auto.
Qed.

Lemma emits_emit_ret_bind {A B : Type} (P : event -> Prop) (e : event) (a : A)
    (k : A -> task B) :
  P e -> emits P (k a) -> emits P (bind (bind (emit e) (fun _ => ret a)) k).
Proof.
  intros He Hk w. unfold bind, emit, ret.
  specialize (Hk {| xDevice := xDevice w; xSent := xSent w ++ [e] |}).
  cbn [xSent] in Hk.
  destruct (k a _) as [b w' | w' | ]; [ | | exact Hk ];
    destruct Hk as (sent & Hsent & HP); exists (e :: sent);
    (split; [rewrite Hsent, <- app_assoc; reflexivity | constructor; assumption]).
Qed.

(** The connection loop returns within its bound: a turn is left for every
    retry the policy can still grant, and one more. *)
Lemma emits_prvConnect_loop (answers : connect_answers) (fuel : nat) :
  forall (n : nat) (xParams : BackoffAlgorithmContext_t)
         (xStatus : BackoffAlgorithmStatus_t) (usNext : Z),
    (0 < fuel)%nat ->
    maxAttempts xParams - attemptCount xParams < Z.of_nat fuel ->
    emits not_teardown (prvConnect_loop fuel answers n xParams xStatus usNext).
Proof.
  induction fuel as [ | fuel IH]; intros n xParams xStatus usNext Hpos Hfuel; [lia | ].
  cbn [prvConnect_loop].
  apply emits_bind; [apply emits_emit; reflexivity | intros _].
  destruct (TlsTransportStatus_is_success (xTLSConnectResult answers n));
    cbn [negb andb]; [emits_auto | ].
  unfold BackoffAlgorithm_GetNextBackoff.
  destruct (maxAttempts xParams <? attemptCount xParams + 1) eqn:Hexhausted.
  - emits_auto.
  - apply Z.ltb_ge in Hexhausted.
    apply emits_emit_ret_bind; [reflexivity | ].
    cbn [BackoffAlgorithmStatus_is_success].
    apply IH; cbn [maxAttempts attemptCount]; lia.
Qed.

Lemma emits_prvConnectToServerWithBackoffRetries (answers : connect_answers) :
  emits not_teardown (prvConnectToServerWithBackoffRetries answers).
Proof.
  unfold prvConnectToServerWithBackoffRetries.
  apply emits_bind; [ | intros xNetworkStatus; apply emits_ret].
  apply emits_prvConnect_loop; [lia | ].
  cbn [BackoffAlgorithm_InitializeParams maxAttempts attemptCount].
  unfold sampleazureiotRETRY_MAX_ATTEMPTS. lia.
Qed.

Lemma filter_teardown_unchanged (sent added : list event) :
  Forall not_teardown added ->
  filter is_teardown (sent ++ added) = filter is_teardown sent.
Proof.
  intros Hadded. rewrite filter_app.
  replace (filter is_teardown added) with (@nil event); [apply app_nil_r | ].
  induction Hadded as [ | e added He _ IH]; [reflexivity | ].
  simpl. unfold not_teardown in He. rewrite He. exact IH.
Qed.

(** A task that hands over no tear-down message, followed by a failing
    assertion, stops the task. *)
Lemma emits_then_assert_false {A : Type} (P : event -> Prop) (t : task A)
    (k : task unit) (w : world) :
  emits P t ->
  exists w', (t ;; configASSERT false ;; k) w = AssertFailed w'.
Proof.
  intros Ht. specialize (Ht w). unfold bind.
  destruct (t w) as [a w1 | w1 | ]; [ | | destruct Ht ]; eexists; reflexivity.
Qed.

(** One pass through the body of the inner loop. *)
Lemma step_from_streaming (answers : collaborator_answers) (s : session) :
  xPhase s = Streaming ->
  (xPhase (step lib answers s) = Streaming \/ xPhase (step lib answers s) = Halted)
  /\ filter is_teardown (xSent (xWorld (step lib answers s)))
     = filter is_teardown (xSent (xWorld s)).
Proof.
  intros Hphase. unfold step. rewrite Hphase. unfold run_phase.
  pose proof (emits_prvAzureDemoTask_stream answers (xWorld s)) as Hemits.
  destruct (prvAzureDemoTask_stream lib answers (xWorld s)) as [[] w' | w' | ];
    [ | | destruct Hemits ];
    destruct Hemits as (added & Hsent & Hadded); cbn [xPhase xWorld];
    (split; [auto | rewrite Hsent; apply filter_teardown_unchanged, Hadded]).
Qed.

Lemma run_from_streaming_or_halted (later : list collaborator_answers) (s : session) :
  xPhase s = Streaming \/ xPhase s = Halted ->
  (xPhase (run lib later s) = Streaming \/ xPhase (run lib later s) = Halted)
  /\ filter is_teardown (xSent (xWorld (run lib later s)))
     = filter is_teardown (xSent (xWorld s)).
Proof.
  revert s. induction later as [ | answers later IH]; intros s Hphase; [auto | ].
  change (run lib (answers :: later) s) with (run lib later (step lib answers s)).
  destruct Hphase as [Hphase | Hphase].
  - destruct (step_from_streaming answers s Hphase) as [Hnext Hsent].
    destruct (IH _ Hnext) as [Hlast Hsent']. split; [exact Hlast | congruence].
  - assert (Hstay : step lib answers s = s) by (unfold step; rewrite Hphase; reflexivity).
    rewrite Hstay. apply IH. auto.
Qed.

Lemma step_streaming_failure (answers : collaborator_answers) (s : session) :
  xPhase s = Streaming ->
  xSendTelemetryResult answers <> eAzureIoTSuccess
  \/ xProcessLoopResult answers <> eAzureIoTSuccess ->
  xPhase (step lib answers s) = Halted.
Proof.
  intros Hphase Hfailure.
  destruct (is_success (xSendTelemetryResult answers)) eqn:Htelemetry.
  - destruct Hfailure as [Hfailure | Hfailure];
      [apply is_success_true in Htelemetry; contradiction | ].
    assert (Hpoll : is_success (xProcessLoopResult answers) = false).
    { destruct (is_success (xProcessLoopResult answers)) eqn:E; [ | reflexivity].
      apply is_success_true in E. contradiction. }
    unfold step. rewrite Hphase. unfold run_phase, prvAzureDemoTask_stream.
    rewrite Htelemetry, Hpoll.
    unfold bind at 1. cbn [readDevice].
    unfold bind at 1. cbn [emit].
    unfold bind at 1. cbn [configASSERT].
    match goal with
    | |- context [bind ?m ?k ?w] =>
        assert (Hstop : exists w', bind m k w = AssertFailed w')
    end.
    { match goal with
      | |- exists w', bind ?m _ ?w = _ =>
          pose proof (emits_prvSendNewMaxTemp
                        (xDeviceMaximumTemperature (xDevice (xWorld s))) w) as Hmax
      end.
      unfold bind at 1. cbn [xDevice] in *.
      destruct (prvSendNewMaxTemp lib _ _) as [[] w1 | w1 | ];
        [ | eexists; reflexivity | destruct Hmax ].
      apply (emits_then_assert_false not_teardown), emits_deliver. }
    destruct Hstop as [w' ->]. reflexivity.
  - unfold step. rewrite Hphase. unfold run_phase, prvAzureDemoTask_stream.
    rewrite Htelemetry. reflexivity.
Qed.

(** A step from any phase before the tear-down stays before it, and hands over
    no tear-down message. *)
Lemma step_before_teardown (answers : collaborator_answers) (s : session) :
  before_teardown (xPhase s) = true ->
  before_teardown (xPhase (step lib answers s)) = true
  /\ filter is_teardown (xSent (xWorld (step lib answers s)))
     = filter is_teardown (xSent (xWorld s)).
Proof.
  assert (Hrun : forall (next : phase) (t : task unit) (w : world),
             before_teardown next = true -> emits not_teardown t ->
             before_teardown (xPhase (run_phase next t w)) = true
             /\ filter is_teardown (xSent (xWorld (run_phase next t w)))
                = filter is_teardown (xSent w)).
  { intros next t w Hnext Hemits. unfold run_phase. specialize (Hemits w).
    destruct (t w) as [[] w' | w' | ]; [ | | destruct Hemits ];
      destruct Hemits as (added & Hsent & Hadded); cbn [xPhase xWorld];
      (split; [auto | rewrite Hsent; apply filter_teardown_unchanged, Hadded]). }
  intros Hphase. unfold step.
  destruct (xPhase s) eqn:Ephase; try discriminate Hphase.
  - apply Hrun; [reflexivity | ]. unfold prvAzureDemoTask_start. emits_auto.
  - apply Hrun; [reflexivity | ]. unfold prvAzureDemoTask_connect.
    apply emits_bind; [apply emits_prvConnectToServerWithBackoffRetries | ].
    intros ulStatus. apply emits_assert.
  - apply Hrun; [reflexivity | ]. unfold prvAzureDemoTask_session. emits_auto.
  - apply Hrun; [reflexivity | ]. unfold prvAzureDemoTask_synchronize. emits_auto.
  - apply Hrun; [reflexivity | ]. apply emits_prvAzureDemoTask_stream.
  - rewrite Ephase. auto.
Qed.

Lemma run_before_teardown (steps : list collaborator_answers) (s : session) :
  before_teardown (xPhase s) = true ->
  before_teardown (xPhase (run lib steps s)) = true
  /\ filter is_teardown (xSent (xWorld (run lib steps s)))
     = filter is_teardown (xSent (xWorld s)).
Proof.
  revert s. induction steps as [ | answers steps IH]; intros s Hphase; [auto | ].
  change (run lib (answers :: steps) s) with (run lib steps (step lib answers s)).
  destruct (step_before_teardown answers s Hphase) as [Hnext Hsent].
  destruct (IH _ Hnext) as [Hlast Hsent']. split; [exact Hlast | congruence].
Qed.

End DemoTask.

(** C5 (as amended). In the Streaming phase a failed telemetry publish or a
    failed poll for inbound messages fails a [configASSERT] and stops the task;
    the result of the maximum-temperature report publish is only logged and
    changes nothing. A step from Streaming leads to Streaming or to the
    stopped task, never to Disconnecting, however long the task runs, and no
    tear-down message (unsubscribe, MQTT disconnect, TLS disconnect) is sent;
    the same holds for the task run from its start. *)
Theorem streaming_failure_stops_task
    (lib : JSONWriterLibrary) (answers : collaborator_answers) (s : session) :
  xPhase s = Streaming ->
  (xSendTelemetryResult answers <> eAzureIoTSuccess
   \/ xProcessLoopResult answers <> eAzureIoTSuccess ->
   xPhase (step lib answers s) = Halted)
  /\ (forall xResult,
        step lib (with_reported_result answers xResult) s = step lib answers s)
  /\ (xPhase (step lib answers s) = Streaming \/ xPhase (step lib answers s) = Halted)
  /\ (forall later : list collaborator_answers,
        xPhase (run lib later s) <> Disconnecting
        /\ filter is_teardown (xSent (xWorld (run lib later s)))
           = filter is_teardown (xSent (xWorld s)))
  /\ (forall steps : list collaborator_answers,
        xPhase (run lib steps xInitialSession) <> Disconnecting
        /\ filter is_teardown (xSent (xWorld (run lib steps xInitialSession))) = []).
Proof.
  intros Hphase. split; [apply step_streaming_failure, Hphase | ].
  split; [intros xResult; unfold step; rewrite Hphase; reflexivity | ].
  split; [apply step_from_streaming, Hphase | ].
  split.
  - intros later.
    destruct (run_from_streaming_or_halted lib later s (or_introl Hphase)) as [Hlast Hsent].
    split; [ | exact Hsent].
    destruct Hlast as [-> | ->]; discriminate.
  - intros steps.
    destruct (run_before_teardown lib steps xInitialSession eq_refl) as [Hlast Hsent].
    split; [ | exact Hsent].
    intros E. rewrite E in Hlast. discriminate.
Qed.

Lemma streaming_failure_stops_task_witness :
  let s := {| xPhase := Streaming; xWorld := xInitialWorld |} in
  xPhase (step xUnboundedWriter xTelemetryFails s) = Halted.
Proof.
  refine (proj1 (streaming_failure_stops_task xUnboundedWriter xTelemetryFails
                   {| xPhase := Streaming; xWorld := xInitialWorld |} eq_refl) _).
  left. simpl. discriminate.
Defined.

(** C5 as stated fails: after a failed telemetry publish the task has stopped
    with no tear-down message sent, and after a failed report publish the
    session is still in Streaming. *)
Lemma streaming_failure_does_not_disconnect :
  step xUnboundedWriter xTelemetryFails {| xPhase := Streaming; xWorld := xInitialWorld |}
  = {| xPhase := Halted;
       xWorld := world_after_sending xInitialWorld [evSendTelemetry 22%float] |}
  /\ xPhase (step xUnboundedWriter xReportFails
               {| xPhase := Streaming; xWorld := xInitialWorld |}) = Streaming.
Proof. split; reflexivity. Qed.

(** C6 (as amended). When the connection with retries reports exhaustion (its
    six connects fail), the assertion on its status fails: the demo task
    neither retries at its own level nor restarts the cycle after a wait, it
    stops, and no later step changes that. *)
Theorem exhaustion_stops_task
    (lib : JSONWriterLibrary) (answers : collaborator_answers) (s : session) :
  xPhase s = Connecting ->
  (forall n, (n < 6)%nat ->
             xTLSConnectResult (xConnectAnswers answers) n <> eTLSTransportSuccess) ->
  xPhase (step lib answers s) = Halted
  /\ xWorld (step lib answers s)
     = world_after_sending (xWorld s)
         (retry_trace (granted_delays (xConnectAnswers answers)))
  /\ (forall later : list collaborator_answers,
        run lib later (step lib answers s) = step lib answers s).
Proof.
  intros Hphase Hfail.
  assert (Hstep : step lib answers s
                  = {| xPhase := Halted;
                       xWorld := world_after_sending (xWorld s)
                                   (retry_trace (granted_delays (xConnectAnswers answers))) |}).
  { unfold step. rewrite Hphase. unfold run_phase, prvAzureDemoTask_connect.
    unfold bind at 1.
    rewrite (prvConnectToServerWithBackoffRetries_five_failures
               (xConnectAnswers answers) (xWorld s)) by (intros n Hn; apply Hfail; lia).
    unfold connect_status.
    rewrite (TlsTransportStatus_failure _ (Hfail 5%nat ltac:(lia))). reflexivity. }
  rewrite Hstep. cbn [xPhase xWorld]. split; [reflexivity | ]. split; [reflexivity | ].
  induction later as [ | a later IH]; [reflexivity | exact IH].
Qed.

Lemma exhaustion_stops_task_witness :
  let s := {| xPhase := Connecting; xWorld := xInitialWorld |} in
  xPhase (step xUnboundedWriter xConnectionRefused s) = Halted.
Proof.
  refine (proj1 (exhaustion_stops_task xUnboundedWriter xConnectionRefused
                   {| xPhase := Connecting; xWorld := xInitialWorld |} eq_refl _)).
  simpl. intros; discriminate.
Defined.

(** C6 as stated fails: with a transport that refuses every connection the
    task has stopped after the sixth connect, stays stopped whatever the
    collaborators answer later, and never made the wait between two
    iterations. *)
Lemma exhaustion_does_not_restart :
  let s := step xUnboundedWriter xConnectionRefused
             {| xPhase := Connecting; xWorld := xInitialWorld |} in
  xPhase s = Halted
  /\ run xUnboundedWriter [xAllSucceed; xAllSucceed; xAllSucceed] s = s
  /\ ~ In (evTaskDelay sampleazureiotDELAY_BETWEEN_DEMO_ITERATIONS_MS) (xSent (xWorld s)).
Proof.
  split; [reflexivity | ]. split; [reflexivity | ].
  vm_compute. intuition discriminate.
Qed.

(** ** Worked examples *)

(** A name that is a proper prefix of the command name, or extends it, is not
    the command. *)
Example command_name_prefix_is_unknown :
  prvHandleCommand xUnboundedWriter
    {| pucCommandName := "getMaxMinRepor"; pvCommandPayload := [tkString "2023-01-10"] |}
    xInitialWorld
  = Returned tt
      (world_after_sending xInitialWorld [evSendCommandResponse 404 (pConstant "{}")])
  /\ prvHandleCommand xUnboundedWriter
       {| pucCommandName := "getMaxMinReportX"; pvCommandPayload := [tkString "2023-01-10"] |}
       xInitialWorld
     = Returned tt
         (world_after_sending xInitialWorld [evSendCommandResponse 404 (pConstant "{}")]).
Proof. split; reflexivity. Qed.

(** The command with a payload that is an object, or empty, has no start time:
    the handler fails and the response is 501. *)
Example command_without_start_time :
  prvHandleCommand xUnboundedWriter
    {| pucCommandName := "getMaxMinReport"; pvCommandPayload := [tkBeginObject; tkEndObject] |}
    xInitialWorld
  = Returned tt
      (world_after_sending xInitialWorld [evSendCommandResponse 501 (pConstant "{}")])
  /\ prvHandleCommand xUnboundedWriter
       {| pucCommandName := "getMaxMinReport"; pvCommandPayload := [] |} xInitialWorld
     = Returned tt
         (world_after_sending xInitialWorld [evSendCommandResponse 501 (pConstant "{}")]).
Proof. split; reflexivity. Qed.

(** The command with a writer whose buffer is too small for the report: the
    response construction fails and the response is 501. *)
Example command_with_full_buffer :
  prvHandleCommand (xBoundedWriter 3)
    {| pucCommandName := "getMaxMinReport"; pvCommandPayload := [tkString "2023-01-10"] |}
    xInitialWorld
  = Returned tt
      (world_after_sending xInitialWorld [evSendCommandResponse 501 (pConstant "{}")]).
Proof. reflexivity. Qed.

(** The command on the initial device values. *)
Example command_report :
  prvHandleCommand xUnboundedWriter
    {| pucCommandName := "getMaxMinReport"; pvCommandPayload := [tkString "2023-01-10"] |}
    xInitialWorld
  = Returned tt
      (world_after_sending xInitialWorld
         [evSendCommandResponse 200
            (pWritten (max_min_report xInitialDeviceValues "2023-01-10") 7)]).
Proof. reflexivity. Qed.

(** A document that fails in mid-parse after a recognised entry: the sync
    returns the failure and nothing is applied. *)
Example sync_with_parse_failure :
  let pxMessage :=
    {| xMessageType := eAzureIoTHubPropertiesWritablePropertyMessage;
       xVersion := xVersionIs 9;
       xProperties := [ mkProperty "" "targetTemperature" (jvNumber 30%float) ];
       xPropertiesEnd := xParseFailure 15 |} in
  prvProcessProperties pxMessage eAzureIoTHubClientPropertyWritable xInitialWorld
  = Returned (eAzureIoTErrorOther 15, 30%float, 9) xInitialWorld
  /\ prvHandlePropertyUpdate xUnboundedWriter pxMessage xInitialWorld
     = Returned tt xInitialWorld.
Proof. split; reflexivity. Qed.

(** The policy of the sample: the caps of the five delays double from the base
    to the maximum, and the sixth consultation is refused. *)
Example backoff_caps :
  consult
    (BackoffAlgorithm_InitializeParams sampleazureiotRETRY_BACKOFF_BASE_MS
       sampleazureiotRETRY_MAX_BACKOFF_DELAY_MS sampleazureiotRETRY_MAX_ATTEMPTS)
    [500; 1000; 2000; 4000; 5000; 5000]
  = [ (BackoffAlgorithmSuccess, Some 500); (BackoffAlgorithmSuccess, Some 1000);
      (BackoffAlgorithmSuccess, Some 2000); (BackoffAlgorithmSuccess, Some 4000);
      (BackoffAlgorithmSuccess, Some 5000); (BackoffAlgorithmRetriesExhausted, None) ].
Proof. reflexivity. Qed.

(** A connection that succeeds at the third attempt, after two delays. *)
Example connect_at_third_attempt :
  prvConnectToServerWithBackoffRetries
    {| xTLSConnectResult := fun n => if (n <? 2)%nat then eTLSTransportOther 1
                                     else eTLSTransportSuccess;
       ulRandom32 := fun _ => 300 |} xInitialWorld
  = Returned 0
      (world_after_sending xInitialWorld
         [evTLSConnect; evTaskDelay 300; evTLSConnect; evTaskDelay 300; evTLSConnect]).
Proof. reflexivity. Qed.

(** The task from its start, with collaborators that always succeed: after
    the set-up it streams, and every pass sends the telemetry and the maximum
    report and waits. *)
Example task_reaches_streaming :
  let s := run xUnboundedWriter [xAllSucceed; xAllSucceed; xAllSucceed; xAllSucceed; xAllSucceed]
             xInitialSession in
  xPhase s = Streaming
  /\ xSent (xWorld s)
     = [ evTLSConnect; evMQTTConnect; evSubscribeCommand; evSubscribeProperties;
         evGetProperties; evSendTelemetry 22%float;
         reported xUnboundedWriter (max_temperature_tokens 22%float);
         evTaskDelay 2000 ].
Proof. split; reflexivity. Qed.

(* ================================================================= *)
(** * Part III: further properties of the sample                      *)
(* ================================================================= *)

(** ** The recorded extremes and the counter *)

Section Extremes.

Lemma double_gt_irrefl (x : float) : double_gt x x = false.
Proof.
  unfold double_gt. rewrite FloatAxioms.ltb_spec. unfold SFltb, SFcompare.
  destruct (Prim2SF x) as [s | s | | s m e]; try reflexivity; destruct s;
    rewrite ?Z.compare_refl, ?Pos.compare_cont_refl; reflexivity.
Qed.

(** One call moves each extreme outwards or not at all. *)
Lemma prvUpdateLocalProperties_widens (v : float) (ver : Z) (dev : DeviceValues) :
  double_le (xDeviceMinimumTemperature dev) (xDeviceMaximumTemperature dev) = true ->
  let dev' := fst (prvUpdateLocalProperties v ver dev) in
  double_le (xDeviceMinimumTemperature dev') (xDeviceMinimumTemperature dev) = true
  /\ double_le (xDeviceMaximumTemperature dev) (xDeviceMaximumTemperature dev') = true.
Proof.
  intros Hinv dev'.
  destruct (double_le_is_nan _ _ Hinv) as [Hmin_num Hmax_num].
  destruct (prvUpdateLocalProperties_cases v ver dev)
    as [_ [(Hgt & Hmax & Hmin) | [(_ & Hlt & Hmax & Hmin) | (_ & _ & Hmax & Hmin)]]];
    fold dev' in Hmax, Hmin; rewrite Hmax, Hmin; split;
    try (apply double_le_refl; assumption).
  - apply double_gt_le, Hgt.
  - apply double_lt_le, Hlt.
Qed.

(** The sum of a division by the double zero is infinite or not a number. *)
Lemma double_div_by_zero (x : float) :
  Prim2SF (x / double_of_uint32 0)%float = S754_nan
  \/ exists s, Prim2SF (x / double_of_uint32 0)%float = S754_infinity s.
Proof.
  rewrite FloatAxioms.div_spec.
  change (Prim2SF (double_of_uint32 0)) with (S754_zero false).
  unfold FloatAxioms.SF64div, SFdiv.
  destruct (Prim2SF x) as [s | s | | s m e]; eauto.
Qed.

End Extremes.

(** X1. From device values with minimum <= maximum, and so from the initial
    ones, any sequence of calls of [prvUpdateLocalProperties] with any values,
    NaN included, keeps minimum <= maximum, never raises the minimum and never
    lowers the maximum; and every value applied that is a number lies between
    the resulting minimum and maximum. *)
Theorem extremes_only_widen (calls : list (float * Z)) (dev : DeviceValues) :
  double_le (xDeviceMinimumTemperature dev) (xDeviceMaximumTemperature dev) = true ->
  let dev' := applyTemperatures calls dev in
  double_le (xDeviceMinimumTemperature dev') (xDeviceMaximumTemperature dev') = true
  /\ double_le (xDeviceMinimumTemperature dev') (xDeviceMinimumTemperature dev) = true
  /\ double_le (xDeviceMaximumTemperature dev) (xDeviceMaximumTemperature dev') = true
  /\ (forall (v : float) (ver : Z),
        In (v, ver) calls -> is_nan v = false ->
        double_le (xDeviceMinimumTemperature dev') v = true
        /\ double_le v (xDeviceMaximumTemperature dev') = true).
Proof.
  revert dev. induction calls as [ | [v ver] calls IH]; intros dev Hinv.
  - destruct (double_le_is_nan _ _ Hinv) as [Hmin Hmax]. simpl.
    split; [exact Hinv | ]. split; [apply double_le_refl, Hmin | ].
    split; [apply double_le_refl, Hmax | intros ? ? []].
  - change (applyTemperatures ((v, ver) :: calls) dev)
      with (applyTemperatures calls (fst (prvUpdateLocalProperties v ver dev))).
    pose proof (prvUpdateLocalProperties_min_le_max v ver dev Hinv) as Hstep.
    destruct (prvUpdateLocalProperties_widens v ver dev Hinv) as [Hmin Hmax].
    destruct (IH _ Hstep) as (Hinv' & Hmin' & Hmax' & Hwithin).
    split; [exact Hinv' | ]. split; [ | split].
    + eapply double_le_trans; [exact Hmin' | exact Hmin].
    + eapply double_le_trans; [exact Hmax | exact Hmax'].
    + intros v0 ver0 [Hhead | Htail] Hnumber; [ | exact (Hwithin v0 ver0 Htail Hnumber)].
      injection Hhead as <- <-.
      pose proof (prvUpdateLocalProperties_ordered v ver dev Hnumber Hinv) as Hordered.
      unfold temperature_ordered in Hordered.
      destruct (prvUpdateLocalProperties_cases v ver dev) as [Hcurrent _].
      cbv zeta in Hcurrent. rewrite Hcurrent in Hordered.
      apply andb_prop in Hordered as [Hlow Hhigh]. split.
      * eapply double_le_trans; [exact Hmin' | exact Hlow].
      * eapply double_le_trans; [exact Hhigh | exact Hmax'].
Qed.

Lemma extremes_only_widen_witness :
  let dev' := applyTemperatures [(nan, 1); (30%float, 2); (10%float, 3)]
                xInitialDeviceValues in
  double_le (xDeviceMinimumTemperature dev') (xDeviceMaximumTemperature dev') = true
  /\ double_le (xDeviceMinimumTemperature dev')
       (xDeviceMinimumTemperature xInitialDeviceValues) = true
  /\ double_le (xDeviceMaximumTemperature xInitialDeviceValues)
       (xDeviceMaximumTemperature dev') = true
  /\ (double_le (xDeviceMinimumTemperature dev') 30%float = true
      /\ double_le 30%float (xDeviceMaximumTemperature dev') = true).
Proof.
  destruct (extremes_only_widen [(nan, 1); (30%float, 2); (10%float, 3)]
              xInitialDeviceValues eq_refl)
    as (Hinv & Hmin & Hmax & Hwithin).
  split; [exact Hinv | ]. split; [exact Hmin | ]. split; [exact Hmax | ].
  apply (Hwithin 30%float 2); [right; left; reflexivity | reflexivity].
Defined.

(** X2. [*pxOutMaxTempChanged] is true exactly when the call changed the
    recorded maximum, which is exactly when the value is strictly greater
    than it: a value equal to the maximum, a smaller one or a NaN leaves the
    maximum and the flag alone. A call never changes both extremes: when the
    flag is true the minimum is unchanged, and when the minimum changed the
    flag is false. *)
Theorem flag_tells_maximum_changed (dev : DeviceValues) (v : float) (ver : Z) :
  let r := prvUpdateLocalProperties v ver dev in
  snd r = double_gt v (xDeviceMaximumTemperature dev)
  /\ (snd r = true <->
      xDeviceMaximumTemperature (fst r) <> xDeviceMaximumTemperature dev)
  /\ (snd r = true ->
      xDeviceMinimumTemperature (fst r) = xDeviceMinimumTemperature dev)
  /\ (xDeviceMinimumTemperature (fst r) <> xDeviceMinimumTemperature dev ->
      snd r = false /\ xDeviceMinimumTemperature (fst r) = v
      /\ double_lt v (xDeviceMinimumTemperature dev) = true).
Proof.
  intros r. subst r. unfold prvUpdateLocalProperties.
  destruct (double_gt v (xDeviceMaximumTemperature dev)) eqn:Hgt;
    [ | destruct (double_lt v (xDeviceMinimumTemperature dev)) eqn:Hlt ];
    cbn [fst snd xDeviceMaximumTemperature xDeviceMinimumTemperature].
  - split; [reflexivity | ]. split; [ | split; [reflexivity | congruence]].
    split; [ | reflexivity]. intros _ E. rewrite E, double_gt_irrefl in Hgt.
    discriminate.
  - split; [reflexivity | ]. split; [split; [discriminate | congruence] | ].
    split; [discriminate | auto].
  - split; [reflexivity | ]. split; [split; [discriminate | congruence] | ].
    split; [discriminate | congruence].
Qed.

(** X3. The sample counter is a [uint32_t]: it stays below 2^32, and a call
    made when it holds 2^32 - 1 wraps it to zero; the average of that call is
    the sum divided by zero, an infinity or a NaN. *)
Theorem counter_wraps_to_zero (dev : DeviceValues) (v : float) (ver : Z) :
  ulDeviceTemperatureCount dev = 2 ^ 32 - 1 ->
  let dev' := fst (prvUpdateLocalProperties v ver dev) in
  ulDeviceTemperatureCount dev' = 0
  /\ (Prim2SF (xDeviceAverageTemperature dev') = S754_nan
      \/ exists s, Prim2SF (xDeviceAverageTemperature dev') = S754_infinity s).
Proof.
  intros Hcount dev'.
  destruct (prvUpdateLocalProperties_accumulators v ver dev) as (_ & Hcount' & Havg).
  fold dev' in Hcount', Havg.
  assert (Hzero : ulDeviceTemperatureCount dev' = 0).
  { rewrite Hcount', Hcount. reflexivity. }
  split; [exact Hzero | ].
  rewrite Havg, Hzero. apply double_div_by_zero.
Qed.

Lemma counter_wraps_to_zero_witness :
  let dev := {| xDeviceCurrentTemperature := 22%float;
                xDeviceMaximumTemperature := 22%float;
                xDeviceMinimumTemperature := 22%float;
                xDeviceTemperatureSummation := 94489280490%float;
                ulDeviceTemperatureCount := 4294967295;
                xDeviceAverageTemperature := 22%float |} in
  let dev' := fst (prvUpdateLocalProperties 22%float 1 dev) in
  ulDeviceTemperatureCount dev' = 0
  /\ (Prim2SF (xDeviceAverageTemperature dev') = S754_nan
      \/ exists s, Prim2SF (xDeviceAverageTemperature dev') = S754_infinity s).
Proof.
  apply (counter_wraps_to_zero
           {| xDeviceCurrentTemperature := 22%float;
              xDeviceMaximumTemperature := 22%float;
              xDeviceMinimumTemperature := 22%float;
              xDeviceTemperatureSummation := 94489280490%float;
              ulDeviceTemperatureCount := 4294967295;
              xDeviceAverageTemperature := 22%float |} 22%float 1).
  reflexivity.
Defined.

(** ** Which documents are applied *)

Section AppliedDocuments.

Variable lib : JSONWriterLibrary.

Lemma walk_properties_success (xEnd : properties_end) (entries : list property_entry) :
  forall xValue,
    is_success (sync_result (fst (walk_properties entries xEnd xValue)))
    = match xEnd with
      | xEndOfProperties =>
          forallb (fun e => negb (is_target_temperature e) || holds_number e) entries
      | xParseFailure _ => false
      end.
Proof.
  induction entries as [ | e rest IH]; intros xValue; cbn [walk_properties forallb].
  - destruct xEnd; reflexivity.
  - unfold holds_number at 1.
    destruct (is_target_temperature e); cbn [negb orb].
    + destruct (xPropertyValue e) as [x | code]; cbn [andb].
      * apply IH.
      * destruct xEnd; reflexivity.
    + apply IH.
Qed.

Lemma prvProcessProperties_applies
    (pxMessage : AzureIoTHubClientPropertiesResponse_t)
    (xPropertyType : AzureIoTHubClientPropertyType_t) (w : world) :
  exists xResult xValue ulVersion,
    prvProcessProperties pxMessage xPropertyType w
    = Returned (xResult, xValue, ulVersion) w
    /\ is_success xResult = document_applies pxMessage.
Proof.
  unfold document_applies.
  destruct (xVersion pxMessage) as [ulVersion | code] eqn:Hversion.
  - eexists _, _, _. split.
    + apply (prvProcessProperties_with_version _ _ _ _ Hversion).
    + cbv zeta. rewrite walk_properties_success.
      destruct (xPropertiesEnd pxMessage); reflexivity.
  - eexists _, _, _. split.
    + apply (prvProcessProperties_without_version _ _ _ _ Hversion).
    + reflexivity.
Qed.

End AppliedDocuments.

(** X4. [prvProcessProperties] always returns, and it returns success exactly
    when the version was extracted, every writable target-temperature entry
    holds a number and the iteration ended at the end of the properties. In
    every other case, a failure in mid-parse after a target temperature was
    read included, [prvHandlePropertyUpdate] leaves the device values as they
    were and sends nothing. *)
Theorem sync_succeeds_exactly_when_document_applies
    (lib : JSONWriterLibrary) (pxMessage : AzureIoTHubClientPropertiesResponse_t)
    (w : world) :
  (exists xResult xValue ulVersion,
     prvProcessProperties pxMessage eAzureIoTHubClientPropertyWritable w
     = Returned (xResult, xValue, ulVersion) w
     /\ (xResult = eAzureIoTSuccess <-> document_applies pxMessage = true))
  /\ (document_applies pxMessage = false ->
      prvHandlePropertyUpdate lib pxMessage w = Returned tt w).
Proof.
  destruct (prvProcessProperties_applies pxMessage eAzureIoTHubClientPropertyWritable w)
    as (xResult & xValue & ulVersion & Hparse & Happlies).
  split.
  - exists xResult, xValue, ulVersion. split; [exact Hparse | ].
    rewrite <- Happlies. symmetry. apply is_success_true.
  - intros Hno. rewrite Hno in Happlies.
    exact (prvHandlePropertyUpdate_failure lib _ _ _ _ _ Hparse Happlies).
Qed.

(** ** Commands, whatever the writer does *)

Section CommandReplies.

Variable lib : JSONWriterLibrary.

Lemma prvHandleCommand_reply (pxMessage : AzureIoTHubClientCommandRequest_t) (w : world) :
  prvHandleCommand lib pxMessage w
  = Returned tt (world_after_sending w (command_reply lib pxMessage (xDevice w))).
Proof.
  assert (Hsame : forall w0 : world, world_after_sending w0 [] = w0).
  { intros [dev sent]. unfold world_after_sending. simpl. rewrite app_nil_r. reflexivity. }
  unfold prvHandleCommand, command_reply. rewrite command_name_test.
  destruct (String.eqb (pucCommandName pxMessage) sampleazureiotCOMMAND_MAX_MIN_REPORT);
    [ | reflexivity ].
  cbn [AzureIoTJSONReader_Init AzureIoTJSONWriter_Init is_success AzureIoTResult_eqb snd].
  unfold bind, configASSERT, readDevice, AzureIoTJSONWriter_GetBytesUsed.
  fold (xEmptyWriter sizeof_ucCommandPayloadBuffer).
  destruct (prvInvokeMaxMinCommand lib _ _ (xDevice w)) as [xResult xWriter].
  cbn [fst snd]. destruct (is_success xResult); [ | reflexivity ].
  destruct (0 <? lBytesUsed lib xWriter); [reflexivity | ].
  unfold ret. rewrite Hsame. reflexivity.
Qed.

Lemma writer_never_refuses_accepts (pxWriter : AzureIoTJSONWriter_t)
    (tokens : list writer_token) :
  writer_never_refuses lib -> writer_accepts lib pxWriter tokens = true.
Proof.
  intros [Hall _]. revert pxWriter.
  induction tokens as [ | t rest IH]; intros pxWriter; cbn [writer_accepts];
    [reflexivity | ].
  rewrite Hall, IH. reflexivity.
Qed.

Lemma writer_never_refuses_writes (tokens : list writer_token) :
  writer_never_refuses lib -> tokens <> [] -> writes lib tokens.
Proof.
  intros Hlib Hne. split.
  - apply writer_never_refuses_accepts, Hlib.
  - apply Hlib. exact Hne.
Qed.

End CommandReplies.

(** X5. Whatever the writer library does, [prvHandleCommand] returns, leaves
    the device values as they are and hands over at most one message, a
    command response. It hands over none in one case only: the name is the
    command, the handler succeeded and the writer reports a byte count that
    is not positive. *)
Theorem command_sends_at_most_one_response
    (lib : JSONWriterLibrary) (pxMessage : AzureIoTHubClientCommandRequest_t) (w : world) :
  let r := prvInvokeMaxMinCommand lib
             (snd (AzureIoTJSONReader_Init (pvCommandPayload pxMessage)))
             (xEmptyWriter sizeof_ucCommandPayloadBuffer) (xDevice w) in
  exists sent : list event,
    prvHandleCommand lib pxMessage w = Returned tt (world_after_sending w sent)
    /\ (List.length sent <= 1)%nat
    /\ forallb is_command_response sent = true
    /\ (sent = [] <->
        pucCommandName pxMessage = sampleazureiotCOMMAND_MAX_MIN_REPORT
        /\ fst r = eAzureIoTSuccess
        /\ lBytesUsed lib (snd r) <= 0).
Proof.
  intros r. exists (command_reply lib pxMessage (xDevice w)).
  split; [apply prvHandleCommand_reply | ].
  unfold command_reply. fold r.
  destruct (String.eqb_spec (pucCommandName pxMessage)
              sampleazureiotCOMMAND_MAX_MIN_REPORT) as [Hname | Hname].
  - destruct (is_success (fst r)) eqn:Hok.
    + apply is_success_true in Hok.
      destruct (Z.ltb_spec 0 (lBytesUsed lib (snd r))) as [Hpos | Hnonpos].
      * split; [simpl; lia | ]. split; [reflexivity | ].
        split; [discriminate | intros (_ & _ & H); lia].
      * split; [simpl; lia | ]. split; [reflexivity | ].
        split; [auto | reflexivity].
    + split; [simpl; lia | ]. split; [reflexivity | ].
      split; [discriminate | intros (_ & H & _); rewrite H in Hok; discriminate].
  - split; [simpl; lia | ]. split; [reflexivity | ].
    split; [discriminate | intros (H & _); contradiction].
Qed.

(** ** The two senders of reported properties *)

Section Senders.

Variable lib : JSONWriterLibrary.

Lemma asserted_appends_outcome (tokens : list writer_token)
    (k : AzureIoTJSONWriter_t -> task unit) :
  forall (pxWriter : AzureIoTJSONWriter_t) (w : world),
    asserted_appends lib pxWriter tokens k w
    = if writer_accepts lib pxWriter tokens
      then k {| xWritten := xWritten pxWriter ++ tokens;
                ulWriterBufferSize := ulWriterBufferSize pxWriter |} w
      else AssertFailed w.
Proof.
  induction tokens as [ | t rest IH]; intros pxWriter w;
    cbn [asserted_appends writer_accepts].
  - rewrite app_nil_r. destruct pxWriter; reflexivity.
  - destruct (is_success (xAppendResult lib pxWriter t)) eqn:Hacc; cbn [andb].
    + rewrite (writer_append_accepted lib pxWriter t Hacc).
      cbn [is_success AzureIoTResult_eqb]. unfold bind at 1. cbn [configASSERT].
      rewrite IH. cbn [xWritten ulWriterBufferSize]. rewrite <- app_assoc. reflexivity.
    + destruct (writer_append_refused lib pxWriter t Hacc) as [Heq Hr].
      rewrite Heq in *. cbn [fst] in Hr. unfold bind at 1. rewrite Hr. reflexivity.
Qed.

Lemma prvAckIncomingTemperature_appends (xTemperature : float) (ulVersion : Z) :
  prvAckIncomingTemperature lib xTemperature ulVersion
  = asserted_appends lib (xEmptyWriter sizeof_ucPropertyPayloadBuffer)
      (acknowledgment_tokens xTemperature ulVersion)
      (fun xWriter =>
         let lBytesWritten := AzureIoTJSONWriter_GetBytesUsed lib xWriter in
         configASSERT (0 <? lBytesWritten) ;;
         emit (evSendPropertiesReported (pWritten (xWritten xWriter) lBytesWritten))).
Proof. reflexivity. Qed.

Lemma prvSendNewMaxTemp_appends (xTemperature : float) :
  prvSendNewMaxTemp lib xTemperature
  = asserted_appends lib (xEmptyWriter sizeof_ucPropertyPayloadBuffer)
      (max_temperature_tokens xTemperature)
      (fun xWriter =>
         let lBytesWritten := AzureIoTJSONWriter_GetBytesUsed lib xWriter in
         if lBytesWritten <? 0 then ret tt
         else emit (evSendPropertiesReported (pWritten (xWritten xWriter) lBytesWritten))).
Proof. reflexivity. Qed.

(** The acknowledgment that the writer cannot write stops the task before
    anything is sent. *)
Lemma prvAckIncomingTemperature_stops (xTemperature : float) (ulVersion : Z) (w : world) :
  ~ writes lib (acknowledgment_tokens xTemperature ulVersion) ->
  prvAckIncomingTemperature lib xTemperature ulVersion w = AssertFailed w.
Proof.
  intros Hno. rewrite prvAckIncomingTemperature_appends, asserted_appends_outcome.
  destruct (writer_accepts lib _ _) eqn:Hacc; [ | reflexivity].
  cbn [xEmptyWriter xWritten ulWriterBufferSize app].
  unfold AzureIoTJSONWriter_GetBytesUsed, bind.
  destruct (Z.ltb_spec 0 (lBytesUsed lib
              {| xWritten := acknowledgment_tokens xTemperature ulVersion;
                 ulWriterBufferSize := sizeof_ucPropertyPayloadBuffer |})) as [Hpos | Hle];
    [ | reflexivity].
  exfalso. apply Hno. split; [exact Hacc | exact Hpos].
Qed.

End Senders.

(** X6. [prvAckIncomingTemperature] returns exactly when the writer library
    writes the acknowledgment (accepts its five appends and reports a positive
    byte count); it has then sent one message, the acknowledgment with status
    200, the version it was given and the temperature with two decimal places.
    Otherwise it stops on an assertion with nothing sent. The device values
    are untouched either way. *)
Theorem acknowledgment_sent_or_task_stopped
    (lib : JSONWriterLibrary) (xTemperature : float) (ulVersion : Z) (w : world) :
  (writes lib (acknowledgment_tokens xTemperature ulVersion)
   /\ prvAckIncomingTemperature lib xTemperature ulVersion w
      = Returned tt
          (world_after_sending w
             [reported lib
                [ wBeginObject;
                  wBeginResponseStatus "targetTemperature" 200 ulVersion "success";
                  wDouble xTemperature 2;
                  wEndResponseStatus;
                  wEndObject ]]))
  \/ (~ writes lib (acknowledgment_tokens xTemperature ulVersion)
      /\ prvAckIncomingTemperature lib xTemperature ulVersion w = AssertFailed w).
Proof.
  destruct (writer_accepts lib (xEmptyWriter sizeof_ucPropertyPayloadBuffer)
              (acknowledgment_tokens xTemperature ulVersion)) eqn:Hacc.
  - destruct (Z.ltb_spec 0 (lBytesUsed lib
                (xWriterHolding sizeof_ucPropertyPayloadBuffer
                   (acknowledgment_tokens xTemperature ulVersion)))) as [Hpos | Hle].
    + left. assert (Hw : writes lib (acknowledgment_tokens xTemperature ulVersion))
        by (split; assumption).
      split; [exact Hw | ].
      exact (prvAckIncomingTemperature_sends lib xTemperature ulVersion w Hw).
    + right. assert (Hno : ~ writes lib (acknowledgment_tokens xTemperature ulVersion))
        by (intros [_ Hpos]; lia).
      split; [exact Hno | apply prvAckIncomingTemperature_stops, Hno].
  - right. assert (Hno : ~ writes lib (acknowledgment_tokens xTemperature ulVersion))
      by (intros [Hyes _]; congruence).
    split; [exact Hno | apply prvAckIncomingTemperature_stops, Hno].
Qed.

(** X7. [prvSendNewMaxTemp] has three outcomes. When the writer library
    refuses one of its four appends it stops on an assertion with nothing
    sent. When the appends are accepted and the reported byte count is
    negative it returns without sending. Otherwise, a byte count of zero
    included, it sends one message with the property "maxTempSinceLastReboot"
    and the temperature. *)
Theorem maximum_report_outcomes
    (lib : JSONWriterLibrary) (xTemperature : float) (w : world) :
  let tokens := [ wBeginObject; wPropertyName "maxTempSinceLastReboot";
                  wDouble xTemperature 2; wEndObject ] in
  let lBytes := lBytesUsed lib (xWriterHolding sizeof_ucPropertyPayloadBuffer tokens) in
  prvSendNewMaxTemp lib xTemperature w
  = if writer_accepts lib (xEmptyWriter sizeof_ucPropertyPayloadBuffer) tokens
    then if lBytes <? 0 then Returned tt w
         else Returned tt (world_after_sending w [reported lib tokens])
    else AssertFailed w.
Proof.
  intros tokens lBytes.
  rewrite prvSendNewMaxTemp_appends, asserted_appends_outcome.
  change (max_temperature_tokens xTemperature) with tokens.
  destruct (writer_accepts lib _ tokens); [ | reflexivity].
  cbn [xEmptyWriter xWritten ulWriterBufferSize app].
  unfold AzureIoTJSONWriter_GetBytesUsed. fold (xWriterHolding sizeof_ucPropertyPayloadBuffer tokens).
  fold lBytes. destruct (lBytes <? 0); reflexivity.
Qed.

(** X8. [prvHandlePropertyUpdate] applies the value to the device values
    before it builds the acknowledgment. When the sync succeeded and the writer
    library cannot write the acknowledgment, the task stops on the assertion
    with the device values already updated and with nothing sent. *)
Theorem update_is_applied_before_acknowledgment
    (lib : JSONWriterLibrary) (pxMessage : AzureIoTHubClientPropertiesResponse_t)
    (w : world) (xValue : float) (ulVersion : Z) :
  prvProcessProperties pxMessage eAzureIoTHubClientPropertyWritable w
  = Returned (eAzureIoTSuccess, xValue, ulVersion) w ->
  ~ writes lib (acknowledgment_tokens xValue ulVersion) ->
  prvHandlePropertyUpdate lib pxMessage w
  = AssertFailed
      {| xDevice := fst (prvUpdateLocalProperties xValue ulVersion (xDevice w));
         xSent := xSent w |}.
Proof.
  intros Hparse Hno. unfold prvHandlePropertyUpdate.
  unfold bind at 1. rewrite Hparse. cbn [is_success AzureIoTResult_eqb].
  unfold bind at 1. cbn [readDevice].
  destruct (prvUpdateLocalProperties xValue ulVersion (xDevice w)) as [dev xChanged].
  unfold bind at 1. cbn [writeDevice fst].
  unfold bind at 1. rewrite (prvAckIncomingTemperature_stops lib _ _ _ Hno). reflexivity.
Qed.

Lemma update_is_applied_before_acknowledgment_witness :
  prvHandlePropertyUpdate (xBoundedWriter 3) (desired_temperature 25%float 7) xInitialWorld
  = AssertFailed
      {| xDevice := fst (prvUpdateLocalProperties 25%float 7 (xDevice xInitialWorld));
         xSent := xSent xInitialWorld |}.
Proof.
  apply (update_is_applied_before_acknowledgment (xBoundedWriter 3)
           (desired_temperature 25%float 7) xInitialWorld 25%float 7).
  - reflexivity.
  - intros [Hacc _]. vm_compute in Hacc. discriminate.
Defined.

(** ** The connection, whatever the transport answers *)

Section FirstSuccess.

Variable answers : connect_answers.

Lemma failed_connects_first_success (limit : nat) :
  forall n : nat,
    let k := failed_connects answers n limit in
    (k <= limit)%nat
    /\ (forall i, (i < k)%nat ->
          TlsTransportStatus_is_success (xTLSConnectResult answers (n + i)) = false)
    /\ ((k < limit)%nat ->
        TlsTransportStatus_is_success (xTLSConnectResult answers (n + k)) = true).
Proof.
  induction limit as [ | limit IH]; intros n; cbn [failed_connects].
  - split; [lia | ]. split; intros; lia.
  - destruct (TlsTransportStatus_is_success (xTLSConnectResult answers n)) eqn:Hn.
    + split; [lia | ]. split; [intros; lia | ].
      intros _. rewrite Nat.add_0_r. exact Hn.
    + destruct (IH (S n)) as (Hle & Hfail & Hok). cbv zeta. split; [lia | ]. split.
      * intros [ | i] Hi; [rewrite Nat.add_0_r; exact Hn | ].
        replace (n + S i)%nat with (S n + i)%nat by lia. apply Hfail. lia.
      * intros Hk. replace (n + S (failed_connects answers (S n) limit))%nat
          with (S n + failed_connects answers (S n) limit)%nat by lia.
        apply Hok. lia.
Qed.

Lemma TlsTransportStatus_not_success (s : TlsTransportStatus_t) :
  TlsTransportStatus_is_success s = false -> s <> eTLSTransportSuccess.
Proof. intros H E. rewrite E in H. discriminate. Qed.

Lemma TlsTransportStatus_success (s : TlsTransportStatus_t) :
  TlsTransportStatus_is_success s = true -> s = eTLSTransportSuccess.
Proof. destruct s; [reflexivity | discriminate]. Qed.

(** The call ends at the first connect that succeeds, or at the sixth. *)
Lemma prvConnectToServerWithBackoffRetries_first_success (w : world) :
  let k := failed_connects answers 0 5 in
  prvConnectToServerWithBackoffRetries answers w
  = Returned (connect_status (xTLSConnectResult answers k))
      (world_after_sending w (retry_trace (firstn k (granted_delays answers)))).
Proof.
  cbv zeta. unfold prvConnectToServerWithBackoffRetries, bind.
  change (S (Z.to_nat sampleazureiotRETRY_MAX_ATTEMPTS)) with 6%nat.
  unfold BackoffAlgorithm_InitializeParams, sampleazureiotRETRY_BACKOFF_BASE_MS,
    sampleazureiotRETRY_MAX_BACKOFF_DELAY_MS, sampleazureiotRETRY_MAX_ATTEMPTS.
  do 5 (cbn [failed_connects];
        match goal with
        | |- context [TlsTransportStatus_is_success (xTLSConnectResult answers ?n)] =>
            destruct (TlsTransportStatus_is_success (xTLSConnectResult answers n)) eqn:?H;
            [ match goal with
              | Hok : TlsTransportStatus_is_success _ = true |- _ =>
                  pose proof (TlsTransportStatus_success _ Hok) as Hsuccess;
                  rewrite (prvConnect_loop_connected answers _ _ _ _ _ _ Hsuccess);
                  rewrite ?world_after_sending_app; unfold connect_status;
                  rewrite Hok; reflexivity
              end
            | match goal with
              | Hno : TlsTransportStatus_is_success _ = false |- _ =>
                  rewrite prvConnect_loop_retry;
                  [ cbn [baseDelay maxDelay maxAttempts attemptCount]
                  | exact (TlsTransportStatus_not_success _ Hno)
                  | cbn [baseDelay maxDelay maxAttempts attemptCount]; lia ];
                  rewrite ?world_after_sending_app; clear Hno
              end ]
        end).
  cbn [failed_connects].
  destruct (xTLSConnectResult answers 5) as [ | code] eqn:Hsixth.
  - rewrite prvConnect_loop_connected by exact Hsixth.
    rewrite world_after_sending_app. reflexivity.
  - rewrite prvConnect_loop_exhausted;
      [ | rewrite Hsixth; discriminate
        | cbn [baseDelay maxDelay maxAttempts attemptCount]; lia ].
    rewrite Hsixth, world_after_sending_app. reflexivity.
Qed.

Lemma granted_delays_total (k : nat) :
  0 <= fold_right Z.add 0 (firstn k (granted_delays answers)) <= 12500.
Proof.
  unfold granted_delays.
  pose proof (Z.mod_pos_bound (ulRandom32 answers 0) 501).
  pose proof (Z.mod_pos_bound (ulRandom32 answers 1) 1001).
  pose proof (Z.mod_pos_bound (ulRandom32 answers 2) 2001).
  pose proof (Z.mod_pos_bound (ulRandom32 answers 3) 4001).
  pose proof (Z.mod_pos_bound (ulRandom32 answers 4) 5001).
  do 6 (destruct k as [ | k]; [cbn [firstn fold_right]; lia | ]).
  cbn [firstn fold_right]. destruct k; cbn [firstn fold_right]; lia.
Qed.

End FirstSuccess.

(** X9. Whatever the transport answers, [prvConnectToServerWithBackoffRetries]
    returns: after the first connect that succeeds, or after the sixth. With
    [k] failed connects before that one it has made [k + 1] connects, at most
    six, and has waited [k] times, the delays of the retries in order; with
    the retry policy of the sample's configuration (five attempts, base
    500 ms, cap 5000 ms) that is 12.5 s in all at most. It returns 0 exactly
    when one of the six connects succeeded, and 1 otherwise. *)
Theorem connect_stops_at_first_success (answers : connect_answers) (w : world) :
  let k := failed_connects answers 0 5 in
  prvConnectToServerWithBackoffRetries answers w
  = Returned (connect_status (xTLSConnectResult answers k))
      (world_after_sending w (retry_trace (firstn k (granted_delays answers))))
  /\ (k <= 5)%nat
  /\ (forall i, (i < k)%nat -> xTLSConnectResult answers i <> eTLSTransportSuccess)
  /\ (connect_status (xTLSConnectResult answers k) = 0
      \/ connect_status (xTLSConnectResult answers k) = 1)
  /\ (connect_status (xTLSConnectResult answers k) = 0
      <-> exists n, (n <= 5)%nat /\ xTLSConnectResult answers n = eTLSTransportSuccess)
  /\ List.length (filter (fun e => match e with evTLSConnect => true | _ => false end)
                    (retry_trace (firstn k (granted_delays answers)))) = S k
  /\ 0 <= fold_right Z.add 0 (firstn k (granted_delays answers)) <= 12500.
Proof.
  intros k.
  destruct (failed_connects_first_success answers 5 0) as (Hle & Hfail & Hok).
  fold k in Hle, Hfail, Hok. cbn [Nat.add] in Hfail, Hok.
  split; [apply prvConnectToServerWithBackoffRetries_first_success | ].
  split; [exact Hle | ].
  split; [intros i Hi; apply TlsTransportStatus_not_success, Hfail, Hi | ].
  split; [unfold connect_status; destruct (TlsTransportStatus_is_success _); auto | ].
  split; [ | split; [ | apply granted_delays_total]].
  - unfold connect_status. split.
    + intros Hzero. exists k. split; [exact Hle | ].
      destruct (TlsTransportStatus_is_success (xTLSConnectResult answers k)) eqn:E;
        [apply TlsTransportStatus_success, E | discriminate].
    + intros (n & Hn & Hsuccess).
      destruct (Nat.lt_ge_cases k 5) as [Hlt | Hge].
      * rewrite (Hok Hlt). reflexivity.
      * destruct (Nat.lt_ge_cases n k) as [Hnk | Hnk].
        -- specialize (Hfail n Hnk). rewrite Hsuccess in Hfail. discriminate.
        -- replace k with n by lia. rewrite Hsuccess. reflexivity.
  - assert (Hk : List.length (firstn k (granted_delays answers)) = k).
    { rewrite length_firstn. unfold granted_delays. cbn [List.length]. lia. }
    revert Hk. generalize (firstn k (granted_delays answers)). intros delays Hk.
    rewrite <- Hk. clear. unfold retry_trace. rewrite filter_app, length_app.
    cbn [filter List.length]. rewrite Nat.add_1_r. f_equal.
    induction delays as [ | d delays IH]; [reflexivity | ].
    cbn [flat_map app filter List.length]. rewrite IH. reflexivity.
Qed.

(** ** The set-up of the session *)

Section SetUp.

Variable lib : JSONWriterLibrary.

Lemma silent_app (sent added : list event) :
  silent (sent ++ added) = silent sent && silent added.
Proof. apply forallb_app. Qed.

Lemma silent_no_device_message (sent : list event) :
  silent sent = true -> existsb is_device_message sent = false.
Proof.
  induction sent as [ | e sent IH]; [reflexivity | ].
  cbn [silent forallb existsb]. intros H. apply andb_prop in H as [He Hsent].
  destruct (is_device_message e); [discriminate | exact (IH Hsent)].
Qed.

Lemma silent_retry_trace (delays : list Z) : silent (retry_trace delays) = true.
Proof.
  unfold retry_trace. rewrite silent_app.
  induction delays as [ | d delays IH]; [reflexivity | exact IH].
Qed.

Lemma connected_within_six (answers : connect_answers) :
  connect_status (xTLSConnectResult answers (failed_connects answers 0 5)) = 0 ->
  exists n, (n <= 5)%nat /\ xTLSConnectResult answers n = eTLSTransportSuccess.
Proof.
  unfold connect_status. intros Hzero.
  destruct (failed_connects_first_success answers 5 0) as (Hle & _ & _).
  exists (failed_connects answers 0 5). split; [exact Hle | ].
  destruct (TlsTransportStatus_is_success _) eqn:E;
    [apply TlsTransportStatus_success, E | discriminate].
Qed.

Lemma run_from_Halted (steps : list collaborator_answers) (s : session) :
  xPhase s = Halted -> run lib steps s = s.
Proof.
  intros Hphase. induction steps as [ | a steps IH]; [reflexivity | ].
  change (run lib (a :: steps) s) with (run lib steps (step lib a s)).
  replace (step lib a s) with s; [exact IH | ].
  unfold step. rewrite Hphase. reflexivity.
Qed.

Lemma step_from_Starting (a : collaborator_answers) (s : session) :
  xPhase s = Starting ->
  step lib a s
  = {| xPhase := if is_success (xAzureIoTInitResult a) then Connecting else Halted;
       xWorld := xWorld s |}.
Proof.
  intros Hphase. unfold step. rewrite Hphase.
  unfold run_phase, prvAzureDemoTask_start, bind, configASSERT.
  destruct (is_success (xAzureIoTInitResult a)); reflexivity.
Qed.

Lemma step_from_Connecting (a : collaborator_answers) (s : session) :
  xPhase s = Connecting ->
  let k := failed_connects (xConnectAnswers a) 0 5 in
  step lib a s
  = {| xPhase := if connect_status (xTLSConnectResult (xConnectAnswers a) k) =? 0
                 then Connected else Halted;
       xWorld := world_after_sending (xWorld s)
                   (retry_trace (firstn k (granted_delays (xConnectAnswers a)))) |}.
Proof.
  intros Hphase k. unfold step. rewrite Hphase.
  unfold run_phase, prvAzureDemoTask_connect, bind.
  rewrite prvConnectToServerWithBackoffRetries_first_success. fold k.
  unfold configASSERT.
  destruct (connect_status (xTLSConnectResult (xConnectAnswers a) k) =? 0); reflexivity.
Qed.

Lemma step_from_Connected (a : collaborator_answers) (s : session) :
  xPhase s = Connected ->
  exists sent,
    xWorld (step lib a s) = world_after_sending (xWorld s) sent
    /\ silent sent = true
    /\ (xPhase (step lib a s) = Halted
        \/ (xPhase (step lib a s) = Synchronizing
            /\ xOptionsInitResult a = eAzureIoTSuccess
            /\ xHubClientInitResult a = eAzureIoTSuccess
            /\ xSetSymmetricKeyResult a = eAzureIoTSuccess
            /\ xMQTTConnectResult a = eAzureIoTSuccess
            /\ xSubscribeCommandResult a = eAzureIoTSuccess
            /\ xSubscribePropertiesResult a = eAzureIoTSuccess)).
Proof.
  assert (Hsame : forall w0 : world, w0 = world_after_sending w0 []).
  { intros [dev sent]. unfold world_after_sending. simpl. rewrite app_nil_r. reflexivity. }
  intros Hphase. unfold step. rewrite Hphase.
  unfold run_phase, prvAzureDemoTask_session.
  destruct (is_success (xOptionsInitResult a)) eqn:H1;
    [ | exists []; split; [apply Hsame | auto] ].
  destruct (is_success (xHubClientInitResult a)) eqn:H2;
    [ | exists []; split; [apply Hsame | auto] ].
  destruct (is_success (xSetSymmetricKeyResult a)) eqn:H3;
    [ | exists []; split; [apply Hsame | auto] ].
  destruct (is_success (xMQTTConnectResult a)) eqn:H4;
    [ | exists [evMQTTConnect]; split; [reflexivity | auto] ].
  destruct (is_success (xSubscribeCommandResult a)) eqn:H5;
    [ | exists [evMQTTConnect; evSubscribeCommand]; split;
        [unfold world_after_sending; cbn; rewrite <- app_assoc; reflexivity | auto] ].
  destruct (is_success (xSubscribePropertiesResult a)) eqn:H6;
    exists [evMQTTConnect; evSubscribeCommand; evSubscribeProperties];
    (split; [unfold world_after_sending; cbn; rewrite <- !app_assoc; reflexivity | ]);
    split; auto.
  right. apply is_success_true in H1, H2, H3, H4, H5, H6. auto 10.
Qed.

Lemma step_from_Synchronizing (a : collaborator_answers) (s : session) :
  xPhase s = Synchronizing ->
  step lib a s
  = {| xPhase := if is_success (xGetPropertiesResult a) then Streaming else Halted;
       xWorld := world_after_sending (xWorld s) [evGetProperties] |}.
Proof.
  intros Hphase. unfold step. rewrite Hphase.
  unfold run_phase, prvAzureDemoTask_synchronize, bind, configASSERT, emit.
  destruct (is_success (xGetPropertiesResult a)); reflexivity.
Qed.

(** Every run either has stopped or is still in the set-up, with the device
    values untouched and no device data sent, or has reached the inner loop
    after four steps whose calls succeeded. *)
Lemma run_through_setup (steps : list collaborator_answers) :
  (silent (xSent (xWorld (run lib steps xInitialSession))) = true
   /\ xDevice (xWorld (run lib steps xInitialSession)) = xInitialDeviceValues)
  \/ (exists a1 a2 a3 a4 rest s4,
        steps = a1 :: a2 :: a3 :: a4 :: rest
        /\ setup_succeeds a1 a2 a3 a4
        /\ xPhase s4 = Streaming
        /\ xDevice (xWorld s4) = xInitialDeviceValues
        /\ silent (xSent (xWorld s4)) = true
        /\ run lib steps xInitialSession = run lib rest s4).
Proof.
  destruct steps as [ | a1 steps]; [left; split; reflexivity | ].
  change (run lib (a1 :: steps) xInitialSession)
    with (run lib steps (step lib a1 xInitialSession)).
  rewrite (step_from_Starting a1 xInitialSession eq_refl).
  destruct (is_success (xAzureIoTInitResult a1)) eqn:H1;
    [ | rewrite run_from_Halted by reflexivity; left; split; reflexivity ].
  destruct steps as [ | a2 steps]; [left; split; reflexivity | ].
  match goal with
  | |- context [run lib (a2 :: steps) ?s] =>
      change (run lib (a2 :: steps) s) with (run lib steps (step lib a2 s));
      rewrite (step_from_Connecting a2 s eq_refl)
  end.
  cbv zeta. cbn [xWorld xInitialSession].
  set (trace := retry_trace _).
  assert (Htrace : silent trace = true) by apply silent_retry_trace.
  destruct (connect_status _ =? 0) eqn:H2;
    [ | rewrite run_from_Halted by reflexivity; left; split; [exact Htrace | reflexivity] ].
  apply Z.eqb_eq, connected_within_six in H2.
  destruct steps as [ | a3 steps]; [left; split; [exact Htrace | reflexivity] | ].
  match goal with
  | |- context [run lib (a3 :: steps) ?s] =>
      change (run lib (a3 :: steps) s) with (run lib steps (step lib a3 s));
      destruct (step_from_Connected a3 s eq_refl) as (sent3 & Hworld3 & Hsilent3 & Hphase3);
      remember (step lib a3 s) as s3 eqn:Es3
  end.
  cbn [xWorld] in Hworld3.
  assert (Hsent3 : silent (xSent (xWorld s3)) = true).
  { rewrite Hworld3. cbn [world_after_sending xSent xInitialWorld app].
    rewrite silent_app, Htrace, Hsilent3. reflexivity. }
  assert (Hdev3 : xDevice (xWorld s3) = xInitialDeviceValues)
    by (rewrite Hworld3; reflexivity).
  destruct Hphase3 as [Hhalt | (Hphase3 & H3)];
    [rewrite run_from_Halted by exact Hhalt; left; split; assumption | ].
  destruct steps as [ | a4 steps]; [left; split; assumption | ].
  change (run lib (a4 :: steps) s3) with (run lib steps (step lib a4 s3)).
  rewrite (step_from_Synchronizing a4 s3 Hphase3).
  assert (Hsent4 : silent (xSent (world_after_sending (xWorld s3) [evGetProperties])) = true).
  { cbn [world_after_sending xSent]. rewrite silent_app, Hsent3. reflexivity. }
  destruct (is_success (xGetPropertiesResult a4)) eqn:H4;
    [ | rewrite run_from_Halted by reflexivity; left; split; [exact Hsent4 | exact Hdev3] ].
  right.
  exists a1, a2, a3, a4, steps,
    {| xPhase := Streaming;
       xWorld := world_after_sending (xWorld s3) [evGetProperties] |}.
  split; [reflexivity | ]. split.
  { apply is_success_true in H1, H4. unfold setup_succeeds. tauto. }
  split; [reflexivity | ]. split; [exact Hdev3 | ]. split; [exact Hsent4 | reflexivity].
Qed.

(** A pass of the inner loop hands over the telemetry of the current
    temperature first. *)
Lemma prvAzureDemoTask_stream_telemetry_first (a : collaborator_answers) (s : session) :
  xPhase s = Streaming ->
  (xPhase (step lib a s) = Streaming \/ xPhase (step lib a s) = Halted)
  /\ exists more,
       xSent (xWorld (step lib a s))
       = xSent (xWorld s)
         ++ evSendTelemetry (xDeviceCurrentTemperature (xDevice (xWorld s))) :: more.
Proof.
  intros Hphase.
  assert (Hpass : match prvAzureDemoTask_stream lib a (xWorld s) with
                  | Returned _ w' | AssertFailed w' =>
                      exists more,
                        xSent w'
                        = xSent (xWorld s)
                          ++ evSendTelemetry (xDeviceCurrentTemperature (xDevice (xWorld s)))
                             :: more
                  | OutOfFuel => False
                  end).
  { unfold prvAzureDemoTask_stream.
    unfold bind at 1. cbn [readDevice]. unfold bind at 1. cbn [emit].
    match goal with
    | |- context [bind ?m ?k ?w] =>
        assert (Hrest : emits not_teardown (bind m k));
        [ | specialize (Hrest w); destruct (bind m k w) as [[] w' | w' | ] ]
    end.
    - apply emits_bind; [apply emits_assert | intros _].
      apply emits_bind; [apply emits_prvSendNewMaxTemp | intros _].
      apply emits_bind; [apply emits_deliver | intros _].
      apply emits_bind; [apply emits_assert | intros _].
      apply emits_emit. reflexivity.
    - destruct Hrest as (more & Hsent & _). cbn [xSent] in Hsent.
      exists more. rewrite Hsent, <- app_assoc. reflexivity.
    - destruct Hrest as (more & Hsent & _). cbn [xSent] in Hsent.
      exists more. rewrite Hsent, <- app_assoc. reflexivity.
    - destruct Hrest. }
  unfold step. rewrite Hphase. unfold run_phase.
  destruct (prvAzureDemoTask_stream lib a (xWorld s)) as [[] w' | w' | ];
    [ | | destruct Hpass ]; cbn [xPhase xWorld]; auto.
Qed.

Lemma run_extends (steps : list collaborator_answers) (s : session) :
  xPhase s = Streaming \/ xPhase s = Halted ->
  exists more, xSent (xWorld (run lib steps s)) = xSent (xWorld s) ++ more.
Proof.
  revert s. induction steps as [ | a steps IH]; intros s Hphase.
  - exists []. rewrite app_nil_r. reflexivity.
  - change (run lib (a :: steps) s) with (run lib steps (step lib a s)).
    destruct Hphase as [Hphase | Hphase].
    + destruct (prvAzureDemoTask_stream_telemetry_first a s Hphase) as (Hnext & more1 & H1).
      destruct (IH _ Hnext) as (more2 & H2).
      exists ((evSendTelemetry (xDeviceCurrentTemperature (xDevice (xWorld s))) :: more1)
              ++ more2).
      rewrite H2, H1, <- app_assoc. reflexivity.
    + replace (step lib a s) with s by (unfold step; rewrite Hphase; reflexivity).
      apply IH. auto.
Qed.

End SetUp.

(** X10. The task hands over no telemetry, no reported property and no command
    response before the set-up is through: a run in which one was sent has
    made at least five steps, and in its first four the initialisation of the
    middleware, one of the six TLS connects, the initialisation of the client,
    the MQTT connect, both subscriptions and the request for the properties
    all succeeded. *)
Theorem nothing_sent_before_setup
    (lib : JSONWriterLibrary) (steps : list collaborator_answers) :
  existsb is_device_message (xSent (xWorld (run lib steps xInitialSession))) = true ->
  exists a1 a2 a3 a4 a5 rest,
    steps = a1 :: a2 :: a3 :: a4 :: a5 :: rest
    /\ xAzureIoTInitResult a1 = eAzureIoTSuccess
    /\ (exists n, (n <= 5)%nat
                  /\ xTLSConnectResult (xConnectAnswers a2) n = eTLSTransportSuccess)
    /\ xOptionsInitResult a3 = eAzureIoTSuccess
    /\ xHubClientInitResult a3 = eAzureIoTSuccess
    /\ xMQTTConnectResult a3 = eAzureIoTSuccess
    /\ xSubscribeCommandResult a3 = eAzureIoTSuccess
    /\ xSubscribePropertiesResult a3 = eAzureIoTSuccess
    /\ xGetPropertiesResult a4 = eAzureIoTSuccess.
Proof.
  intros Hsent.
  destruct (run_through_setup lib steps)
    as [[Hsilent _] | (a1 & a2 & a3 & a4 & rest & s4 & -> & Hsetup & _ & _ & Hsilent & Hrun)].
  - rewrite (silent_no_device_message _ Hsilent) in Hsent. discriminate.
  - destruct rest as [ | a5 rest].
    + rewrite Hrun in Hsent. cbn [run fold_left] in Hsent.
      rewrite (silent_no_device_message _ Hsilent) in Hsent. discriminate.
    + exists a1, a2, a3, a4, a5, rest. unfold setup_succeeds in Hsetup. tauto.
Qed.

Lemma nothing_sent_before_setup_witness :
  exists a1 a2 a3 a4 a5 rest,
    [xAllSucceed; xAllSucceed; xAllSucceed; xAllSucceed; xAllSucceed]
    = a1 :: a2 :: a3 :: a4 :: a5 :: rest
    /\ xAzureIoTInitResult a1 = eAzureIoTSuccess
    /\ (exists n, (n <= 5)%nat
                  /\ xTLSConnectResult (xConnectAnswers a2) n = eTLSTransportSuccess)
    /\ xOptionsInitResult a3 = eAzureIoTSuccess
    /\ xHubClientInitResult a3 = eAzureIoTSuccess
    /\ xMQTTConnectResult a3 = eAzureIoTSuccess
    /\ xSubscribeCommandResult a3 = eAzureIoTSuccess
    /\ xSubscribePropertiesResult a3 = eAzureIoTSuccess
    /\ xGetPropertiesResult a4 = eAzureIoTSuccess.
Proof.
  apply (nothing_sent_before_setup xUnboundedWriter
           [xAllSucceed; xAllSucceed; xAllSucceed; xAllSucceed; xAllSucceed]).
  vm_compute. reflexivity.
Defined.

(** X11. Until the inner loop is reached the device values are the initial
    ones, so the first device data a run hands over, if it hands over any, is
    the telemetry of the start temperature, 22.0. *)
Theorem first_message_is_start_temperature
    (lib : JSONWriterLibrary) (steps : list collaborator_answers) :
  existsb is_device_message (xSent (xWorld (run lib steps xInitialSession))) = true ->
  exists before after,
    xSent (xWorld (run lib steps xInitialSession))
    = before ++ evSendTelemetry sampleazureiotDEFAULT_START_TEMP_CELSIUS :: after
    /\ silent before = true.
Proof.
  intros Hsent.
  destruct (run_through_setup lib steps)
    as [[Hsilent _]
       | (a1 & a2 & a3 & a4 & rest & s4 & -> & _ & Hphase & Hdev & Hsilent & Hrun)].
  - rewrite (silent_no_device_message _ Hsilent) in Hsent. discriminate.
  - rewrite Hrun in *. destruct rest as [ | a5 rest].
    + cbn [run fold_left] in Hsent.
      rewrite (silent_no_device_message _ Hsilent) in Hsent. discriminate.
    + change (run lib (a5 :: rest) s4) with (run lib rest (step lib a5 s4)).
      destruct (prvAzureDemoTask_stream_telemetry_first lib a5 s4 Hphase)
        as (Hnext & more1 & Hpass).
      destruct (run_extends lib rest _ Hnext) as (more2 & Hlater).
      exists (xSent (xWorld s4)), (more1 ++ more2). split; [ | exact Hsilent].
      rewrite Hlater, Hpass, Hdev, <- app_assoc. reflexivity.
Qed.

Lemma first_message_is_start_temperature_witness :
  exists before after,
    xSent (xWorld (run xUnboundedWriter
                     [xAllSucceed; xAllSucceed; xAllSucceed; xAllSucceed; xAllSucceed]
                     xInitialSession))
    = before ++ evSendTelemetry 22%float :: after
    /\ silent before = true.
Proof.
  apply (first_message_is_start_temperature xUnboundedWriter
           [xAllSucceed; xAllSucceed; xAllSucceed; xAllSucceed; xAllSucceed]).
  vm_compute. reflexivity.
Defined.

(** ** What changes the device values *)

Section DeviceValuesKept.

Variable lib : JSONWriterLibrary.

Lemma keeps_device_ret {A : Type} (a : A) : keeps_device (ret a).
Proof. intros w. reflexivity. Qed.

Lemma keeps_device_assert (x : bool) : keeps_device (configASSERT x).
Proof. intros w. unfold configASSERT. destruct x; reflexivity. Qed.

Lemma keeps_device_emit (e : event) : keeps_device (emit e).
Proof. intros w. reflexivity. Qed.

Lemma keeps_device_readDevice : keeps_device readDevice.
Proof. intros w. reflexivity. Qed.

Lemma keeps_device_bind {A B : Type} (m : task A) (k : A -> task B) :
  keeps_device m -> (forall a, keeps_device (k a)) -> keeps_device (bind m k).
Proof.
  intros Hm Hk w. unfold bind. specialize (Hm w).
  destruct (m w) as [a w1 | w1 | ]; [ | exact Hm | exact I ].
  specialize (Hk a w1). destruct (k a w1) as [b w2 | w2 | ]; congruence.
Qed.

Ltac keeps_device_auto :=
  repeat first
    [ apply keeps_device_ret
    | apply keeps_device_assert
    | apply keeps_device_readDevice
    | apply keeps_device_emit
    | apply keeps_device_bind; [ | intros ? ]
    | match goal with
      | |- keeps_device (match ?x with _ => _ end) => destruct x
      end ].

Lemma keeps_device_prvSendNewMaxTemp (x : float) : keeps_device (prvSendNewMaxTemp lib x).
Proof. unfold prvSendNewMaxTemp. keeps_device_auto. Qed.

Lemma keeps_device_prvHandleCommand (pxMessage : AzureIoTHubClientCommandRequest_t) :
  keeps_device (prvHandleCommand lib pxMessage).
Proof. intros w. rewrite prvHandleCommand_reply. reflexivity. Qed.

Lemma keeps_device_prvHandleProperties
    (pxMessage : AzureIoTHubClientPropertiesResponse_t) :
  updates_device (xInboundProperties pxMessage) = false ->
  keeps_device (prvHandleProperties lib pxMessage).
Proof.
  intros Hno w. unfold prvHandleProperties. cbn [updates_device] in Hno.
  destruct (prvProcessProperties_applies pxMessage eAzureIoTHubClientPropertyWritable w)
    as (xResult & xValue & ulVersion & Hparse & Happlies).
  destruct (xMessageType pxMessage).
  - rewrite Hno in Happlies.
    rewrite (prvHandlePropertyUpdate_failure lib _ _ _ _ _ Hparse Happlies). reflexivity.
  - rewrite Hno in Happlies.
    rewrite (prvHandlePropertyUpdate_failure lib _ _ _ _ _ Hparse Happlies). reflexivity.
  - reflexivity.
  - reflexivity.
Qed.

Lemma keeps_device_deliver (messages : list inbound_message) :
  forallb (fun m => negb (updates_device m)) messages = true ->
  keeps_device (deliver lib messages).
Proof.
  induction messages as [ | m rest IH]; cbn [deliver forallb]; intros Hno.
  - apply keeps_device_ret.
  - apply andb_prop in Hno as [Hm Hrest]. apply negb_true_iff in Hm.
    destruct m as [pxMessage | pxMessage].
    + apply keeps_device_bind; [apply keeps_device_prvHandleCommand | intros _; auto].
    + apply keeps_device_bind; [ | intros _; auto].
      apply keeps_device_prvHandleProperties, Hm.
Qed.

Lemma keeps_device_run_phase (next : phase) (t : task unit) (w : world) :
  keeps_device t -> xDevice (xWorld (run_phase next t w)) = xDevice w.
Proof.
  intros Ht. specialize (Ht w). unfold run_phase.
  destruct (t w) as [[] w' | w' | ]; cbn [xWorld]; auto.
Qed.

Lemma step_keeps_device (a : collaborator_answers) (s : session) :
  (xPhase s = Streaming ->
   forallb (fun m => negb (updates_device m)) (xInbound a) = true) ->
  xDevice (xWorld (step lib a s)) = xDevice (xWorld s).
Proof.
  intros Hno. unfold step. destruct (xPhase s) eqn:Hphase; try reflexivity;
    apply keeps_device_run_phase.
  - unfold prvAzureDemoTask_start. keeps_device_auto.
  - unfold prvAzureDemoTask_connect.
    apply keeps_device_bind; [ | intros ?; apply keeps_device_assert].
    intros w. rewrite prvConnectToServerWithBackoffRetries_first_success. reflexivity.
  - unfold prvAzureDemoTask_session. keeps_device_auto.
  - unfold prvAzureDemoTask_synchronize. keeps_device_auto.
  - unfold prvAzureDemoTask_stream.
    apply keeps_device_bind; [apply keeps_device_readDevice | intros dev].
    apply keeps_device_bind; [apply keeps_device_emit | intros _].
    apply keeps_device_bind; [apply keeps_device_assert | intros _].
    apply keeps_device_bind; [apply keeps_device_prvSendNewMaxTemp | intros _].
    apply keeps_device_bind; [apply keeps_device_deliver, Hno, eq_refl | intros _].
    keeps_device_auto.
  - unfold prvAzureDemoTask_disconnect. keeps_device_auto.
Qed.

End DeviceValuesKept.

(** X12. The device values change in one way only: by a property document
    that is applied, delivered during a pass of the inner loop. A step of the
    task in any other phase, and a pass that delivers only commands, reported
    responses and documents that are not applied, leaves all six of them as
    they were, however the step ends. *)
Theorem only_applied_documents_change_device_values (lib : JSONWriterLibrary) :
  (forall (a : collaborator_answers) (s : session),
     (xPhase s = Streaming ->
      forallb (fun m => negb (updates_device m)) (xInbound a) = true) ->
     xDevice (xWorld (step lib a s)) = xDevice (xWorld s))
  /\ (forall (steps : list collaborator_answers) (s : session),
        Forall (fun a => forallb (fun m => negb (updates_device m)) (xInbound a) = true)
          steps ->
        xDevice (xWorld (run lib steps s)) = xDevice (xWorld s)).
Proof.
  split; [exact (step_keeps_device lib) | ].
  intros steps. induction steps as [ | a steps IH]; intros s Hno; [reflexivity | ].
  change (run lib (a :: steps) s) with (run lib steps (step lib a s)).
  inversion Hno as [ | a' steps' Ha Hsteps]; subst.
  rewrite (IH _ Hsteps). apply step_keeps_device. intros _. exact Ha.
Qed.

Lemma only_applied_documents_change_device_values_witness :
  let xCommand := xInboundCommand {| pucCommandName := "getMaxMinReport";
                                     pvCommandPayload := [tkString "2023-01-10T09:00:00Z"] |} in
  let xRejected :=
    xInboundProperties
      {| xMessageType := eAzureIoTHubPropertiesWritablePropertyMessage;
         xVersion := xVersionIs 3;
         xProperties := [ mkProperty "" "targetTemperature" (jvNumber 30%float) ];
         xPropertiesEnd := xParseFailure 1 |} in
  let steps := [xAllSucceed; xAllSucceed; xAllSucceed; xAllSucceed;
                with_inbound xAllSucceed [xCommand; xRejected]] in
  xDevice (xWorld (run xUnboundedWriter steps xInitialSession))
  = xDevice (xWorld xInitialSession).
Proof.
  cbv zeta.
  apply (proj2 (only_applied_documents_change_device_values xUnboundedWriter)).
  repeat constructor.
Defined.

(** ** Updates and what is sent after them *)

Section AfterAnUpdate.

Variable lib : JSONWriterLibrary.

Hypothesis Hlib : writer_never_refuses lib.

Lemma prvHandleProperties_desired_temperature (x : float) (v : Z) (w : world) :
  let update := prvUpdateLocalProperties x v (xDevice w) in
  prvHandleProperties lib (desired_temperature x v) w
  = Returned tt
      {| xDevice := fst update;
         xSent := xSent w
                  ++ reported lib (acknowledgment_tokens x v)
                     :: (if snd update then [reported lib (max_temperature_tokens x)]
                         else []) |}.
Proof.
  cbv zeta. unfold prvHandleProperties. cbn [desired_temperature xMessageType].
  apply prvHandlePropertyUpdate_success.
  - apply (parse_of_numeric_targets (desired_temperature x v)
             eAzureIoTHubClientPropertyWritable v [x] w); reflexivity.
  - apply writer_never_refuses_writes; [exact Hlib | discriminate].
  - intros _. apply writer_never_refuses_writes; [exact Hlib | discriminate].
Qed.

Lemma command_reply_report (pxMessage : AzureIoTHubClientCommandRequest_t)
    (pucStartTime : string) (dev : DeviceValues) :
  pucCommandName pxMessage = sampleazureiotCOMMAND_MAX_MIN_REPORT ->
  start_time_argument (pvCommandPayload pxMessage) = Some pucStartTime ->
  command_reply lib pxMessage dev
  = [evSendCommandResponse 200
       (pWritten (max_min_report dev pucStartTime)
          (lBytesUsed lib
             (xWriterHolding sizeof_ucCommandPayloadBuffer
                (max_min_report dev pucStartTime))))].
Proof.
  intros Hname Htime. unfold command_reply. rewrite Hname, String.eqb_refl.
  pose proof (prvInvokeMaxMinCommand_result lib (pvCommandPayload pxMessage) dev) as Hr.
  cbv zeta in Hr. rewrite Htime in Hr.
  rewrite (writer_never_refuses_accepts lib _ _ Hlib) in Hr. rewrite Hr.
  cbn [fst snd is_success AzureIoTResult_eqb xWritten xWriterHolding].
  assert (Hpos : 0 < lBytesUsed lib
                       (xWriterHolding sizeof_ucCommandPayloadBuffer
                          (max_min_report dev pucStartTime)))
    by (apply Hlib; discriminate).
  apply Z.ltb_lt in Hpos. rewrite Hpos. reflexivity.
Qed.

(** A pass of the inner loop whose publishes succeed: the telemetry and the
    report of the maximum, then the inbound messages, then the delay. *)
Lemma prvAzureDemoTask_stream_pass (a : collaborator_answers) (w : world) :
  xSendTelemetryResult a = eAzureIoTSuccess ->
  xProcessLoopResult a = eAzureIoTSuccess ->
  prvAzureDemoTask_stream lib a w
  = (deliver lib (xInbound a) ;;
     emit (evTaskDelay sampleazureiotDELAY_BETWEEN_PUBLISHES_MS))
      (world_after_sending w
         [ evSendTelemetry (xDeviceCurrentTemperature (xDevice w));
           reported lib (max_temperature_tokens (xDeviceMaximumTemperature (xDevice w))) ]).
Proof.
  intros Htelemetry Hpoll. unfold prvAzureDemoTask_stream.
  rewrite Htelemetry, Hpoll. cbn [is_success AzureIoTResult_eqb].
  unfold bind at 1. cbn [readDevice]. unfold bind at 1. cbn [emit].
  unfold bind at 1. cbn [configASSERT]. unfold bind at 1.
  rewrite prvSendNewMaxTemp_sends
    by (apply writer_never_refuses_writes; [exact Hlib | discriminate]).
  cbn [xDevice]. unfold bind.
  match goal with
  | |- match deliver lib _ ?w1 with _ => _ end = match deliver lib _ ?w2 with _ => _ end =>
      replace w1 with w2
        by (unfold world_after_sending; cbn [xDevice xSent];
            rewrite <- app_assoc; reflexivity)
  end.
  destruct (deliver lib (xInbound a) _) as [[] w' | w' | ]; reflexivity.
Qed.

End AfterAnUpdate.

Lemma xUnboundedWriter_never_refuses : writer_never_refuses xUnboundedWriter.
Proof.
  split; [reflexivity | ].
  intros [tokens size] Hne. simpl in *. destruct tokens; [congruence | simpl; lia].
Qed.

(** X13. A command that follows an update in the same delivery reports the
    updated values. With a writer library that never refuses, delivering a
    desired target temperature and then a "getMaxMinReport" request with a
    start time sends the acknowledgment, the maximum report when the maximum
    changed, and then the response 200 whose body lists the maximum, minimum
    and average as they are after the update. *)
Theorem command_reports_applied_update
    (lib : JSONWriterLibrary) (x : float) (v : Z)
    (pxMessage : AzureIoTHubClientCommandRequest_t) (pucStartTime : string) (w : world) :
  writer_never_refuses lib ->
  pucCommandName pxMessage = "getMaxMinReport"%string ->
  start_time_argument (pvCommandPayload pxMessage) = Some pucStartTime ->
  let update := prvUpdateLocalProperties x v (xDevice w) in
  let xReport := max_min_report (fst update) pucStartTime in
  deliver lib [xInboundProperties (desired_temperature x v); xInboundCommand pxMessage] w
  = Returned tt
      {| xDevice := fst update;
         xSent := xSent w
                  ++ reported lib (acknowledgment_tokens x v)
                     :: (if snd update then [reported lib (max_temperature_tokens x)]
                         else [])
                  ++ [evSendCommandResponse 200
                        (pWritten xReport
                           (lBytesUsed lib
                              (xWriterHolding sizeof_ucCommandPayloadBuffer xReport)))] |}.
Proof.
  intros Hlib Hname Htime update xReport. cbn [deliver].
  unfold bind at 1. rewrite (prvHandleProperties_desired_temperature lib Hlib).
  fold update. unfold bind. rewrite prvHandleCommand_reply. cbn [xDevice].
  rewrite (command_reply_report lib Hlib pxMessage pucStartTime (fst update) Hname Htime).
  fold xReport. unfold ret, world_after_sending. cbn [xDevice xSent].
  rewrite <- app_assoc. reflexivity.
Qed.

Lemma command_reports_applied_update_witness :
  let pxMessage := {| pucCommandName := "getMaxMinReport";
                      pvCommandPayload := [tkString "2023-01-10T09:00:00Z"] |} in
  let update := prvUpdateLocalProperties 25%float 5 (xDevice xInitialWorld) in
  let xReport := max_min_report (fst update) "2023-01-10T09:00:00Z" in
  deliver xUnboundedWriter
    [xInboundProperties (desired_temperature 25%float 5); xInboundCommand pxMessage]
    xInitialWorld
  = Returned tt
      {| xDevice := fst update;
         xSent := xSent xInitialWorld
                  ++ reported xUnboundedWriter (acknowledgment_tokens 25%float 5)
                     :: (if snd update
                         then [reported xUnboundedWriter (max_temperature_tokens 25%float)]
                         else [])
                  ++ [evSendCommandResponse 200
                        (pWritten xReport
                           (lBytesUsed xUnboundedWriter
                              (xWriterHolding sizeof_ucCommandPayloadBuffer xReport)))] |}.
Proof.
  apply (command_reports_applied_update xUnboundedWriter 25%float 5
           {| pucCommandName := "getMaxMinReport";
              pvCommandPayload := [tkString "2023-01-10T09:00:00Z"] |}
           "2023-01-10T09:00:00Z" xInitialWorld).
  - exact xUnboundedWriter_never_refuses.
  - reflexivity.
  - reflexivity.
Defined.



(** ** Device provisioning *)

Section Provisioning.

Variable answers : provisioning_answers.

Lemma AzureIoTResult_eqb_pending (xResult : AzureIoTResult_t) :
  AzureIoTResult_eqb xResult eAzureIoTErrorPending = true
  <-> xResult = eAzureIoTErrorPending.
Proof. destruct xResult; simpl; split; congruence. Qed.

(** The loop ends with the first answer that is not "pending". *)
Lemma prvRegister_loop_answered (n : nat) :
  forall (first fuel : nat) (w : world),
    (forall i, (i < n)%nat -> xRegisterResult answers (first + i) = eAzureIoTErrorPending) ->
    xRegisterResult answers (first + n) <> eAzureIoTErrorPending ->
    (n < fuel)%nat ->
    prvRegister_loop fuel answers first w
    = Returned (xRegisterResult answers (first + n)) w.
Proof.
  induction n as [ | n IH]; intros first fuel w Hpending Hanswer Hfuel;
    (destruct fuel as [ | fuel]; [lia | ]); cbn [prvRegister_loop].
  - rewrite Nat.add_0_r in Hanswer.
    destruct (AzureIoTResult_eqb (xRegisterResult answers first) eAzureIoTErrorPending) eqn:E;
      [apply AzureIoTResult_eqb_pending in E; contradiction | ].
    rewrite Nat.add_0_r. reflexivity.
  - pose proof (Hpending 0%nat ltac:(lia)) as Hfirst. rewrite Nat.add_0_r in Hfirst.
    rewrite Hfirst. cbn [AzureIoTResult_eqb].
    replace (first + S n)%nat with (S first + n)%nat in * by lia.
    apply IH; [ | exact Hanswer | lia].
    intros i Hi. replace (S first + i)%nat with (first + S i)%nat by lia.
    apply Hpending. lia.
Qed.

(** While the answers are "pending" the loop goes on. *)
Lemma prvRegister_loop_pending (fuel : nat) :
  forall (first : nat) (w : world),
    (forall i, (i < fuel)%nat ->
       xRegisterResult answers (first + i) = eAzureIoTErrorPending) ->
    prvRegister_loop fuel answers first w = OutOfFuel.
Proof.
  induction fuel as [ | fuel IH]; intros first w Hpending; [reflexivity | ].
  cbn [prvRegister_loop].
  pose proof (Hpending 0%nat ltac:(lia)) as Hfirst. rewrite Nat.add_0_r in Hfirst.
  rewrite Hfirst. cbn [AzureIoTResult_eqb]. apply IH.
  intros i Hi. replace (S first + i)%nat with (first + S i)%nat by lia.
  apply Hpending. lia.
Qed.

(** The calls before the registration, when they succeed. *)
Lemma prvIoTHubInfoGet_prepared (fuel : nat) (w : world) :
  provisioning_prepared answers ->
  let k := failed_connects (xProvisioningConnectAnswers answers) 0 5 in
  prvIoTHubInfoGet fuel answers w
  = (xResult <- prvRegister_loop fuel answers 0 ;;
     configASSERT (is_success xResult) ;;
     configASSERT (is_success (xGetDeviceAndHubResult answers)) ;;
     emit evTLSDisconnect ;;
     ret (0, ucSampleIotHubHostname answers, ucSampleIotHubDeviceId answers))
      (world_after_sending w
         (retry_trace
            (firstn k (granted_delays (xProvisioningConnectAnswers answers))))).
Proof.
  intros (Hconnect & Hinit & Hkey & Hpayload) k. unfold prvIoTHubInfoGet.
  rewrite Hinit, Hkey, Hpayload. cbn [is_success AzureIoTResult_eqb].
  unfold bind at 1.
  rewrite prvConnectToServerWithBackoffRetries_first_success. fold k.
  assert (Hstatus : connect_status
                      (xTLSConnectResult (xProvisioningConnectAnswers answers) k) = 0).
  { unfold connect_status.
    destruct (failed_connects_first_success (xProvisioningConnectAnswers answers) 5 0)
      as (Hle & Hfail & Hok).
    fold k in Hle, Hfail, Hok. cbn [Nat.add] in Hfail, Hok.
    destruct Hconnect as (n & Hn & Hsuccess).
    destruct (Nat.lt_ge_cases k 5) as [Hlt | Hge]; [rewrite (Hok Hlt); reflexivity | ].
    destruct (Nat.lt_ge_cases n k) as [Hnk | Hnk].
    - specialize (Hfail n Hnk). rewrite Hsuccess in Hfail. discriminate.
    - replace k with n by lia. rewrite Hsuccess. reflexivity. }
  rewrite Hstatus. reflexivity.
Qed.

End Provisioning.

(** X15. [prvIoTHubInfoGet] polls the provisioning service until it answers
    something other than "pending", with no bound on the number of polls and
    no delay between them. When the calls before the registration succeed and
    the first [n] polls are answered "pending" and the next one otherwise,
    the call makes [n + 1] polls; it then returns the status 0 with the host
    name and the device id of the service and closes the connection, when that
    answer and the retrieval of the names are successes, and stops on an
    assertion with the connection open otherwise. While every poll is
    answered "pending" the call does not return. *)
Theorem registration_polls_until_answered
    (answers : provisioning_answers) (w : world) :
  provisioning_prepared answers ->
  let k := failed_connects (xProvisioningConnectAnswers answers) 0 5 in
  let connected :=
    world_after_sending w
      (retry_trace (firstn k (granted_delays (xProvisioningConnectAnswers answers)))) in
  (forall n fuel : nat,
     (forall i, (i < n)%nat -> xRegisterResult answers i = eAzureIoTErrorPending) ->
     xRegisterResult answers n <> eAzureIoTErrorPending ->
     (n < fuel)%nat ->
     prvIoTHubInfoGet fuel answers w
     = if is_success (xRegisterResult answers n)
          && is_success (xGetDeviceAndHubResult answers)
       then Returned (0, ucSampleIotHubHostname answers, ucSampleIotHubDeviceId answers)
              (world_after_sending connected [evTLSDisconnect])
       else AssertFailed connected)
  /\ (forall fuel : nat,
        (forall i, (i < fuel)%nat -> xRegisterResult answers i = eAzureIoTErrorPending) ->
        prvIoTHubInfoGet fuel answers w = OutOfFuel).
Proof.
  intros Hprepared k connected. split.
  - intros n fuel Hpending Hanswer Hfuel.
    rewrite (prvIoTHubInfoGet_prepared answers fuel w Hprepared). fold k. fold connected.
    unfold bind at 1.
    rewrite (prvRegister_loop_answered answers n 0 fuel connected Hpending Hanswer Hfuel).
    cbn [Nat.add]. unfold bind, configASSERT.
    destruct (is_success (xRegisterResult answers n)); [ | reflexivity].
    destruct (is_success (xGetDeviceAndHubResult answers)); reflexivity.
  - intros fuel Hpending.
    rewrite (prvIoTHubInfoGet_prepared answers fuel w Hprepared).
    unfold bind at 1.
    rewrite (prvRegister_loop_pending answers fuel 0 _ Hpending). reflexivity.
Qed.

Lemma registration_polls_until_answered_witness :
  prvIoTHubInfoGet 3 xRegisteredAtThirdPoll xInitialWorld
  = Returned (0, "hub.example.net"%string, "thermostat-1"%string)
      (world_after_sending xInitialWorld [evTLSConnect; evTLSDisconnect])
  /\ prvIoTHubInfoGet 2 xRegisteredAtThirdPoll xInitialWorld = OutOfFuel.
Proof.
  assert (Hprepared : provisioning_prepared xRegisteredAtThirdPoll).
  { split; [exists 0%nat; split; [lia | reflexivity] | ]. repeat split. }
  destruct (registration_polls_until_answered xRegisteredAtThirdPoll xInitialWorld Hprepared)
    as [Hanswered Hpending].
  split.
  - apply (Hanswered 2%nat 3%nat); [ | discriminate | lia].
    intros [ | [ | i]] Hi; [reflexivity | reflexivity | lia].
  - apply (Hpending 2%nat). intros [ | [ | i]] Hi; [reflexivity | reflexivity | lia].
Defined.

(** ** Values that are not numbers *)

Section NotANumber.

Lemma is_nan_true_Prim2SF (x : float) : is_nan x = true <-> Prim2SF x = S754_nan.
Proof.
  unfold is_nan. rewrite FloatAxioms.eqb_spec. split.
  - intros H. destruct (Prim2SF x) as [s | s | | s m e] eqn:E; try reflexivity;
      rewrite SFeqb_refl in H by discriminate; discriminate.
  - intros ->. reflexivity.
Qed.

Lemma is_nan_add_l (x y : float) : is_nan x = true -> is_nan (x + y)%float = true.
Proof.
  rewrite !is_nan_true_Prim2SF, FloatAxioms.add_spec. intros ->. reflexivity.
Qed.

Lemma is_nan_add_r (x y : float) : is_nan y = true -> is_nan (x + y)%float = true.
Proof.
  rewrite !is_nan_true_Prim2SF, FloatAxioms.add_spec. intros ->.
  destruct (Prim2SF x); reflexivity.
Qed.

Lemma is_nan_div_l (x y : float) : is_nan x = true -> is_nan (x / y)%float = true.
Proof.
  rewrite !is_nan_true_Prim2SF, FloatAxioms.div_spec. intros ->. reflexivity.
Qed.

Lemma double_gt_nan (x y : float) : is_nan x = true -> double_gt x y = false.
Proof.
  rewrite is_nan_true_Prim2SF. unfold double_gt. rewrite FloatAxioms.ltb_spec.
  intros ->. unfold SFltb. destruct (Prim2SF y); reflexivity.
Qed.

Lemma double_lt_nan (x y : float) : is_nan x = true -> double_lt x y = false.
Proof.
  rewrite is_nan_true_Prim2SF. unfold double_lt. rewrite FloatAxioms.ltb_spec.
  intros ->. reflexivity.
Qed.

(** A summation that is not a number stays so, and so does the average. *)
Lemma applyTemperatures_nan (calls : list (float * Z)) :
  forall dev : DeviceValues,
    is_nan (xDeviceTemperatureSummation dev) = true ->
    is_nan (xDeviceAverageTemperature dev) = true ->
    is_nan (xDeviceTemperatureSummation (applyTemperatures calls dev)) = true
    /\ is_nan (xDeviceAverageTemperature (applyTemperatures calls dev)) = true.
Proof.
  induction calls as [ | [v ver] calls IH]; intros dev Hsum Haverage; [auto | ].
  change (applyTemperatures ((v, ver) :: calls) dev)
    with (applyTemperatures calls (fst (prvUpdateLocalProperties v ver dev))).
  destruct (prvUpdateLocalProperties_accumulators v ver dev) as (Hsum' & _ & Haverage').
  cbv zeta in Hsum', Haverage'.
  assert (Hnan : is_nan (xDeviceTemperatureSummation
                           (fst (prvUpdateLocalProperties v ver dev))) = true)
    by (rewrite Hsum'; apply is_nan_add_l, Hsum).
  apply IH; [exact Hnan | ]. rewrite Haverage'. apply is_nan_div_l, Hnan.
Qed.

End NotANumber.

(** X16. The device never sheds a value that is not a number. An update with
    such a value changes neither the maximum nor the minimum and raises no
    maximum report, yet it becomes the current temperature; and after it, or
    after any update of device values whose summation is not a number, the
    summation and the average are not numbers, whatever updates follow. *)
Theorem not_a_number_is_never_shed
    (dev : DeviceValues) (v : float) (ver : Z) (calls : list (float * Z)) :
  is_nan v = true \/ is_nan (xDeviceTemperatureSummation dev) = true ->
  let r := prvUpdateLocalProperties v ver dev in
  (is_nan v = true ->
   snd r = false
   /\ xDeviceCurrentTemperature (fst r) = v
   /\ xDeviceMaximumTemperature (fst r) = xDeviceMaximumTemperature dev
   /\ xDeviceMinimumTemperature (fst r) = xDeviceMinimumTemperature dev)
  /\ is_nan (xDeviceTemperatureSummation (applyTemperatures calls (fst r))) = true
  /\ is_nan (xDeviceAverageTemperature (applyTemperatures calls (fst r))) = true.
Proof.
  intros Hnan r. split.
  - intros Hv. subst r. unfold prvUpdateLocalProperties.
    rewrite (double_gt_nan v _ Hv), (double_lt_nan v _ Hv). simpl. auto.
  - destruct (prvUpdateLocalProperties_accumulators v ver dev) as (Hsum & _ & Haverage).
    cbv zeta in Hsum, Haverage. fold r in Hsum, Haverage.
    assert (Hsum_nan : is_nan (xDeviceTemperatureSummation (fst r)) = true).
    { rewrite Hsum. destruct Hnan as [Hv | Hdev];
        [apply is_nan_add_r, Hv | apply is_nan_add_l, Hdev]. }
    apply applyTemperatures_nan; [exact Hsum_nan | ].
    rewrite Haverage. apply is_nan_div_l, Hsum_nan.
Qed.

Lemma not_a_number_is_never_shed_witness :
  let r := prvUpdateLocalProperties nan 4 xInitialDeviceValues in
  xDeviceMaximumTemperature (fst r) = 22%float
  /\ is_nan (xDeviceAverageTemperature
               (applyTemperatures [(25%float, 5); (20%float, 6)] (fst r))) = true.
Proof.
  destruct (not_a_number_is_never_shed xInitialDeviceValues nan 4
              [(25%float, 5); (20%float, 6)] (or_introl eq_refl))
    as (Hkept & _ & Haverage).
  split; [exact (proj1 (proj2 (proj2 (Hkept eq_refl)))) | exact Haverage].
Defined.

(** ** Failed commands *)

(** X17. A "getMaxMinReport" request is answered 501 with the empty payload in
    exactly two cases: its payload does not open with a string that fits the
    start-time buffer of 32 bytes, or the writer library refuses one of the
    seven appends of the report. *)
Theorem command_fails_exactly_when
    (lib : JSONWriterLibrary) (pxMessage : AzureIoTHubClientCommandRequest_t) (w : world) :
  pucCommandName pxMessage = "getMaxMinReport"%string ->
  prvHandleCommand lib pxMessage w
  = Returned tt (world_after_sending w [evSendCommandResponse 501 (pConstant "{}")])
  <-> (start_time_argument (pvCommandPayload pxMessage) = None
       \/ exists pucStartTime,
            start_time_argument (pvCommandPayload pxMessage) = Some pucStartTime
            /\ writer_accepts lib (xEmptyWriter sizeof_ucCommandPayloadBuffer)
                 (max_min_report (xDevice w) pucStartTime) = false).
Proof.
  intros Hname. rewrite prvHandleCommand_reply. unfold command_reply.
  change sampleazureiotCOMMAND_MAX_MIN_REPORT with "getMaxMinReport"%string.
  rewrite Hname, String.eqb_refl.
  pose proof (prvInvokeMaxMinCommand_result lib (pvCommandPayload pxMessage) (xDevice w))
    as Hr.
  cbv zeta in Hr.
  assert (Hsent : forall sent1 sent2 : list event,
             Returned tt (world_after_sending w sent1)
             = Returned tt (world_after_sending w sent2) -> sent1 = sent2).
  { intros sent1 sent2 H. injection H as H. exact (app_inv_head _ _ _ H). }
  destruct (start_time_argument (pvCommandPayload pxMessage)) as [pucStartTime | ].
  - destruct (writer_accepts lib _ (max_min_report (xDevice w) pucStartTime)) eqn:Hacc.
    + rewrite Hr. cbn [fst snd is_success AzureIoTResult_eqb]. split.
      * intros H. apply Hsent in H.
        destruct (0 <? lBytesUsed lib _); discriminate.
      * intros [H | (t & H & Hno)]; [discriminate | ].
        injection H as <-. congruence.
    + rewrite Hr. split; [ | reflexivity]. intros _. right. eauto.
  - rewrite Hr. split; [ | reflexivity]. intros _. left. reflexivity.
Qed.

Lemma command_fails_exactly_when_witness :
  prvHandleCommand (xBoundedWriter 6)
    {| pucCommandName := "getMaxMinReport";
       pvCommandPayload := [tkString "2023-01-10T09:00:00Z"] |} xInitialWorld
  = Returned tt
      (world_after_sending xInitialWorld [evSendCommandResponse 501 (pConstant "{}")]).
Proof.
  apply (command_fails_exactly_when (xBoundedWriter 6)
           {| pucCommandName := "getMaxMinReport";
              pvCommandPayload := [tkString "2023-01-10T09:00:00Z"] |}
           xInitialWorld eq_refl).
  right. exists "2023-01-10T09:00:00Z"%string. split; reflexivity.
Defined.

(** ** Passes with nothing to deliver *)

(** X18. The inner loop reports the maximum on every pass, changed or not.
    With a writer library that never refuses, a run of passes whose publishes
    succeed and that deliver nothing stays in the inner loop, leaves the
    device values as they are, and sends on each pass the telemetry of the
    same current temperature, the report of the same maximum, and waits
    2000 ms. *)
Theorem idle_passes_repeat_the_report
    (lib : JSONWriterLibrary) (steps : list collaborator_answers) (s : session) :
  writer_never_refuses lib ->
  xPhase s = Streaming ->
  Forall (fun a => xSendTelemetryResult a = eAzureIoTSuccess
                   /\ xProcessLoopResult a = eAzureIoTSuccess
                   /\ xInbound a = []) steps ->
  let dev := xDevice (xWorld s) in
  run lib steps s
  = {| xPhase := Streaming;
       xWorld :=
         world_after_sending (xWorld s)
           (flat_map
              (fun _ => [ evSendTelemetry (xDeviceCurrentTemperature dev);
                          reported lib
                            (max_temperature_tokens (xDeviceMaximumTemperature dev));
                          evTaskDelay 2000 ])
              steps) |}.
Proof.
  intros Hlib Hphase Hsteps. revert s Hphase.
  induction Hsteps as [ | a steps (Htelemetry & Hpoll & Hinbound) _ IH]; intros s Hphase dev.
  - cbn [run fold_left flat_map]. destruct s as [p [d sent]]. cbn in *. subst p.
    unfold world_after_sending. cbn. rewrite app_nil_r. reflexivity.
  - change (run lib (a :: steps) s) with (run lib steps (step lib a s)).
    assert (Hstep : step lib a s
                    = {| xPhase := Streaming;
                         xWorld :=
                           world_after_sending (xWorld s)
                             [ evSendTelemetry (xDeviceCurrentTemperature dev);
                               reported lib
                                 (max_temperature_tokens (xDeviceMaximumTemperature dev));
                               evTaskDelay 2000 ] |}).
    { unfold step. rewrite Hphase. unfold run_phase.
      rewrite (prvAzureDemoTask_stream_pass lib Hlib a _ Htelemetry Hpoll), Hinbound.
      cbn [deliver]. unfold bind, ret, emit, world_after_sending. cbn [xDevice xSent].
      rewrite <- app_assoc. reflexivity. }
    rewrite Hstep, IH by reflexivity.
    cbn [xWorld flat_map]. rewrite world_after_sending_app. reflexivity.
Qed.

Lemma idle_passes_repeat_the_report_witness :
  run xUnboundedWriter [xAllSucceed; xAllSucceed]
    {| xPhase := Streaming; xWorld := xInitialWorld |}
  = {| xPhase := Streaming;
       xWorld :=
         world_after_sending xInitialWorld
           [ evSendTelemetry 22%float;
             reported xUnboundedWriter (max_temperature_tokens 22%float);
             evTaskDelay 2000;
             evSendTelemetry 22%float;
             reported xUnboundedWriter (max_temperature_tokens 22%float);
             evTaskDelay 2000 ] |}.
Proof.
  apply (idle_passes_repeat_the_report xUnboundedWriter [xAllSucceed; xAllSucceed]
           {| xPhase := Streaming; xWorld := xInitialWorld |}
           xUnboundedWriter_never_refuses eq_refl).
  repeat constructor.
Defined.
